(** * TVAgent: the connection-lifecycle manager, embedded and verified

    Two source files are modelled:
    - [src/unnamed/part_000]: the agent with capped exponential backoff, a
      bounded number of reconnect attempts and a health check
      (module [Backoff] below);
    - [src/tvagent.js]: the agent with a fixed reconnect delay
      (module [Fixed] below).

    The JavaScript globals become the fields of one record [State]; every
    callback of the source ([ws.on("open")], the [setInterval] bodies, ...)
    becomes a function [State -> State]; what the process does to the outside
    world (frames sent, shell commands, HTTP posts, timers armed and
    cancelled, process exit) is appended to the [log] field.  [console.log]
    output is not modelled. *)

From stdpp Require Import base option list strings gmap.
From Stdlib Require Import ZArith DecimalString Lia.

Set Warnings "-register-all".

Local Open Scope string_scope.
Local Open Scope Z_scope.

(** ** JavaScript values reaching the agent

    [JSON.parse] delivers a [json]; reading a property may in addition
    deliver [undefined] or a member inherited from [Object.prototype].
    Numbers are restricted to the integers a double holds exactly and
    prints digit by digit (the safe integers); fractions, and the exponent
    notation that starts at [1e21], are not modelled. *)

Inductive json : Type :=
| JNull
| JBool (b : bool)
| JNum (n : Z)
| JStr (s : string)
| JArr (items : list json)
| JObj (props : list (string * json)).

Inductive value : Type :=
| Undefined
| Json (j : json)
| Builtin (name : string)      (* a native function object *)
| ObjectPrototype.             (* the object [Object.prototype] *)

(** Own property of a parsed object; [props] lists each name once. *)
Fixpoint own (name : string) (props : list (string * json)) : option json :=
  match props with
  | [] => None
  | (k, v) :: rest => if String.eqb k name then Some v else own name rest
  end.

(** What every plain object inherits (ECMAScript 20.1.3 and Annex B.2.2);
    [constructor] is the function [Object], [__proto__] is an accessor that
    yields the prototype of the receiver. *)
Definition Object_prototype : gmap string value :=
  list_to_map
    [ ("constructor", Builtin "Object");
      ("hasOwnProperty", Builtin "hasOwnProperty");
      ("isPrototypeOf", Builtin "isPrototypeOf");
      ("propertyIsEnumerable", Builtin "propertyIsEnumerable");
      ("toLocaleString", Builtin "toLocaleString");
      ("toString", Builtin "toString");
      ("valueOf", Builtin "valueOf");
      ("__defineGetter__", Builtin "__defineGetter__");
      ("__defineSetter__", Builtin "__defineSetter__");
      ("__lookupGetter__", Builtin "__lookupGetter__");
      ("__lookupSetter__", Builtin "__lookupSetter__");
      ("__proto__", ObjectPrototype) ].

Definition inherited (name : string) : value :=
  default Undefined (Object_prototype !! name).

(** [Number.prototype.toString] on a safe integer: plain decimal. *)
Definition Number_toString (n : Z) : string :=
  NilZero.string_of_int (Z.to_int n).

(** [ToString] on a parsed value; [None] is a thrown [TypeError].  An array
    is joined with commas, [null] elements printing as the empty string.  A
    parsed object prints through the inherited [Object.prototype.toString]
    unless it has an own [toString] property: such a property holds parsed
    data, which is not callable, and the fallback [valueOf] cannot return a
    primitive either, so the conversion throws. *)
Fixpoint json_ToString (j : json) : option string :=
  match j with
  | JNull => Some "null"
  | JBool b => Some (if b then "true" else "false")
  | JNum n => Some (Number_toString n)
  | JStr s => Some s
  | JArr items =>
      (fix join (l : list json) : option string :=
         match l with
         | [] => Some ""
         | x :: rest =>
             match (match x with JNull => Some "" | _ => json_ToString x end) with
             | None => None
             | Some s =>
                 match rest with
                 | [] => Some s
                 | _ :: _ =>
                     match join rest with
                     | None => None
                     | Some r => Some (s +:+ "," +:+ r)
                     end
                 end
             end
         end) items
  | JObj props =>
      match own "toString" props with
      | Some _ => None
      | None => Some "[object Object]"
      end
  end.

Definition ToString (v : value) : option string :=
  match v with
  | Undefined => Some "undefined"
  | Json j => json_ToString j
  | Builtin name => Some ("function " +:+ name +:+ "() { [native code] }")
  | ObjectPrototype => Some "[object Object]"
  end.

(** No symbol reaches the agent, so [ToPropertyKey] is [ToString]. *)
Definition ToPropertyKey (v : value) : option string := ToString v.

Definition ToBoolean (v : value) : bool :=
  match v with
  | Undefined => false
  | Json JNull => false
  | Json (JBool b) => b
  | Json (JNum n) => negb (n =? 0)
  | Json (JStr s) => negb (String.eqb s "")
  | _ => true
  end.

(** [data.name] for the names the handlers read ([type], [target],
    [command]): none of them is defined on a built-in prototype, so only an
    object's own properties can supply them.  [None] is the [TypeError] of
    reading a property of [null]. *)
Definition Get (data : json) (name : string) : option value :=
  match data with
  | JNull => None
  | JObj props =>
      Some (match own name props with
            | Some v => Json v
            | None => inherited name
            end)
  | _ => Some Undefined
  end.

(** [v === "s"] *)
Definition is_string (v : value) (s : string) : bool :=
  match v with
  | Json (JStr s') => String.eqb s' s
  | _ => false
  end.

(** ** The command table (identical in both files) *)

Definition COMMAND_MAP : gmap string Z :=
  list_to_map
    [ ("sleep", 223); ("wake", 224); ("power", 26);
      ("volup", 24); ("voldown", 25); ("mute", 164) ].

(** [COMMAND_MAP[key]]: an own entry, else whatever the object literal
    inherits, else [undefined]. *)
Definition COMMAND_MAP_get (key : string) : value :=
  match COMMAND_MAP !! key with
  | Some code => Json (JNum code)
  | None => inherited key
  end.

(** The local [code] of [sendKey]: [COMMAND_MAP[command] || command]. *)
Definition keyCode (command : value) : option value :=
  match ToPropertyKey command with
  | None => None
  | Some key =>
      let hit := COMMAND_MAP_get key in
      Some (if ToBoolean hit then hit else command)
  end.

(** The shell line handed to [exec]. *)
Definition adb_keyevent (code : value) : option string :=
  match ToString code with
  | None => None
  | Some c => Some ("adb shell input keyevent " +:+ c)
  end.

(** ** The process and its surroundings *)

(** [tvId], [deviceModel], [modelTv] and [localIp] are computed once at
    start-up by the device-information helpers. *)
Record Device : Type := {
  tvId : string;
  deviceModel : string;
  modelTv : string;
  localIp : string
}.

(** [ws.readyState] *)
Inductive ReadyState : Type := CONNECTING | OPEN | CLOSING | CLOSED.

(** The transport object held in [ws]; [listening] is cleared by
    [removeAllListeners]. *)
Record Socket : Type := {
  readyState : ReadyState;
  listening : bool
}.

Definition is_open (o : option Socket) : bool :=
  match o with
  | Some {| readyState := OPEN |} => true
  | _ => false
  end.

Definition open_or_connecting (sock : Socket) : bool :=
  match readyState sock with
  | OPEN | CONNECTING => true
  | _ => false
  end.

(** Timers of the runtime: the three call sites of [setInterval] and
    [setTimeout] give the three kinds. *)
Definition Handle : Type := nat.

Inductive TimerKind : Type := PingTimer | HealthTimer | ReconnectTimer.

Record Timer : Type := {
  timer_id : Handle;
  timer_kind : TimerKind;
  timer_delay : Z
}.

#[global] Instance TimerKind_eq_dec : EqDecision TimerKind.
Proof. solve_decision. Defined.

(** Body of the registration, on the socket and over HTTP. *)
Record Registration : Type := {
  reg_tv_id : string;
  reg_model : string;
  reg_ip : string;
  reg_modeltv : string;
  reg_cabangid : value
}.

(** Frames the agent sends, before [JSON.stringify]; [time] stands for the
    ISO rendering of the clock. *)
Inductive OutMsg : Type :=
| Register (body : Registration)
| Ping (tv_id ip : string) (time : Z)
| Confirm (tv_id : string) (command : value) (status : string) (time : Z).

(** What the process does to the outside world. *)
Inductive Effect : Type :=
| ENewSocket                                   (* new WebSocket(SERVER_URL) *)
| ESend (m : OutMsg)                           (* ws.send(JSON.stringify m) *)
| EPong                                        (* ws.pong() *)
| ERemoveAllListeners                          (* ws.removeAllListeners() *)
| EClose                                       (* ws.close() *)
| ETerminate                                   (* ws.terminate() *)
| EExec (line : string)                        (* exec(line, callback) *)
| EPost (body : Registration)                  (* axios.post(SERVER_URL_DAFTAR, body) *)
| ESetTimer (k : TimerKind) (h : Handle) (d : Z) (* setInterval / setTimeout *)
| EClearTimer (h : Handle)                     (* clearInterval / clearTimeout *)
| EExpired (h : Handle)                        (* a one-shot timer ran and is gone *)
| EUnlink                                      (* fs.unlinkSync(lockPath) *)
| EExit (code : Z).                            (* the process ends *)

(** The globals of the script, followed by the part of the environment they
    interact with. *)
Record State : Type := MkState {
  ws : option Socket;
  pingTimer : option Handle;
  reconnectTimer : option Handle;
  isReconnecting : bool;
  isRegistered : bool;
  reconnectAttempts : Z;
  lastActivityTime : Z;
  healthCheckInterval : option Handle;
  timers : list Timer;          (* timers outstanding in the runtime *)
  nextHandle : Handle;          (* next fresh timer handle *)
  pendingPosts : nat;           (* registrations awaiting their response *)
  lockFile : bool;              (* fs.existsSync(lockPath) *)
  log : list Effect;            (* newest first *)
  exited : option Z             (* exit status once the process has ended *)
}.

Definition set_ws v s := MkState v (pingTimer s) (reconnectTimer s) (isReconnecting s) (isRegistered s) (reconnectAttempts s) (lastActivityTime s) (healthCheckInterval s) (timers s) (nextHandle s) (pendingPosts s) (lockFile s) (log s) (exited s).
Definition set_pingTimer v s := MkState (ws s) v (reconnectTimer s) (isReconnecting s) (isRegistered s) (reconnectAttempts s) (lastActivityTime s) (healthCheckInterval s) (timers s) (nextHandle s) (pendingPosts s) (lockFile s) (log s) (exited s).
Definition set_reconnectTimer v s := MkState (ws s) (pingTimer s) v (isReconnecting s) (isRegistered s) (reconnectAttempts s) (lastActivityTime s) (healthCheckInterval s) (timers s) (nextHandle s) (pendingPosts s) (lockFile s) (log s) (exited s).
Definition set_isReconnecting v s := MkState (ws s) (pingTimer s) (reconnectTimer s) v (isRegistered s) (reconnectAttempts s) (lastActivityTime s) (healthCheckInterval s) (timers s) (nextHandle s) (pendingPosts s) (lockFile s) (log s) (exited s).
Definition set_isRegistered v s := MkState (ws s) (pingTimer s) (reconnectTimer s) (isReconnecting s) v (reconnectAttempts s) (lastActivityTime s) (healthCheckInterval s) (timers s) (nextHandle s) (pendingPosts s) (lockFile s) (log s) (exited s).
Definition set_reconnectAttempts v s := MkState (ws s) (pingTimer s) (reconnectTimer s) (isReconnecting s) (isRegistered s) v (lastActivityTime s) (healthCheckInterval s) (timers s) (nextHandle s) (pendingPosts s) (lockFile s) (log s) (exited s).
Definition set_lastActivityTime v s := MkState (ws s) (pingTimer s) (reconnectTimer s) (isReconnecting s) (isRegistered s) (reconnectAttempts s) v (healthCheckInterval s) (timers s) (nextHandle s) (pendingPosts s) (lockFile s) (log s) (exited s).
Definition set_healthCheckInterval v s := MkState (ws s) (pingTimer s) (reconnectTimer s) (isReconnecting s) (isRegistered s) (reconnectAttempts s) (lastActivityTime s) v (timers s) (nextHandle s) (pendingPosts s) (lockFile s) (log s) (exited s).
Definition set_timers v s := MkState (ws s) (pingTimer s) (reconnectTimer s) (isReconnecting s) (isRegistered s) (reconnectAttempts s) (lastActivityTime s) (healthCheckInterval s) v (nextHandle s) (pendingPosts s) (lockFile s) (log s) (exited s).
Definition set_nextHandle v s := MkState (ws s) (pingTimer s) (reconnectTimer s) (isReconnecting s) (isRegistered s) (reconnectAttempts s) (lastActivityTime s) (healthCheckInterval s) (timers s) v (pendingPosts s) (lockFile s) (log s) (exited s).
Definition set_pendingPosts v s := MkState (ws s) (pingTimer s) (reconnectTimer s) (isReconnecting s) (isRegistered s) (reconnectAttempts s) (lastActivityTime s) (healthCheckInterval s) (timers s) (nextHandle s) v (lockFile s) (log s) (exited s).
Definition set_lockFile v s := MkState (ws s) (pingTimer s) (reconnectTimer s) (isReconnecting s) (isRegistered s) (reconnectAttempts s) (lastActivityTime s) (healthCheckInterval s) (timers s) (nextHandle s) (pendingPosts s) v (log s) (exited s).
Definition set_log v s := MkState (ws s) (pingTimer s) (reconnectTimer s) (isReconnecting s) (isRegistered s) (reconnectAttempts s) (lastActivityTime s) (healthCheckInterval s) (timers s) (nextHandle s) (pendingPosts s) (lockFile s) v (exited s).
Definition set_exited v s := MkState (ws s) (pingTimer s) (reconnectTimer s) (isReconnecting s) (isRegistered s) (reconnectAttempts s) (lastActivityTime s) (healthCheckInterval s) (timers s) (nextHandle s) (pendingPosts s) (lockFile s) (log s) v.

(** *** Runtime primitives *)

Definition emit (e : Effect) (s : State) : State := set_log (e :: log s) s.

(** [setInterval(f, d)] and [setTimeout(f, d)]: a fresh handle, one more
    outstanding timer. *)
Definition setTimer (k : TimerKind) (d : Z) (s : State) : Handle * State :=
  let h := nextHandle s in
  let t := {| timer_id := h; timer_kind := k; timer_delay := d |} in
  (h, emit (ESetTimer k h d) (set_nextHandle (S h) (set_timers (t :: timers s) s))).

Definition drop_timer (h : Handle) (l : list Timer) : list Timer :=
  filter (λ t, timer_id t ≠ h) l.

(** [clearInterval(h)] and [clearTimeout(h)]; harmless on a handle that is
    no longer outstanding. *)
Definition clearTimer (h : Handle) (s : State) : State :=
  emit (EClearTimer h) (set_timers (drop_timer h (timers s)) s).

(** The global that holds the handle of each kind of timer. *)
Definition var_of (k : TimerKind) (s : State) : option Handle :=
  match k with
  | PingTimer => pingTimer s
  | HealthTimer => healthCheckInterval s
  | ReconnectTimer => reconnectTimer s
  end.

Definition set_var (k : TimerKind) (v : option Handle) (s : State) : State :=
  match k with
  | PingTimer => set_pingTimer v s
  | HealthTimer => set_healthCheckInterval v s
  | ReconnectTimer => set_reconnectTimer v s
  end.

(** [if (x) clearInterval(x);] (or [clearTimeout]): the global keeps the
    handle. *)
Definition cancel (k : TimerKind) (s : State) : State :=
  match var_of k s with
  | Some h => clearTimer h s
  | None => s
  end.

(** [if (x) { clearInterval(x); x = null; }] *)
Definition cancel_and_forget (k : TimerKind) (s : State) : State :=
  match var_of k s with
  | Some h => set_var k None (clearTimer h s)
  | None => s
  end.

(** [x = setInterval(callback, d)] (or [setTimeout]) *)
Definition arm (k : TimerKind) (d : Z) (s : State) : State :=
  let '(h, s) := setTimer k d s in
  set_var k (Some h) s.

(** The outstanding timers of one kind. *)
Definition outstanding (k : TimerKind) (s : State) : list Timer :=
  filter (λ t, timer_kind t = k) (timers s).

(** Method calls on the transport. *)
Definition ws_removeAllListeners (sock : Socket) (s : State) : State :=
  emit ERemoveAllListeners
       (set_ws (Some {| readyState := readyState sock; listening := false |}) s).

Definition closing (sock : Socket) : Socket :=
  {| readyState := match readyState sock with CLOSED => CLOSED | _ => CLOSING end;
     listening := listening sock |}.

Definition ws_close (sock : Socket) (s : State) : State :=
  emit EClose (set_ws (Some (closing sock)) s).

Definition ws_terminate (sock : Socket) (s : State) : State :=
  emit ETerminate (set_ws (Some (closing sock)) s).

(** *** Code shared verbatim by the two files *)

(** [cleanup()] *)
Definition cleanup (s : State) : State :=
  let s := cancel PingTimer s in
  let s := cancel ReconnectTimer s in
  let s :=
    match ws s with
    | Some sock =>
        let s := ws_removeAllListeners sock s in
        if open_or_connecting sock
        then ws_close {| readyState := readyState sock; listening := false |} s
        else s
    | None => s
    end in
  let s := if lockFile s then emit EUnlink (set_lockFile false s) else s in
  emit (EExec "termux-wake-unlock") s.

(** [process.exit(code)]: the listener registered with
    [process.on("exit", cleanup)] runs, then the process is gone. *)
Definition process_exit (code : Z) (s : State) : State :=
  set_exited (Some code) (emit (EExit code) (cleanup s)).

(** [sendKey(command)]; [None] when evaluating it throws, before anything was
    executed. *)
Definition sendKey (command : value) (s : State) : option State :=
  match keyCode command with
  | None => None
  | Some code =>
      match adb_keyevent code with
      | None => None
      | Some line => Some (emit (EExec line) s)
      end
  end.

(** [registerToServer()] up to its [await]: the request leaves unless the
    registration is already confirmed. *)
Definition registerToServer (dev : Device) (cabangId : value) (s : State) : State :=
  if isRegistered s then s
  else
    emit (EPost {| reg_tv_id := tvId dev; reg_model := deviceModel dev;
                   reg_ip := localIp dev; reg_modeltv := modelTv dev;
                   reg_cabangid := cabangId |})
         (set_pendingPosts (S (pendingPosts s)) s).

(** [registerToServer()] after its [await]: the response arrived ([ok]) or
    the request failed. *)
Definition registerToServer_resume (ok : bool) (s : State) : State :=
  let s := set_pendingPosts (Nat.pred (pendingPosts s)) s in
  if ok then set_isRegistered true s else s.

(** The module-level initialisation, lock file written, before the first
    [connect()]; [t0] is the clock at load time. *)
Definition init (t0 : Z) : State :=
  {| ws := None; pingTimer := None; reconnectTimer := None;
     isReconnecting := false; isRegistered := false;
     reconnectAttempts := 0; lastActivityTime := t0;
     healthCheckInterval := None;
     timers := []; nextHandle := O; pendingPosts := O; lockFile := true;
     log := []; exited := None |}.

(** What the environment can make happen. *)
Inductive Payload : Type :=
| SyntaxError                 (* JSON.parse throws *)
| Parsed (data : json).       (* JSON.parse returns *)

Inductive Event : Type :=
| WsOpen (now : Z)                                (* "open" *)
| WsMessage (now : Z) (msg : Payload)             (* "message" *)
| WsClose                                         (* "close" *)
| WsError                                         (* "error" *)
| WsPing (now : Z)                                (* "ping" frame *)
| WsPong (now : Z)                                (* "pong" frame *)
| WsClosing                                       (* the closing handshake starts *)
| PingTick (now : Z) (ip : string) (sendOk : bool) (* the ping interval elapses *)
| HealthTick (now : Z)                            (* the health-check interval elapses *)
| ReconnectFire (ctorOk : bool)                   (* the reconnect timeout elapses *)
| HttpResponse (ok : bool)                        (* a registration request settles *)
| Signal.                                         (* SIGINT or SIGTERM *)

(** Listeners run only on a transport that still has them. *)
Definition listening_socket (s : State) : option Socket :=
  match ws s with
  | Some sock => if listening sock then Some sock else None
  | None => None
  end.

Definition set_readyState (r : ReadyState) (sock : Socket) (s : State) : State :=
  set_ws (Some {| readyState := r; listening := listening sock |}) s.

(** The runtime retires the first outstanding one-shot timer of a kind. *)
Definition expire (k : TimerKind) (s : State) : option State :=
  match outstanding k s with
  | [] => None
  | t :: _ => Some (emit (EExpired (timer_id t))
                         (set_timers (drop_timer (timer_id t) (timers s)) s))
  end.

(** ** [src/unnamed/part_000]: capped exponential backoff, bounded attempts,
    health check *)

Module Backoff.

Definition cabangId : value := Json (JNum 1).
Definition PING_INTERVAL : Z := 60 * 1000.
Definition RECONNECT_DELAY_MIN : Z := 5000.
Definition RECONNECT_DELAY_MAX : Z := 300000.
Definition MAX_RECONNECT_ATTEMPTS : Z := 100.

(** The local [delay] of [scheduleReconnect], as a function of the
    incremented counter.  [Math.pow(2, n)] is [2 ^ n] for [0 <= n]; the
    counter is at least 1 where the source evaluates it. *)
Definition delay (reconnectAttempts : Z) : Z :=
  Z.min (RECONNECT_DELAY_MIN * 2 ^ (reconnectAttempts - 1)) RECONNECT_DELAY_MAX.

(** [scheduleReconnect()] *)
Definition scheduleReconnect (s : State) : State :=
  if isReconnecting s then s
  else if MAX_RECONNECT_ATTEMPTS <=? reconnectAttempts s
  then process_exit 1 (cleanup s)
  else
    let s := set_isReconnecting true s in
    let s := set_reconnectAttempts (reconnectAttempts s + 1) s in
    let d := delay (reconnectAttempts s) in
    let s := cancel_and_forget PingTimer s in
    let s := cancel_and_forget HealthTimer s in
    let s := cancel ReconnectTimer s in
    arm ReconnectTimer d s.

(** [connect()]; [ctorOk] tells whether [new WebSocket(SERVER_URL)]
    returns rather than throws. *)
Definition connect (ctorOk : bool) (s : State) : State :=
  let s := match ws s with
           | Some sock =>
               let s := ws_removeAllListeners sock s in
               let s := if open_or_connecting sock then emit EClose s else s in
               set_ws None s
           | None => s
           end in
  if ctorOk
  then emit ENewSocket (set_ws (Some {| readyState := CONNECTING; listening := true |}) s)
  else scheduleReconnect s.

Section Handlers.
Context (dev : Device).

Definition regData : Registration :=
  {| reg_tv_id := tvId dev; reg_model := deviceModel dev;
     reg_ip := localIp dev; reg_modeltv := modelTv dev;
     reg_cabangid := cabangId |}.

(** [ws.on("open", ...)] *)
Definition on_open (now : Z) (s : State) : State :=
  let s := set_reconnectAttempts 0 s in
  let s := set_isReconnecting false s in
  let s := set_lastActivityTime now s in
  let s := emit (ESend (Register regData)) s in
  let s := registerToServer dev cabangId s in
  let s := cancel_and_forget PingTimer s in
  let s := cancel_and_forget HealthTimer s in
  let s := arm PingTimer PING_INTERVAL s in
  arm HealthTimer (PING_INTERVAL * 2) s.

(** The callback of the ping interval; [ip] is what [getLocalIp()]
    returns, [sendOk] whether [ws.send] returns rather than throws. *)
Definition on_ping_timer (now : Z) (ip : string) (sendOk : bool) (s : State) : State :=
  if is_open (ws s) then
    if sendOk
    then set_lastActivityTime now (emit (ESend (Ping (tvId dev) ip now)) s)
    else scheduleReconnect s
  else scheduleReconnect s.

(** The callback of the health-check interval. *)
Definition on_health_timer (now : Z) (s : State) : State :=
  let idleTime := now - lastActivityTime s in
  if PING_INTERVAL * 3 <? idleTime then
    let s := match ws s with
             | Some sock => ws_terminate sock s
             | None => s
             end in
    scheduleReconnect s
  else s.

(** [ws.on("message", ...)]; every [None] below is an exception that
    the handler's [catch] swallows. *)
Definition on_message (now : Z) (msg : Payload) (s : State) : State :=
  let s := set_lastActivityTime now s in
  match msg with
  | SyntaxError => s
  | Parsed data =>
      match Get data "type" with
      | None => s
      | Some type =>
          if is_string type "welcome" then s
          else if is_string type "pong" then s
          else
            match Get data "target" with
            | None => s
            | Some target =>
                if is_string target (tvId dev) || is_string target "all" then
                  match Get data "command" with
                  | None => s
                  | Some command =>
                      match sendKey command s with
                      | None => s
                      | Some s =>
                          if is_open (ws s)
                          then emit (ESend (Confirm (tvId dev) command "ok" now)) s
                          else s
                      end
                  end
                else s
            end
      end
  end.

(** [ws.on("close", ...)] *)
Definition on_close (s : State) : State := scheduleReconnect s.

(** [ws.on("error", ...)]: logs only. *)
Definition on_error (s : State) : State := s.

(** [ws.on("ping", ...)] *)
Definition on_ping (now : Z) (s : State) : State :=
  emit EPong (set_lastActivityTime now s).

(** [ws.on("pong", ...)] *)
Definition on_pong (now : Z) (s : State) : State :=
  set_lastActivityTime now s.

(** The callback of the reconnect timeout. *)
Definition on_reconnect_timer (ctorOk : bool) (s : State) : State :=
  connect ctorOk (set_isReconnecting false s).

(** One turn of the event loop.  An event that cannot be delivered (no
    listening transport in a suitable [readyState], no outstanding timer
    of the kind, no request in flight, process already gone) leaves the
    state as it is. *)
Definition step (e : Event) (s : State) : State :=
  match exited s with
  | Some _ => s
  | None =>
      match e with
      | WsOpen now =>
          match listening_socket s with
          | Some ({| readyState := CONNECTING |} as sock) =>
              on_open now (set_readyState OPEN sock s)
          | _ => s
          end
      | WsMessage now msg =>
          match listening_socket s with
          | Some {| readyState := OPEN |} | Some {| readyState := CLOSING |} =>
              on_message now msg s
          | _ => s
          end
      | WsClose =>
          match listening_socket s with
          | Some {| readyState := CLOSED |} | None => s
          | Some sock => on_close (set_readyState CLOSED sock s)
          end
      | WsError =>
          match listening_socket s with
          | Some _ => on_error s
          | None => s
          end
      | WsPing now =>
          match listening_socket s with
          | Some {| readyState := OPEN |} | Some {| readyState := CLOSING |} =>
              on_ping now s
          | _ => s
          end
      | WsPong now =>
          match listening_socket s with
          | Some {| readyState := OPEN |} | Some {| readyState := CLOSING |} =>
              on_pong now s
          | _ => s
          end
      | WsClosing =>
          match ws s with
          | Some ({| readyState := OPEN |} as sock) => set_readyState CLOSING sock s
          | _ => s
          end
      | PingTick now ip sendOk =>
          match outstanding PingTimer s with
          | [] => s
          | _ :: _ => on_ping_timer now ip sendOk s
          end
      | HealthTick now =>
          match outstanding HealthTimer s with
          | [] => s
          | _ :: _ => on_health_timer now s
          end
      | ReconnectFire ctorOk =>
          match expire ReconnectTimer s with
          | None => s
          | Some s => on_reconnect_timer ctorOk s
          end
      | HttpResponse ok =>
          match pendingPosts s with
          | O => s
          | S _ => registerToServer_resume ok s
          end
      | Signal => process_exit 0 (cleanup s)
      end
  end.

(** The state after a sequence of events, oldest first. *)
Definition run (evs : list Event) (s : State) : State :=
  fold_left (λ s e, step e s) evs s.

(** The script runs to its last line, [connect()]. *)
Definition boot (t0 : Z) (ctorOk : bool) : State :=
  connect ctorOk (init t0).

End Handlers.

End Backoff.

(** ** [src/tvagent.js]: fixed reconnect delay *)

Module Fixed.

Definition cabangId : value := Json (JStr "CABANG-001").
Definition PING_INTERVAL : Z := 60 * 1000.
Definition RECONNECT_DELAY : Z := 5000.

(** An exception that no [try] of this file encloses: the runtime ends the
    process with status 1, and the exit listener runs. *)
Definition uncaught (s : State) : State := process_exit 1 s.

(** [scheduleReconnect()] *)
Definition scheduleReconnect (s : State) : State :=
  if isReconnecting s then s
  else
    let s := set_isReconnecting true s in
    let s := cancel_and_forget PingTimer s in
    let s := cancel ReconnectTimer s in
    arm ReconnectTimer RECONNECT_DELAY s.

(** [connect()] *)
Definition connect (ctorOk : bool) (s : State) : State :=
  let s := match ws s with
           | Some sock =>
               let s := ws_removeAllListeners sock s in
               let s := if open_or_connecting sock then emit EClose s else s in
               set_ws None s
           | None => s
           end in
  if ctorOk
  then emit ENewSocket (set_ws (Some {| readyState := CONNECTING; listening := true |}) s)
  else uncaught s.

Section Handlers.
Context (dev : Device).

Definition regData : Registration :=
  {| reg_tv_id := tvId dev; reg_model := deviceModel dev;
     reg_ip := localIp dev; reg_modeltv := modelTv dev;
     reg_cabangid := cabangId |}.

(** [ws.on("open", ...)] *)
Definition on_open (s : State) : State :=
  let s := set_isReconnecting false s in
  let s := emit (ESend (Register regData)) s in
  let s := registerToServer dev cabangId s in
  let s := cancel_and_forget PingTimer s in
  arm PingTimer PING_INTERVAL s.

(** The callback of the ping interval. *)
Definition on_ping_timer (now : Z) (ip : string) (sendOk : bool) (s : State) : State :=
  if is_open (ws s) then
    if sendOk
    then emit (ESend (Ping (tvId dev) ip now)) s
    else uncaught s
  else s.

(** [ws.on("message", ...)] *)
Definition on_message (now : Z) (msg : Payload) (s : State) : State :=
  match msg with
  | SyntaxError => s
  | Parsed data =>
      match Get data "target" with
      | None => s
      | Some target =>
          if is_string target (tvId dev) || is_string target "all" then
            match Get data "command" with
            | None => s
            | Some command =>
                match sendKey command s with
                | None => s
                | Some s =>
                    if is_open (ws s)
                    then emit (ESend (Confirm (tvId dev) command "ok" now)) s
                    else s
                end
            end
          else s
      end
  end.

(** [ws.on("close", ...)] *)
Definition on_close (s : State) : State := scheduleReconnect s.

(** [ws.on("error", ...)]: logs only. *)
Definition on_error (s : State) : State := s.

(** The callback of the reconnect timeout. *)
Definition on_reconnect_timer (ctorOk : bool) (s : State) : State :=
  connect ctorOk (set_isReconnecting false s).

(** One turn of the event loop; this file listens to neither ping nor
    pong frames and arms no health check. *)
Definition step (e : Event) (s : State) : State :=
  match exited s with
  | Some _ => s
  | None =>
      match e with
      | WsOpen now =>
          match listening_socket s with
          | Some ({| readyState := CONNECTING |} as sock) =>
              on_open (set_readyState OPEN sock s)
          | _ => s
          end
      | WsMessage now msg =>
          match listening_socket s with
          | Some {| readyState := OPEN |} | Some {| readyState := CLOSING |} =>
              on_message now msg s
          | _ => s
          end
      | WsClose =>
          match listening_socket s with
          | Some {| readyState := CLOSED |} | None => s
          | Some sock => on_close (set_readyState CLOSED sock s)
          end
      | WsError =>
          match listening_socket s with
          | Some _ => on_error s
          | None => s
          end
      | WsPing _ | WsPong _ => s
      | WsClosing =>
          match ws s with
          | Some ({| readyState := OPEN |} as sock) => set_readyState CLOSING sock s
          | _ => s
          end
      | PingTick now ip sendOk =>
          match outstanding PingTimer s with
          | [] => s
          | _ :: _ => on_ping_timer now ip sendOk s
          end
      | HealthTick _ => s
      | ReconnectFire ctorOk =>
          match expire ReconnectTimer s with
          | None => s
          | Some s => on_reconnect_timer ctorOk s
          end
      | HttpResponse ok =>
          match pendingPosts s with
          | O => s
          | S _ => registerToServer_resume ok s
          end
      | Signal => process_exit 0 (cleanup s)
      end
  end.

Definition run (evs : list Event) (s : State) : State :=
  fold_left (λ s e, step e s) evs s.

Definition boot (t0 : Z) (ctorOk : bool) : State :=
  connect ctorOk (init t0).

End Handlers.

End Fixed.

(** ** Vocabulary of the statements *)

(** The statements of the source stay folded under [simpl]. *)
Arguments cancel : simpl never.
Arguments cancel_and_forget : simpl never.
Arguments arm : simpl never.
Arguments cleanup : simpl never.
Arguments process_exit : simpl never.
Arguments registerToServer : simpl never.
Arguments sendKey : simpl never.
Arguments Backoff.scheduleReconnect : simpl never.
Arguments Backoff.connect : simpl never.
Arguments Fixed.scheduleReconnect : simpl never.
Arguments Fixed.connect : simpl never.

(** A frame can be delivered to the message listener. *)
Definition accepts_frames (s : State) : bool :=
  match exited s, listening_socket s with
  | None, Some {| readyState := OPEN |} => true
  | None, Some {| readyState := CLOSING |} => true
  | _, _ => false
  end.

(** The open listener can run. *)
Definition accepts_open (s : State) : bool :=
  match exited s, listening_socket s with
  | None, Some {| readyState := CONNECTING |} => true
  | _, _ => false
  end.

(** Registration requests sent so far. *)
Fixpoint posts (l : list Effect) : nat :=
  match l with
  | [] => O
  | EPost _ :: older => S (posts older)
  | _ :: older => posts older
  end.

(** *** Timer discipline *)

Definition timer_key (t : Timer) : Handle * TimerKind :=
  (timer_id t, timer_kind t).

(** The timers outstanding after a history, read off the log alone. *)
Fixpoint live (l : list Effect) : list (Handle * TimerKind) :=
  match l with
  | [] => []
  | ESetTimer k h _ :: older => (h, k) :: live older
  | EClearTimer h :: older => filter (λ p, p.1 ≠ h) (live older)
  | EExpired h :: older => filter (λ p, p.1 ≠ h) (live older)
  | _ :: older => live older
  end.

Definition live_of (k : TimerKind) (l : list Effect) : list (Handle * TimerKind) :=
  filter (λ p, p.2 = k) (live l).

(** Whenever a timer was armed, no timer of its kind was outstanding. *)
Fixpoint disciplined (l : list Effect) : Prop :=
  match l with
  | [] => True
  | e :: older =>
      match e with
      | ESetTimer k _ _ => live_of k older = []
      | _ => True
      end ∧ disciplined older
  end.

(** Effects that touch no timer. *)
Definition quiet (e : Effect) : bool :=
  match e with
  | ESetTimer _ _ _ | EClearTimer _ | EExpired _ => false
  | _ => true
  end.

(** The health check of [src/unnamed/part_000] has one period. *)
Definition period_ok (t : Timer) : Prop :=
  timer_kind t = HealthTimer → timer_delay t = Backoff.PING_INTERVAL * 2.

(** A stretch of the log made of timer operations only. *)
Definition timer_ops (l : list Effect) : Prop :=
  Forall (λ e, quiet e = false) l.

(** The timer table, the three globals and the log agree, and no handle is
    held twice. *)
Record timers_wf (s : State) : Prop := {
  wf_var : ∀ t, t ∈ timers s → var_of (timer_kind t) s = Some (timer_id t);
  wf_one : ∀ k, (length (outstanding k s) ≤ 1)%nat;
  wf_live : live (log s) = timer_key <$> timers s;
  wf_disciplined : disciplined (log s);
  wf_period : ∀ t, t ∈ timers s → period_ok t;
  wf_bound : ∀ k h, var_of k s = Some h → (h < nextHandle s)%nat;
  wf_distinct : ∀ k k' h, var_of k s = Some h → var_of k' s = Some h → k = k'
}.

(** *** Reconnect bookkeeping *)

Definition is_reconnect_fire (e : Event) : bool :=
  match e with
  | ReconnectFire _ => true
  | _ => false
  end.


(** Reconnect timers armed so far. *)
Fixpoint reconnects (l : list Effect) : nat :=
  match l with
  | [] => O
  | ESetTimer ReconnectTimer _ _ :: older => S (reconnects older)
  | _ :: older => reconnects older
  end.

(** The counter stays within its bound, and while a ping or health-check
    handle is held the agent is connected: nothing pending, counter reset,
    a transport in hand. *)
Record control_wf (s : State) : Prop := {
  wf_attempts : 0 ≤ reconnectAttempts s ≤ Backoff.MAX_RECONNECT_ATTEMPTS;
  wf_armed :
    exited s = None →
    is_Some (pingTimer s) ∨ is_Some (healthCheckInterval s) →
    isReconnecting s = false ∧ reconnectAttempts s = 0 ∧ is_Some (ws s)
}.


(** *** Comparing the two files *)

(** What an observer of the process sees of an effect.  Timer operations
    are internal (the two files differ in their backoff); the branch id of a
    registration is blanked (the two files carry different ones). *)
Definition blank_cabangid (b : Registration) : Registration :=
  {| reg_tv_id := reg_tv_id b; reg_model := reg_model b; reg_ip := reg_ip b;
     reg_modeltv := reg_modeltv b; reg_cabangid := Undefined |}.

Definition observable (e : Effect) : option Effect :=
  match e with
  | ESetTimer _ _ _ | EClearTimer _ | EExpired _ => None
  | ESend (Register b) => Some (ESend (Register (blank_cabangid b)))
  | EPost b => Some (EPost (blank_cabangid b))
  | _ => Some e
  end.

Fixpoint observe (l : list Effect) : list Effect :=
  match l with
  | [] => []
  | e :: older =>
      match observable e with
      | Some e' => e' :: observe older
      | None => observe older
      end
  end.

(** The message is of type [welcome] or [pong]. *)
Definition classified (data : json) : bool :=
  match Get data "type" with
  | Some type => is_string type "welcome" || is_string type "pong"
  | None => false
  end.

(** The message is for this device. *)
Definition addressed (dev : Device) (data : json) : bool :=
  match Get data "target" with
  | Some target => is_string target (tvId dev) || is_string target "all"
  | None => false
  end.

(** The events on which [src/tvagent.js] and [src/unnamed/part_000] are
    meant to behave alike, judged in the current state of the latter: all
    but those that reach what only the latter has (the [welcome] and [pong]
    branches for a message addressed to the device, the answer to a ping
    frame, the reconnect forced by a failed or impossible ping, a stale
    health check, the handling of a failed construction, the bound on
    attempts). *)
Definition shared (dev : Device) (e : Event) (s : State) : bool :=
  match e with
  | WsMessage _ (Parsed data) => negb (classified data && addressed dev data)
  | WsPing _ => false
  | WsClose => reconnectAttempts s <? Backoff.MAX_RECONNECT_ATTEMPTS
  | PingTick _ _ sendOk => sendOk && is_open (ws s)
  | HealthTick now => negb (Backoff.PING_INTERVAL * 3 <? now - lastActivityTime s)
  | ReconnectFire ctorOk => ctorOk
  | _ => true
  end.

Fixpoint shared_run (dev : Device) (evs : list Event) (s : State) : bool :=
  match evs with
  | [] => true
  | e :: evs => shared dev e s && shared_run dev evs (Backoff.step dev e s)
  end.

(** The two agents are in step: same transport, same flags, same requests
    in flight, same observable past, and a ping or reconnect timer
    outstanding in one exactly when one is outstanding in the other. *)
Record agree (s1 s2 : State) : Prop := {
  ag_ws : ws s1 = ws s2;
  ag_isReconnecting : isReconnecting s1 = isReconnecting s2;
  ag_isRegistered : isRegistered s1 = isRegistered s2;
  ag_pendingPosts : pendingPosts s1 = pendingPosts s2;
  ag_lockFile : lockFile s1 = lockFile s2;
  ag_exited : exited s1 = exited s2;
  ag_observe : observe (log s1) = observe (log s2);
  ag_timers : ∀ k, k ≠ HealthTimer →
                   (outstanding k s1 = [] ↔ outstanding k s2 = [])
}.

(** Inputs used to exercise the statements. *)
Module Sample.

Definition dev : Device :=
  {| tvId := "TV-ABCD1234"; deviceModel := "Smart TV"; modelTv := "TCL";
     localIp := "192.168.1.20" |}.

(** Connected, the transport open since time 1000. *)
Definition opened : State :=
  Backoff.run dev [WsOpen 1000] (Backoff.boot 0 true).

(** The transport was lost once; a reconnect is pending. *)
Definition pending : State :=
  Backoff.run dev [WsOpen 1000; WsClose] (Backoff.boot 0 true).

(** One hundred connection attempts in a row were refused. *)
Definition refusals : list Event :=
  mjoin (replicate 100 [WsClose; ReconnectFire true]).


(** A session both files go through alike. *)
Definition session : list Event :=
  [WsOpen 1000; WsMessage 2000 (Parsed (JObj [("target", JStr "all"); ("command", JStr "sleep")]));
   PingTick 61000 "192.168.1.20" true; HttpResponse true; WsPong 62000;
   HealthTick 121000; WsClose; ReconnectFire true; WsOpen 130000; Signal].

Definition sleep_all : json :=
  JObj [("target", JStr "all"); ("command", JStr "sleep")].

Definition constructor_all : json :=
  JObj [("target", JStr "all"); ("command", JStr "constructor")].

Definition pong_all : json :=
  JObj [("type", JStr "pong"); ("target", JStr "all")].

Definition bare_all : json :=
  JObj [("target", JStr "all")].

Definition welcome_sleep_all : json :=
  JObj [("type", JStr "welcome"); ("target", JStr "all"); ("command", JStr "sleep")].

End Sample.

(** ** Device information ([getDeviceId], [getLocalIp]) *)

(** One entry of [os.networkInterfaces()]. *)
Record NetworkInterfaceInfo : Type := {
  address : string;
  family : value;
  internal : bool
}.

(** The test of the inner loop of [getLocalIp]:
    [net.family === "IPv4" && !net.internal]. *)
Definition external_IPv4 (net : NetworkInterfaceInfo) : bool :=
  is_string (family net) "IPv4" && negb (internal net).

(** The inner loop of [getLocalIp] over [nets[name]]; [None] when it runs to
    its end without returning. *)
Fixpoint scan_interface (infos : list NetworkInterfaceInfo) : option string :=
  match infos with
  | [] => None
  | net :: rest =>
      if external_IPv4 net then Some (address net) else scan_interface rest
  end.

(** [getLocalIp()]; [nets] lists the interfaces in the order of
    [Object.keys(nets)]. *)
Fixpoint getLocalIp (nets : list (string * list NetworkInterfaceInfo)) : string :=
  match nets with
  | [] => "unknown"
  | (name, infos) :: more =>
      match scan_interface infos with
      | Some ip => ip
      | None => getLocalIp more
      end
  end.

(** [getDeviceId()].  [file] is the content of [tv_id.txt] when it exists;
    [trim] is [String.prototype.trim]; [random] is the value of
    [Math.random().toString(36).substring(2, 10).toUpperCase()].  The
    function returns the id and leaves the file as in the second
    component. *)
Definition getDeviceId (trim : string → string) (random : string)
    (file : option string) : string * option string :=
  match file with
  | Some content => (trim content, file)
  | None =>
      let newId := "TV-" +:+ random in
      (newId, Some newId)
  end.

(** ** Vocabulary of the statements about the whole agent *)

(** The value holds, at any depth of arrays, an object with an own
    [toString] property. *)
Fixpoint unprintable (j : json) : bool :=
  match j with
  | JArr items =>
      (fix any (l : list json) : bool :=
         match l with
         | [] => false
         | x :: rest => unprintable x || any rest
         end) items
  | JObj props =>
      match own "toString" props with
      | Some _ => true
      | None => false
      end
  | _ => false
  end.

(** [Number.isSafeInteger]: the integers a double holds exactly and
    [Number.prototype.toString] prints digit by digit; from [1e21] on the
    source would print an exponent. *)
Definition MAX_SAFE_INTEGER : Z := 2 ^ 53 - 1.

Definition isSafeInteger (n : Z) : bool :=
  (- MAX_SAFE_INTEGER <=? n) && (n <=? MAX_SAFE_INTEGER).

(** The first character of a printed number. *)
Definition digit_or_minus (c : Ascii.ascii) : bool :=
  existsb (Ascii.eqb c) (String.list_ascii_of_string "-0123456789").

(** The clock reading an event hands to a statement that records activity:
    the listeners for [open], [message], [ping] and [pong], and a ping that
    was sent. *)
Definition activity (e : Event) : option Z :=
  match e with
  | WsOpen now | WsMessage now _ | WsPing now | WsPong now => Some now
  | PingTick now _ true => Some now
  | _ => None
  end.

(** The process holds its lock file while it runs; once it has ended the
    lock is gone and the status tells why: 0 after a signal, 1 after the
    last permitted reconnect attempt. *)
Definition lifecycle (s : State) : Prop :=
  match exited s with
  | None => lockFile s = true
  | Some code =>
      lockFile s = false ∧
      (code = 0 ∨ code = 1 ∧ reconnectAttempts s = Backoff.MAX_RECONNECT_ATTEMPTS)
  end.

(** The events whose handlers call [scheduleReconnect]: a close, the ping
    and health-check callbacks, and a reconnect whose transport cannot be
    constructed. *)
Definition calls_scheduleReconnect (e : Event) : bool :=
  match e with
  | WsClose | PingTick _ _ _ | HealthTick _ | ReconnectFire false => true
  | _ => false
  end.

(** *** Histories *)

(** [newer] is [older] followed by effects that all satisfy [P]. *)
Definition extends (P : Effect → Prop) (older newer : list Effect) : Prop :=
  ∃ recent, newer = (recent ++ older)%list ∧ Forall P recent.

(** What [cleanup()] can do to the outside world. *)
Definition teardown (e : Effect) : Prop :=
  match e with
  | EClearTimer _ | ERemoveAllListeners | EClose | EUnlink => True
  | EExec line => line = "termux-wake-unlock"
  | _ => False
  end.

(** Everything the agent of [src/unnamed/part_000] may do to the outside
    world from its first [connect()] on: frames and requests carry this
    device's data, a confirmation has status [ok], a shell line is a key
    event or the release of the wake lock, the ping and health-check
    intervals have their fixed periods, a reconnect waits between the
    minimum and the maximum delay, and the exit status is 0 or 1. *)
Definition permitted (dev : Device) (e : Effect) : Prop :=
  match e with
  | ESend (Register body) => body = Backoff.regData dev
  | ESend (Ping tv_id _ _) => tv_id = tvId dev
  | ESend (Confirm tv_id _ status _) => tv_id = tvId dev ∧ status = "ok"
  | EPost body => body = Backoff.regData dev
  | EExec line =>
      line = "termux-wake-unlock" ∨
      ∃ code, line = "adb shell input keyevent " +:+ code
  | ESetTimer PingTimer _ d => d = Backoff.PING_INTERVAL
  | ESetTimer HealthTimer _ d => d = Backoff.PING_INTERVAL * 2
  | ESetTimer ReconnectTimer _ d =>
      Backoff.RECONNECT_DELAY_MIN ≤ d ≤ Backoff.RECONNECT_DELAY_MAX
  | EExit code => code = 0 ∨ code = 1
  | _ => True
  end.

(** *** The backoff, read off the history *)

(** Reconnects scheduled since the last registration frame, that is, since
    the transport last opened. *)
Fixpoint streak (l : list Effect) : Z :=
  match l with
  | [] => 0
  | ESend (Register _) :: _ => 0
  | ESetTimer ReconnectTimer _ _ :: older => streak older + 1
  | _ :: older => streak older
  end.

(** Every reconnect was scheduled with the delay of its rank in its
    streak. *)
Fixpoint backed_off (l : list Effect) : Prop :=
  match l with
  | [] => True
  | e :: older =>
      match e with
      | ESetTimer ReconnectTimer _ d => d = Backoff.delay (streak older + 1)
      | _ => True
      end ∧ backed_off older
  end.

(** Effects that neither open nor extend a streak. *)
Definition streak_neutral (e : Effect) : Prop :=
  match e with
  | ESend (Register _) | ESetTimer ReconnectTimer _ _ => False
  | _ => True
  end.

Definition backoff_wf (s : State) : Prop :=
  streak (log s) = reconnectAttempts s ∧ backed_off (log s).

(** *** Which event can cause which effect *)

(** The handler of the event can go through [cleanup()]: on a signal, or in
    a call of [scheduleReconnect] at the bound. *)
Definition may_exit (e : Event) : bool :=
  match e with
  | Signal => true
  | _ => calls_scheduleReconnect e
  end.

Definition may_cause (e : Event) (x : Effect) : bool :=
  match x with
  | ENewSocket =>
      match e with ReconnectFire true => true | _ => false end
  | ESend (Register _) | EPost _
  | ESetTimer PingTimer _ _ | ESetTimer HealthTimer _ _ =>
      match e with WsOpen _ => true | _ => false end
  | ESend (Ping _ ip time) =>
      match e with
      | PingTick now ip' true => (time =? now) && String.eqb ip ip'
      | _ => false
      end
  | ESend (Confirm _ _ _ time) =>
      match e with WsMessage now (Parsed _) => time =? now | _ => false end
  | EPong =>
      match e with WsPing _ => true | _ => false end
  | ETerminate =>
      match e with HealthTick _ => true | _ => false end
  | EExpired _ =>
      match e with ReconnectFire _ => true | _ => false end
  | ERemoveAllListeners | EClose =>
      match e with ReconnectFire _ => true | _ => may_exit e end
  | EExec _ =>
      match e with WsMessage _ (Parsed _) => true | _ => may_exit e end
  | ESetTimer ReconnectTimer _ _ => calls_scheduleReconnect e
  | EClearTimer _ =>
      match e with WsOpen _ => true | _ => may_exit e end
  | EUnlink | EExit _ => may_exit e
  end.

(** *** One transport at a time *)

(** After the history, the transport constructed last still has its
    listeners. *)
Fixpoint attached (l : list Effect) : bool :=
  match l with
  | [] => false
  | ENewSocket :: _ => true
  | ERemoveAllListeners :: _ => false
  | _ :: older => attached older
  end.

(** Whenever a transport was constructed, the listeners of the previous one
    had been removed. *)
Fixpoint released (l : list Effect) : Prop :=
  match l with
  | [] => True
  | e :: older =>
      match e with
      | ENewSocket => attached older = false
      | _ => True
      end ∧ released older
  end.

Definition socket_neutral (e : Effect) : Prop :=
  match e with
  | ENewSocket | ERemoveAllListeners => False
  | _ => True
  end.

(** [ws] holds a transport that has its listeners. *)
Definition hears (s : State) : bool :=
  match ws s with
  | Some sock => listening sock
  | None => false
  end.

Definition transport_wf (s : State) : Prop :=
  released (log s) ∧ attached (log s) = hears s.

(** *** Confirmations *)

(** Every confirmation in the history comes right after the key event of its
    command, as [sendKey] resolves it. *)
Fixpoint confirms_follow_exec (l : list Effect) : Prop :=
  match l with
  | [] => True
  | e :: older =>
      match e with
      | ESend (Confirm _ command _ _) =>
          ∃ code line,
            keyCode command = Some code ∧ adb_keyevent code = Some line ∧
            head older = Some (EExec line)
      | _ => True
      end ∧ confirms_follow_exec older
  end.

Definition not_confirm (e : Effect) : Prop :=
  match e with
  | ESend (Confirm _ _ _ _) => False
  | _ => True
  end.

(** *** Losing the connection *)

(** The event makes a connected agent schedule a reconnect: a close that
    reaches the listener, or a ping callback that finds the transport not
    open or whose send throws. *)
Definition drops_connection (e : Event) (s : State) : bool :=
  match e with
  | WsClose =>
      match listening_socket s with
      | Some {| readyState := CLOSED |} | None => false
      | Some _ => true
      end
  | PingTick _ _ sendOk => negb (is_open (ws s) && sendOk)
  | _ => false
  end.

(** The reconnect timer a call of [scheduleReconnect] arms in state [s]. *)
Definition next_reconnect (s : State) : Timer :=
  {| timer_id := nextHandle s; timer_kind := ReconnectTimer;
     timer_delay := Backoff.delay (reconnectAttempts s + 1) |}.

(** *** The two phases of the agent *)

(** While a reconnect timeout is outstanding, no ping or health-check handle
    is held and no transport is waiting to open; and while such a handle is
    held, no transport is waiting to open. *)
Definition phase_wf (s : State) : Prop :=
  (outstanding ReconnectTimer s ≠ [] →
   pingTimer s = None ∧ healthCheckInterval s = None ∧ accepts_open s = false) ∧
  (is_Some (pingTimer s) ∨ is_Some (healthCheckInterval s) →
   accepts_open s = false).

(** *** [src/tvagent.js] *)

(** Everything the agent of [src/tvagent.js] may do to the outside world
    from its first [connect()] on.  Next to what it shares with the other
    file: the reconnect delay is constant, and there is no health check, no
    [terminate] and no answer to a ping frame. *)
Definition permitted_fixed (dev : Device) (e : Effect) : Prop :=
  match e with
  | ESend (Register body) => body = Fixed.regData dev
  | ESend (Ping tv_id _ _) => tv_id = tvId dev
  | ESend (Confirm tv_id _ status _) => tv_id = tvId dev ∧ status = "ok"
  | EPost body => body = Fixed.regData dev
  | EExec line =>
      line = "termux-wake-unlock" ∨
      ∃ code, line = "adb shell input keyevent " +:+ code
  | ESetTimer PingTimer _ d => d = Fixed.PING_INTERVAL
  | ESetTimer ReconnectTimer _ d => d = Fixed.RECONNECT_DELAY
  | ESetTimer HealthTimer _ _ | ETerminate | EPong => False
  | EExit code => code = 0 ∨ code = 1
  | _ => True
  end.

(** The callback raises an exception that no [try] of [src/tvagent.js]
    encloses: [new WebSocket] throws in the reconnect callback, or [ws.send]
    throws in the ping callback. *)
Definition throws (e : Event) : bool :=
  match e with
  | ReconnectFire false | PingTick _ _ false => true
  | _ => false
  end.

(** *** Running [cleanup()] again *)

(** What a second run of [cleanup()] can still do. *)
Definition repeatable (e : Effect) : Prop :=
  match e with
  | EClearTimer _ | ERemoveAllListeners => True
  | EExec line => line = "termux-wake-unlock"
  | _ => False
  end.

(** *** Always a way forward *)

(** [ws] holds a transport that has its listeners and is not closed: an
    [open], [message] or [close] event can still reach the agent. *)
Definition live_transport (s : State) : bool :=
  match listening_socket s with
  | Some {| readyState := CLOSED |} | None => false
  | Some _ => true
  end.

(** While the process runs, the flag [isReconnecting] is set exactly when a
    reconnect timeout is outstanding, and the agent has a live transport or
    a reconnect timeout outstanding. *)
Definition engaged (s : State) : Prop :=
  exited s = None →
  (isReconnecting s = true ↔ outstanding ReconnectTimer s ≠ []) ∧
  (live_transport s = true ∨ outstanding ReconnectTimer s ≠ []).

(** *** Register first *)

(** The register frame has been sent on the transport constructed last. *)
Fixpoint announced (l : list Effect) : bool :=
  match l with
  | [] => false
  | ESend (Register _) :: _ => true
  | ENewSocket :: _ => false
  | _ :: older => announced older
  end.

(** Every ping and every confirmation was sent on a transport on which the
    register frame had been sent before. *)
Fixpoint register_first (l : list Effect) : Prop :=
  match l with
  | [] => True
  | e :: older =>
      match e with
      | ESend (Ping _ _ _) | ESend (Confirm _ _ _ _) => announced older = true
      | _ => True
      end ∧ register_first older
  end.

(** Effects other than frames and the construction of a transport. *)
Definition frame_neutral (e : Effect) : Prop :=
  match e with
  | ESend _ | ENewSocket => False
  | _ => True
  end.

Definition protocol_wf (s : State) : Prop :=
  register_first (log s) ∧ (is_open (ws s) = true → announced (log s) = true).

(** *** Dispatch *)

(** The command of the message can be turned into a shell line. *)
Definition runnable (data : json) : bool :=
  match Get data "command" with
  | Some (Json j) => negb (unprintable j)
  | Some _ => true
  | None => false
  end.

(** [src/unnamed/part_000] runs a key event for the message, and so does
    [src/tvagent.js]. *)
Definition runs_key_event (dev : Device) (data : json) : bool :=
  negb (classified data) && addressed dev data && runnable data.

Definition runs_key_event_fixed (dev : Device) (data : json) : bool :=
  addressed dev data && runnable data.

(** Further inputs used to exercise the statements. *)
Module Cases.

Definition is_space (c : Ascii.ascii) : bool :=
  existsb (Nat.eqb (Ascii.nat_of_ascii c)) [9; 10; 11; 12; 13; 32]%nat.

(** [String.prototype.trim] on text whose white space is ASCII. *)
Definition trim (s : string) : string :=
  let strip :=
    fix strip (l : list Ascii.ascii) : list Ascii.ascii :=
      match l with
      | c :: rest => if is_space c then strip rest else l
      | [] => []
      end in
  String.string_of_list_ascii
    (rev (strip (rev (strip (String.list_ascii_of_string s))))).

(** A command for everybody that names a member every object inherits. *)
Definition toString_all : json :=
  JObj [("target", JStr "all"); ("command", JStr "toString")].

(** Connected since time 1000; the ping callback of time 61000 threw. *)
Definition ping_failed : State :=
  Backoff.run Sample.dev [WsOpen 1000; PingTick 61000 "192.168.1.20" false]
    (Backoff.boot 0 true).

End Cases.

(** * Verification *)

(** ** Frame properties of the timer statements *)

Section Frames.
Context (k : TimerKind) (s : State).

Ltac frame f := unfold f; destruct (var_of k s); [destruct k |]; reflexivity.

Lemma ws_cancel : ws (cancel k s) = ws s. Proof. frame cancel. Qed.
Lemma isReconnecting_cancel : isReconnecting (cancel k s) = isReconnecting s. Proof. frame cancel. Qed.
Lemma isRegistered_cancel : isRegistered (cancel k s) = isRegistered s. Proof. frame cancel. Qed.
Lemma reconnectAttempts_cancel : reconnectAttempts (cancel k s) = reconnectAttempts s. Proof. frame cancel. Qed.
Lemma lastActivityTime_cancel : lastActivityTime (cancel k s) = lastActivityTime s. Proof. frame cancel. Qed.
Lemma nextHandle_cancel : nextHandle (cancel k s) = nextHandle s. Proof. frame cancel. Qed.
Lemma pendingPosts_cancel : pendingPosts (cancel k s) = pendingPosts s. Proof. frame cancel. Qed.
Lemma lockFile_cancel : lockFile (cancel k s) = lockFile s. Proof. frame cancel. Qed.
Lemma exited_cancel : exited (cancel k s) = exited s. Proof. frame cancel. Qed.
Lemma pingTimer_cancel : pingTimer (cancel k s) = pingTimer s. Proof. frame cancel. Qed.
Lemma healthCheckInterval_cancel : healthCheckInterval (cancel k s) = healthCheckInterval s. Proof. frame cancel. Qed.
Lemma reconnectTimer_cancel : reconnectTimer (cancel k s) = reconnectTimer s. Proof. frame cancel. Qed.

Lemma ws_cancel_and_forget : ws (cancel_and_forget k s) = ws s. Proof. frame cancel_and_forget. Qed.
Lemma isReconnecting_cancel_and_forget : isReconnecting (cancel_and_forget k s) = isReconnecting s. Proof. frame cancel_and_forget. Qed.
Lemma isRegistered_cancel_and_forget : isRegistered (cancel_and_forget k s) = isRegistered s. Proof. frame cancel_and_forget. Qed.
Lemma reconnectAttempts_cancel_and_forget : reconnectAttempts (cancel_and_forget k s) = reconnectAttempts s. Proof. frame cancel_and_forget. Qed.
Lemma lastActivityTime_cancel_and_forget : lastActivityTime (cancel_and_forget k s) = lastActivityTime s. Proof. frame cancel_and_forget. Qed.
Lemma nextHandle_cancel_and_forget : nextHandle (cancel_and_forget k s) = nextHandle s. Proof. frame cancel_and_forget. Qed.
Lemma pendingPosts_cancel_and_forget : pendingPosts (cancel_and_forget k s) = pendingPosts s. Proof. frame cancel_and_forget. Qed.
Lemma lockFile_cancel_and_forget : lockFile (cancel_and_forget k s) = lockFile s. Proof. frame cancel_and_forget. Qed.
Lemma exited_cancel_and_forget : exited (cancel_and_forget k s) = exited s. Proof. frame cancel_and_forget. Qed.

Lemma var_of_cancel k' : var_of k' (cancel k s) = var_of k' s.
Proof. unfold cancel. destruct (var_of k s); destruct k'; reflexivity. Qed.

Lemma var_of_cancel_and_forget k' :
  var_of k' (cancel_and_forget k s) = if decide (k' = k) then None else var_of k' s.
Proof.
  unfold cancel_and_forget. destruct (var_of k s) eqn:E.
  - destruct k, k'; reflexivity.
  - case_decide; [by subst |]. reflexivity.
Qed.

End Frames.

Create Rewrite HintDb frame.

#[local] Hint Rewrite ws_cancel isReconnecting_cancel isRegistered_cancel
  reconnectAttempts_cancel lastActivityTime_cancel nextHandle_cancel
  pendingPosts_cancel lockFile_cancel exited_cancel pingTimer_cancel
  healthCheckInterval_cancel reconnectTimer_cancel
  ws_cancel_and_forget isReconnecting_cancel_and_forget
  isRegistered_cancel_and_forget reconnectAttempts_cancel_and_forget
  lastActivityTime_cancel_and_forget nextHandle_cancel_and_forget
  pendingPosts_cancel_and_forget lockFile_cancel_and_forget
  exited_cancel_and_forget : frame.

Lemma pingTimer_cancel_and_forget (k : TimerKind) (s : State) :
  pingTimer (cancel_and_forget k s) =
    if decide (PingTimer = k) then None else pingTimer s.
Proof. apply (var_of_cancel_and_forget k s PingTimer). Qed.

Lemma healthCheckInterval_cancel_and_forget (k : TimerKind) (s : State) :
  healthCheckInterval (cancel_and_forget k s) =
    if decide (HealthTimer = k) then None else healthCheckInterval s.
Proof. apply (var_of_cancel_and_forget k s HealthTimer). Qed.

Lemma reconnectTimer_cancel_and_forget (k : TimerKind) (s : State) :
  reconnectTimer (cancel_and_forget k s) =
    if decide (ReconnectTimer = k) then None else reconnectTimer s.
Proof. apply (var_of_cancel_and_forget k s ReconnectTimer). Qed.

#[local] Hint Rewrite pingTimer_cancel_and_forget
  healthCheckInterval_cancel_and_forget reconnectTimer_cancel_and_forget : frame.

(** ** The timer table under the timer statements *)

Lemma filter_fmap_key (h : Handle) (l : list Timer) :
  filter (λ p, p.1 ≠ h) (timer_key <$> l) =
    timer_key <$> filter (λ t, timer_id t ≠ h) l.
Proof.
  induction l as [| t l IH]; [done |].
  rewrite fmap_cons, !filter_cons, IH. simpl.
  destruct (decide (timer_id t ≠ h)); reflexivity.
Qed.

Lemma live_of_fmap_key (k : TimerKind) (l : list Timer) :
  filter (λ p, p.2 = k) (timer_key <$> l) =
    timer_key <$> filter (λ t, timer_kind t = k) l.
Proof.
  induction l as [| t l IH]; [done |].
  rewrite fmap_cons, !filter_cons, IH. simpl.
  destruct (decide (timer_kind t = k)); reflexivity.
Qed.

Lemma outstanding_clearTimer (k : TimerKind) (h : Handle) (s : State) :
  outstanding k (clearTimer h s) = filter (λ t, timer_id t ≠ h) (outstanding k s).
Proof.
  unfold outstanding, clearTimer, drop_timer. simpl.
  rewrite !list_filter_filter. apply list_filter_iff. tauto.
Qed.

Lemma outstanding_nil (k : TimerKind) (s : State) :
  outstanding k s = [] ↔ ∀ t, t ∈ timers s → timer_kind t ≠ k.
Proof.
  unfold outstanding. split.
  - intros H t Ht Hk. exact (filter_nil_not_elem_of _ _ t H Hk Ht).
  - intros H. induction (timers s) as [| t l IH]; [done |].
    rewrite filter_cons. destruct (decide (timer_kind t = k)) as [Hk | _].
    + exfalso. eapply H; [left | done].
    + apply IH. intros t' Ht'. apply H. by right.
Qed.

(** A state that differs only outside the timers is as well formed. *)
Lemma timers_wf_frame (s s' : State) :
  timers s' = timers s →
  nextHandle s' = nextHandle s →
  (∀ k, var_of k s' = var_of k s) →
  live (log s') = live (log s) →
  (disciplined (log s) → disciplined (log s')) →
  timers_wf s → timers_wf s'.
Proof.
  intros Ht Hn Hv Hl Hd [W1 W2 W3 W4 W5 W6 W7]. split.
  - intros t. rewrite Ht, Hv. apply W1.
  - intros k. unfold outstanding. rewrite Ht. apply W2.
  - by rewrite Hl, Ht.
  - by apply Hd.
  - by rewrite Ht.
  - intros k h. rewrite Hv, Hn. apply W6.
  - intros k k' h. rewrite !Hv. apply W7.
Qed.

Ltac timers_frame :=
  match goal with
  | H : timers_wf _ |- _ =>
      eapply timers_wf_frame; [.. | exact H];
      [ reflexivity | reflexivity | by intros [] | reflexivity | simpl; tauto ]
  end.

Lemma timers_wf_emit (e : Effect) (s : State) :
  quiet e = true → timers_wf s → timers_wf (emit e s).
Proof.
  intros Hq W. apply (timers_wf_frame s); [done | done | by intros [] | | | done];
    destruct e; try discriminate Hq; simpl; tauto.
Qed.

Lemma timers_wf_drop (h : Handle) (e : Effect) (s : State) :
  e = EClearTimer h ∨ e = EExpired h →
  timers_wf s →
  timers_wf (emit e (set_timers (drop_timer h (timers s)) s)).
Proof.
  intros He [W1 W2 W3 W4 W5 W6 W7].
  split; [| | | | intros t Ht; apply W5;
                  by apply list_elem_of_filter in Ht as [_ Ht]
          | intros k h0; pose proof (W6 k h0); by destruct k
          | intros k k' h0; pose proof (W7 k k' h0); by destruct k, k'].
  - intros t Ht. apply list_elem_of_filter in Ht as [_ Ht].
    specialize (W1 t Ht). by destruct (timer_kind t).
  - intros k. change (outstanding k (emit e (set_timers (drop_timer h (timers s)) s)))
      with (outstanding k (clearTimer h s)).
    rewrite outstanding_clearTimer.
    etrans; [apply length_filter | apply W2].
  - destruct He as [-> | ->]; simpl; rewrite W3; apply filter_fmap_key.
  - destruct He as [-> | ->]; simpl; by split.
Qed.

Lemma timers_wf_clearTimer (h : Handle) (s : State) :
  timers_wf s → timers_wf (clearTimer h s).
Proof. apply timers_wf_drop. by left. Qed.

(** Once the handle held by the global is cleared, no timer of the kind
    remains. *)
Lemma clearTimer_none (k : TimerKind) (h : Handle) (s : State) :
  timers_wf s → var_of k s = Some h → outstanding k (clearTimer h s) = [].
Proof.
  intros [W1 _ _ _ _ _ _] Hv. apply outstanding_nil. intros t Ht Hk.
  apply list_elem_of_filter in Ht as [Hne Ht].
  specialize (W1 t Ht). rewrite Hk, Hv in W1. congruence.
Qed.

Lemma var_none_outstanding (k : TimerKind) (s : State) :
  timers_wf s → var_of k s = None → outstanding k s = [].
Proof.
  intros [W1 _ _ _ _ _ _] Hv. apply outstanding_nil. intros t Ht Hk.
  specialize (W1 t Ht). rewrite Hk, Hv in W1. discriminate.
Qed.

Lemma timers_wf_cancel (k : TimerKind) (s : State) :
  timers_wf s → timers_wf (cancel k s).
Proof.
  intros W. unfold cancel. destruct (var_of k s); [| done].
  by apply timers_wf_clearTimer.
Qed.

Lemma cancel_none (k : TimerKind) (s : State) :
  timers_wf s → outstanding k (cancel k s) = [].
Proof.
  intros W. unfold cancel. destruct (var_of k s) eqn:Hv.
  - by apply clearTimer_none.
  - by apply var_none_outstanding.
Qed.

Lemma outstanding_set_var (k k' : TimerKind) (v : option Handle) (s : State) :
  outstanding k (set_var k' v s) = outstanding k s.
Proof. by destruct k'. Qed.

Lemma timers_wf_cancel_and_forget (k : TimerKind) (s : State) :
  timers_wf s → timers_wf (cancel_and_forget k s).
Proof.
  intros W. unfold cancel_and_forget. destruct (var_of k s) as [h |] eqn:Hv; [| done].
  pose proof (clearTimer_none k h s W Hv) as Hnone.
  apply timers_wf_clearTimer with (h := h) in W.
  destruct W as [W1 W2 W3 W4 W5 W6 W7].
  split; [| | | | by destruct k
          | intros k' h'; pose proof (W6 k' h'); by destruct k, k'
          | intros k1 k2 h'; pose proof (W7 k1 k2 h'); by destruct k, k1, k2].
  - intros t Ht. replace (timers (set_var k None (clearTimer h s)))
      with (timers (clearTimer h s)) in Ht by by destruct k.
    pose proof (proj1 (outstanding_nil _ _) Hnone t Ht) as Hk.
    specialize (W1 t Ht). destruct k, (timer_kind t); try done.
  - intros k'. rewrite outstanding_set_var. apply W2.
  - destruct k; apply W3.
  - destruct k; apply W4.
Qed.

Lemma cancel_and_forget_none (k : TimerKind) (s : State) :
  timers_wf s → outstanding k (cancel_and_forget k s) = [].
Proof.
  intros W. unfold cancel_and_forget. destruct (var_of k s) eqn:Hv.
  - rewrite outstanding_set_var. by apply clearTimer_none.
  - by apply var_none_outstanding.
Qed.

(** Cancelling never brings a timer back. *)
Lemma cancel_keeps_none (k k' : TimerKind) (s : State) :
  outstanding k s = [] → outstanding k (cancel k' s) = [].
Proof.
  intros H. unfold cancel. destruct (var_of k' s); [| done].
  by rewrite outstanding_clearTimer, H.
Qed.

Lemma cancel_and_forget_keeps_none (k k' : TimerKind) (s : State) :
  outstanding k s = [] → outstanding k (cancel_and_forget k' s) = [].
Proof.
  intros H. unfold cancel_and_forget. destruct (var_of k' s); [| done].
  by rewrite outstanding_set_var, outstanding_clearTimer, H.
Qed.

Lemma outstanding_arm (k k' : TimerKind) (d : Z) (s : State) :
  outstanding k (arm k' d s) =
    if decide (k' = k)
    then {| timer_id := nextHandle s; timer_kind := k'; timer_delay := d |}
         :: outstanding k s
    else outstanding k s.
Proof.
  unfold arm, setTimer. rewrite outstanding_set_var. unfold outstanding. simpl.
  rewrite filter_cons. simpl. by destruct (decide (k' = k)).
Qed.

(** Arming a kind of which no timer is outstanding keeps the table well
    formed. *)
Lemma arm_fields (k : TimerKind) (d : Z) (s : State) :
  timers (arm k d s) =
    {| timer_id := nextHandle s; timer_kind := k; timer_delay := d |} :: timers s ∧
  log (arm k d s) = ESetTimer k (nextHandle s) d :: log s ∧
  nextHandle (arm k d s) = S (nextHandle s) ∧
  ∀ k', var_of k' (arm k d s) =
          if decide (k' = k) then Some (nextHandle s) else var_of k' s.
Proof. destruct k; split_and!; try done; by intros []. Qed.

Lemma timers_wf_arm (k : TimerKind) (d : Z) (s : State) :
  timers_wf s → outstanding k s = [] →
  (k = HealthTimer → d = Backoff.PING_INTERVAL * 2) →
  timers_wf (arm k d s).
Proof.
  intros [W1 W2 W3 W4 W5 W6 W7] Hnone Hd.
  destruct (arm_fields k d s) as (Et & El & En & Ev).
  split; rewrite ?Et, ?El, ?En.
  - intros t Ht. rewrite Ev. apply elem_of_cons in Ht as [-> | Ht].
    + simpl. by rewrite decide_True.
    + pose proof (proj1 (outstanding_nil _ _) Hnone t Ht) as Hk.
      rewrite decide_False by done. by apply W1.
  - intros k'. rewrite outstanding_arm. case_decide as Hk.
    + subst k'. rewrite Hnone. simpl. lia.
    + apply W2.
  - simpl. by rewrite W3.
  - simpl. split; [| done]. unfold live_of. rewrite W3, live_of_fmap_key.
    fold (outstanding k s). by rewrite Hnone.
  - intros t Ht. apply elem_of_cons in Ht as [-> | Ht]; [exact Hd | by apply W5].
  - intros k' h'. rewrite Ev. case_decide.
    + intros [= <-]. lia.
    + intros Hv. apply W6 in Hv. lia.
  - intros k1 k2 h'. rewrite !Ev. repeat case_decide; subst; try done.
    + intros [= <-] Hv. apply W6 in Hv. lia.
    + intros Hv [= <-]. apply W6 in Hv. lia.
    + apply W7.
Qed.

Lemma timers_wf_expire (k : TimerKind) (s s' : State) :
  timers_wf s → expire k s = Some s' → timers_wf s'.
Proof.
  intros W. unfold expire. destruct (outstanding k s) as [| t ?]; [done |].
  intros E. injection E as <-. apply timers_wf_drop; [by right | done].
Qed.

(** ** The timer table is well formed in every reachable state *)

(** Closes a goal [timers_wf s'] where [s'] is [s] changed outside the
    timers, after splitting the tests of the source. *)
Ltac quiet_cases :=
  repeat (simpl; case_match); simpl; try assumption; timers_frame.

Lemma timers_wf_cleanup (s : State) : timers_wf s → timers_wf (cleanup s).
Proof.
  intros W. unfold cleanup. cbv zeta.
  assert (timers_wf (cancel ReconnectTimer (cancel PingTimer s))) as WY
    by by do 2 apply timers_wf_cancel.
  generalize dependent (cancel ReconnectTimer (cancel PingTimer s)).
  intros Y WY. unfold ws_close, ws_removeAllListeners. quiet_cases.
Qed.

Lemma timers_wf_process_exit (code : Z) (s : State) :
  timers_wf s → timers_wf (process_exit code s).
Proof.
  intros W. apply timers_wf_cleanup in W. unfold process_exit. quiet_cases.
Qed.

Lemma timers_wf_registerToServer dev c (s : State) :
  timers_wf s → timers_wf (registerToServer dev c s).
Proof. intros W. unfold registerToServer. quiet_cases. Qed.

Lemma timers_wf_scheduleReconnect (s : State) :
  timers_wf s → timers_wf (Backoff.scheduleReconnect s).
Proof.
  intros W. unfold Backoff.scheduleReconnect.
  destruct (isReconnecting s); [done |].
  destruct (_ <=? _).
  - by apply timers_wf_process_exit, timers_wf_cleanup.
  - cbv zeta. apply timers_wf_arm; [| | done].
    + apply timers_wf_cancel. do 2 apply timers_wf_cancel_and_forget. timers_frame.
    + apply cancel_none. do 2 apply timers_wf_cancel_and_forget. timers_frame.
Qed.

Lemma timers_wf_connect (ctorOk : bool) (s : State) :
  timers_wf s → timers_wf (Backoff.connect ctorOk s).
Proof.
  intros W. unfold Backoff.connect. cbv zeta.
  match goal with |- timers_wf (if _ then _ else Backoff.scheduleReconnect ?Y) =>
    assert (timers_wf Y) as WY; [| generalize dependent Y; intros s0 WY]
  end.
  { unfold ws_removeAllListeners. quiet_cases. }
  destruct ctorOk; [quiet_cases | by apply timers_wf_scheduleReconnect].
Qed.

Section TimersReachable.
Context (dev : Device).

Lemma timers_wf_on_open now (s : State) :
  timers_wf s → timers_wf (Backoff.on_open dev now s).
Proof.
  intros W. unfold Backoff.on_open. cbv zeta.
  match goal with |- timers_wf (arm _ _ (arm _ _ (cancel_and_forget _ (cancel_and_forget _ ?Y)))) =>
    assert (timers_wf Y) as WY; [| generalize dependent Y; intros s0 WY]
  end.
  { apply timers_wf_registerToServer. timers_frame. }
  pose proof (timers_wf_cancel_and_forget PingTimer s0 WY) as W1.
  pose proof (timers_wf_cancel_and_forget HealthTimer _ W1) as W2.
  apply timers_wf_arm; [| | done].
  - apply timers_wf_arm; [done | | done].
    by apply cancel_and_forget_keeps_none, cancel_and_forget_none.
  - rewrite outstanding_arm. case_decide; [done |].
    by apply cancel_and_forget_none.
Qed.

Lemma timers_wf_on_ping_timer now ip sendOk (s : State) :
  timers_wf s → timers_wf (Backoff.on_ping_timer dev now ip sendOk s).
Proof.
  intros W. unfold Backoff.on_ping_timer.
  destruct (is_open (ws s)), sendOk;
    try (by apply timers_wf_scheduleReconnect). timers_frame.
Qed.

Lemma timers_wf_on_health_timer now (s : State) :
  timers_wf s → timers_wf (Backoff.on_health_timer now s).
Proof.
  intros W. unfold Backoff.on_health_timer. cbv zeta.
  destruct (_ <? _); [| done]. apply timers_wf_scheduleReconnect.
  unfold ws_terminate. quiet_cases.
Qed.

Lemma timers_wf_sendKey command (s s' : State) :
  timers_wf s → sendKey command s = Some s' → timers_wf s'.
Proof.
  intros W. unfold sendKey. repeat case_match; try done.
  intros [= <-]. timers_frame.
Qed.

Lemma timers_wf_on_message now msg (s : State) :
  timers_wf s → timers_wf (Backoff.on_message dev now msg s).
Proof.
  intros W. assert (timers_wf (set_lastActivityTime now s)) as W' by timers_frame.
  unfold Backoff.on_message. cbv zeta.
  repeat case_match; try done.
  all: match goal with H : sendKey _ _ = Some _ |- _ =>
         apply timers_wf_sendKey in H; [| done] end.
  all: timers_frame.
Qed.

Lemma timers_wf_step e (s : State) :
  timers_wf s → timers_wf (Backoff.step dev e s).
Proof.
  intros W. unfold Backoff.step. destruct (exited s); [done |].
  destruct e.
  - repeat case_match; try done. apply timers_wf_on_open.
    unfold set_readyState. timers_frame.
  - repeat case_match; try done; by apply timers_wf_on_message.
  - repeat case_match; try done;
      apply timers_wf_scheduleReconnect; unfold set_readyState; timers_frame.
  - by repeat case_match.
  - unfold Backoff.on_ping. repeat case_match; try done; timers_frame.
  - unfold Backoff.on_pong. repeat case_match; try done; timers_frame.
  - unfold set_readyState. repeat case_match; try done; timers_frame.
  - case_match; [done |]. by apply timers_wf_on_ping_timer.
  - case_match; [done |]. by apply timers_wf_on_health_timer.
  - destruct (expire ReconnectTimer s) as [s' |] eqn:E; [| done].
    apply timers_wf_expire in E; [| done].
    apply timers_wf_connect. timers_frame.
  - unfold registerToServer_resume. quiet_cases.
  - by apply timers_wf_process_exit, timers_wf_cleanup.
Qed.

Lemma timers_wf_run evs (s : State) :
  timers_wf s → timers_wf (Backoff.run dev evs s).
Proof.
  revert s. induction evs as [| e evs IH]; intros s W; [done |].
  apply IH. by apply timers_wf_step.
Qed.

Lemma timers_wf_init t0 : timers_wf (init t0).
Proof.
  split; simpl; try done.
  - intros t Ht. by apply elem_of_nil in Ht.
  - intros k. unfold outstanding. simpl. lia.
  - intros t Ht. by apply elem_of_nil in Ht.
  - by intros [].
  - by intros [] [].
Qed.

Lemma timers_wf_boot t0 ctorOk : timers_wf (Backoff.boot t0 ctorOk).
Proof. apply timers_wf_connect, timers_wf_init. Qed.

End TimersReachable.

(** ** Frame properties of the shared functions *)

Lemma posts_cancel (k : TimerKind) (s : State) : posts (log (cancel k s)) = posts (log s).
Proof. unfold cancel. by destruct (var_of k s). Qed.

Lemma posts_cancel_and_forget (k : TimerKind) (s : State) :
  posts (log (cancel_and_forget k s)) = posts (log s).
Proof. unfold cancel_and_forget. destruct (var_of k s); [by destruct k | done]. Qed.

Lemma reconnects_cancel (k : TimerKind) (s : State) :
  reconnects (log (cancel k s)) = reconnects (log s).
Proof. unfold cancel. by destruct (var_of k s). Qed.

Lemma reconnects_cancel_and_forget (k : TimerKind) (s : State) :
  reconnects (log (cancel_and_forget k s)) = reconnects (log s).
Proof. unfold cancel_and_forget. destruct (var_of k s); [by destruct k | done]. Qed.

#[local] Hint Rewrite posts_cancel posts_cancel_and_forget reconnects_cancel
  reconnects_cancel_and_forget : frame.

Ltac frame_arm := unfold arm, setTimer; match goal with k : TimerKind |- _ => destruct k end; reflexivity.

Lemma ws_arm (k : TimerKind) (d : Z) (s : State) : ws (arm k d s) = ws s.
Proof. frame_arm. Qed.

Lemma isReconnecting_arm (k : TimerKind) (d : Z) (s : State) : isReconnecting (arm k d s) = isReconnecting s.
Proof. frame_arm. Qed.

Lemma isRegistered_arm (k : TimerKind) (d : Z) (s : State) : isRegistered (arm k d s) = isRegistered s.
Proof. frame_arm. Qed.

Lemma reconnectAttempts_arm (k : TimerKind) (d : Z) (s : State) : reconnectAttempts (arm k d s) = reconnectAttempts s.
Proof. frame_arm. Qed.

Lemma lastActivityTime_arm (k : TimerKind) (d : Z) (s : State) : lastActivityTime (arm k d s) = lastActivityTime s.
Proof. frame_arm. Qed.

Lemma pendingPosts_arm (k : TimerKind) (d : Z) (s : State) : pendingPosts (arm k d s) = pendingPosts s.
Proof. frame_arm. Qed.

Lemma lockFile_arm (k : TimerKind) (d : Z) (s : State) : lockFile (arm k d s) = lockFile s.
Proof. frame_arm. Qed.

Lemma exited_arm (k : TimerKind) (d : Z) (s : State) : exited (arm k d s) = exited s.
Proof. frame_arm. Qed.

Lemma posts_arm (k : TimerKind) (d : Z) (s : State) : posts (log (arm k d s)) = posts (log s).
Proof. frame_arm. Qed.

#[local] Hint Rewrite ws_arm isReconnecting_arm isRegistered_arm reconnectAttempts_arm lastActivityTime_arm pendingPosts_arm lockFile_arm exited_arm posts_arm : frame.


Ltac frame_cases :=
  repeat (simpl; autorewrite with frame; case_match);
  simpl; autorewrite with frame; try done.

Lemma ws_registerToServer dev c (s : State) : ws (registerToServer dev c s) = ws s.
Proof. unfold registerToServer. frame_cases. Qed.

Lemma isReconnecting_registerToServer dev c (s : State) : isReconnecting (registerToServer dev c s) = isReconnecting s.
Proof. unfold registerToServer. frame_cases. Qed.

Lemma isRegistered_registerToServer dev c (s : State) : isRegistered (registerToServer dev c s) = isRegistered s.
Proof. unfold registerToServer. frame_cases. Qed.

Lemma reconnectAttempts_registerToServer dev c (s : State) : reconnectAttempts (registerToServer dev c s) = reconnectAttempts s.
Proof. unfold registerToServer. frame_cases. Qed.

Lemma lastActivityTime_registerToServer dev c (s : State) : lastActivityTime (registerToServer dev c s) = lastActivityTime s.
Proof. unfold registerToServer. frame_cases. Qed.

Lemma lockFile_registerToServer dev c (s : State) : lockFile (registerToServer dev c s) = lockFile s.
Proof. unfold registerToServer. frame_cases. Qed.

Lemma exited_registerToServer dev c (s : State) : exited (registerToServer dev c s) = exited s.
Proof. unfold registerToServer. frame_cases. Qed.

Lemma pingTimer_registerToServer dev c (s : State) : pingTimer (registerToServer dev c s) = pingTimer s.
Proof. unfold registerToServer. frame_cases. Qed.

Lemma healthCheckInterval_registerToServer dev c (s : State) : healthCheckInterval (registerToServer dev c s) = healthCheckInterval s.
Proof. unfold registerToServer. frame_cases. Qed.

Lemma reconnectTimer_registerToServer dev c (s : State) : reconnectTimer (registerToServer dev c s) = reconnectTimer s.
Proof. unfold registerToServer. frame_cases. Qed.

Lemma nextHandle_registerToServer dev c (s : State) : nextHandle (registerToServer dev c s) = nextHandle s.
Proof. unfold registerToServer. frame_cases. Qed.

Lemma timers_registerToServer dev c (s : State) : timers (registerToServer dev c s) = timers s.
Proof. unfold registerToServer. frame_cases. Qed.

Lemma reconnects_registerToServer dev c (s : State) :
  reconnects (log (registerToServer dev c s)) = reconnects (log s).
Proof. unfold registerToServer. frame_cases. Qed.

#[local] Hint Rewrite ws_registerToServer isReconnecting_registerToServer isRegistered_registerToServer reconnectAttempts_registerToServer lastActivityTime_registerToServer lockFile_registerToServer exited_registerToServer pingTimer_registerToServer healthCheckInterval_registerToServer reconnectTimer_registerToServer nextHandle_registerToServer timers_registerToServer reconnects_registerToServer : frame.

Lemma isReconnecting_cleanup (s : State) : isReconnecting (cleanup s) = isReconnecting s.
Proof. unfold cleanup, ws_close, ws_removeAllListeners. cbv zeta. frame_cases. Qed.

Lemma isRegistered_cleanup (s : State) : isRegistered (cleanup s) = isRegistered s.
Proof. unfold cleanup, ws_close, ws_removeAllListeners. cbv zeta. frame_cases. Qed.

Lemma reconnectAttempts_cleanup (s : State) : reconnectAttempts (cleanup s) = reconnectAttempts s.
Proof. unfold cleanup, ws_close, ws_removeAllListeners. cbv zeta. frame_cases. Qed.

Lemma lastActivityTime_cleanup (s : State) : lastActivityTime (cleanup s) = lastActivityTime s.
Proof. unfold cleanup, ws_close, ws_removeAllListeners. cbv zeta. frame_cases. Qed.

Lemma pendingPosts_cleanup (s : State) : pendingPosts (cleanup s) = pendingPosts s.
Proof. unfold cleanup, ws_close, ws_removeAllListeners. cbv zeta. frame_cases. Qed.

Lemma exited_cleanup (s : State) : exited (cleanup s) = exited s.
Proof. unfold cleanup, ws_close, ws_removeAllListeners. cbv zeta. frame_cases. Qed.

Lemma pingTimer_cleanup (s : State) : pingTimer (cleanup s) = pingTimer s.
Proof. unfold cleanup, ws_close, ws_removeAllListeners. cbv zeta. frame_cases. Qed.

Lemma healthCheckInterval_cleanup (s : State) : healthCheckInterval (cleanup s) = healthCheckInterval s.
Proof. unfold cleanup, ws_close, ws_removeAllListeners. cbv zeta. frame_cases. Qed.

Lemma reconnectTimer_cleanup (s : State) : reconnectTimer (cleanup s) = reconnectTimer s.
Proof. unfold cleanup, ws_close, ws_removeAllListeners. cbv zeta. frame_cases. Qed.

Lemma nextHandle_cleanup (s : State) : nextHandle (cleanup s) = nextHandle s.
Proof. unfold cleanup, ws_close, ws_removeAllListeners. cbv zeta. frame_cases. Qed.

Lemma posts_cleanup (s : State) : posts (log (cleanup s)) = posts (log s).
Proof. unfold cleanup, ws_close, ws_removeAllListeners. cbv zeta. frame_cases. Qed.

Lemma reconnects_cleanup (s : State) : reconnects (log (cleanup s)) = reconnects (log s).
Proof. unfold cleanup, ws_close, ws_removeAllListeners. cbv zeta. frame_cases. Qed.

#[local] Hint Rewrite isReconnecting_cleanup isRegistered_cleanup reconnectAttempts_cleanup lastActivityTime_cleanup pendingPosts_cleanup exited_cleanup pingTimer_cleanup healthCheckInterval_cleanup reconnectTimer_cleanup nextHandle_cleanup posts_cleanup reconnects_cleanup : frame.

Lemma isReconnecting_process_exit (code : Z) (s : State) : isReconnecting (process_exit code s) = isReconnecting s.
Proof. unfold process_exit. frame_cases. Qed.

Lemma isRegistered_process_exit (code : Z) (s : State) : isRegistered (process_exit code s) = isRegistered s.
Proof. unfold process_exit. frame_cases. Qed.

Lemma reconnectAttempts_process_exit (code : Z) (s : State) : reconnectAttempts (process_exit code s) = reconnectAttempts s.
Proof. unfold process_exit. frame_cases. Qed.

Lemma lastActivityTime_process_exit (code : Z) (s : State) : lastActivityTime (process_exit code s) = lastActivityTime s.
Proof. unfold process_exit. frame_cases. Qed.

Lemma pendingPosts_process_exit (code : Z) (s : State) : pendingPosts (process_exit code s) = pendingPosts s.
Proof. unfold process_exit. frame_cases. Qed.

Lemma pingTimer_process_exit (code : Z) (s : State) : pingTimer (process_exit code s) = pingTimer s.
Proof. unfold process_exit. frame_cases. Qed.

Lemma healthCheckInterval_process_exit (code : Z) (s : State) : healthCheckInterval (process_exit code s) = healthCheckInterval s.
Proof. unfold process_exit. frame_cases. Qed.

Lemma reconnectTimer_process_exit (code : Z) (s : State) : reconnectTimer (process_exit code s) = reconnectTimer s.
Proof. unfold process_exit. frame_cases. Qed.

Lemma nextHandle_process_exit (code : Z) (s : State) : nextHandle (process_exit code s) = nextHandle s.
Proof. unfold process_exit. frame_cases. Qed.

Lemma posts_process_exit (code : Z) (s : State) : posts (log (process_exit code s)) = posts (log s).
Proof. unfold process_exit. frame_cases. Qed.

Lemma reconnects_process_exit (code : Z) (s : State) : reconnects (log (process_exit code s)) = reconnects (log s).
Proof. unfold process_exit. frame_cases. Qed.

Lemma exited_process_exit (code : Z) (s : State) : exited (process_exit code s) = Some code.
Proof. reflexivity. Qed.

#[local] Hint Rewrite isReconnecting_process_exit isRegistered_process_exit reconnectAttempts_process_exit lastActivityTime_process_exit pendingPosts_process_exit pingTimer_process_exit healthCheckInterval_process_exit reconnectTimer_process_exit nextHandle_process_exit posts_process_exit reconnects_process_exit exited_process_exit : frame.

(** ** What [scheduleReconnect] does ([src/unnamed/part_000]) *)

Lemma scheduleReconnect_pending (s : State) :
  isReconnecting s = true → Backoff.scheduleReconnect s = s.
Proof. intros Hr. unfold Backoff.scheduleReconnect. by rewrite Hr. Qed.

Lemma scheduleReconnect_exits (s : State) :
  isReconnecting s = false →
  Backoff.MAX_RECONNECT_ATTEMPTS ≤ reconnectAttempts s →
  Backoff.scheduleReconnect s = process_exit 1 (cleanup s).
Proof.
  intros Hr Hge. unfold Backoff.scheduleReconnect. rewrite Hr.
  by destruct (Z.leb_spec Backoff.MAX_RECONNECT_ATTEMPTS (reconnectAttempts s)); [| lia].
Qed.

Lemma scheduleReconnect_schedules (s : State) :
  isReconnecting s = false →
  reconnectAttempts s < Backoff.MAX_RECONNECT_ATTEMPTS →
  let s' := Backoff.scheduleReconnect s in
  isReconnecting s' = true ∧
  reconnectAttempts s' = reconnectAttempts s + 1 ∧
  reconnectTimer s' = Some (nextHandle s) ∧
  pingTimer s' = None ∧
  healthCheckInterval s' = None ∧
  exited s' = exited s ∧
  ws s' = ws s ∧
  ∃ older,
    log s' = ESetTimer ReconnectTimer (nextHandle s)
               (Backoff.delay (reconnectAttempts s + 1)) :: older.
Proof.
  intros Hr Hlt. unfold Backoff.scheduleReconnect. rewrite Hr.
  destruct (Z.leb_spec Backoff.MAX_RECONNECT_ATTEMPTS (reconnectAttempts s)); [lia |].
  unfold cancel_and_forget, cancel, arm.
  destruct s as [? [?|] [?|] ? ? ? ? [?|] ? ? ? ? ? ?]; simpl;
    split_and!; try reflexivity; eexists; reflexivity.
Qed.

(** Exactly one reconnect timer is armed by a call that schedules. *)
Lemma scheduleReconnect_arms_one (s : State) :
  isReconnecting s = false →
  reconnectAttempts s < Backoff.MAX_RECONNECT_ATTEMPTS →
  reconnects (log (Backoff.scheduleReconnect s)) = S (reconnects (log s)).
Proof.
  intros Hr Hlt. unfold Backoff.scheduleReconnect. rewrite Hr.
  destruct (Z.leb_spec Backoff.MAX_RECONNECT_ATTEMPTS (reconnectAttempts s)); [lia |].
  cbv zeta. unfold arm, setTimer. simpl. by autorewrite with frame.
Qed.

Ltac frame_scheduleReconnect :=
  unfold Backoff.scheduleReconnect; cbv zeta;
  match goal with |- context [isReconnecting ?s] => destruct (isReconnecting s) end;
  [done |];
  match goal with |- context [?a <=? ?b] => destruct (a <=? b) end;
  autorewrite with frame; try done; simpl; by autorewrite with frame.

Lemma isRegistered_scheduleReconnect (s : State) :
  isRegistered (Backoff.scheduleReconnect s) = isRegistered s.
Proof. frame_scheduleReconnect. Qed.

Lemma lastActivityTime_scheduleReconnect (s : State) :
  lastActivityTime (Backoff.scheduleReconnect s) = lastActivityTime s.
Proof. frame_scheduleReconnect. Qed.

Lemma pendingPosts_scheduleReconnect (s : State) :
  pendingPosts (Backoff.scheduleReconnect s) = pendingPosts s.
Proof. frame_scheduleReconnect. Qed.

Lemma posts_scheduleReconnect (s : State) :
  posts (log (Backoff.scheduleReconnect s)) = posts (log s).
Proof. frame_scheduleReconnect. Qed.

#[local] Hint Rewrite isRegistered_scheduleReconnect lastActivityTime_scheduleReconnect
  pendingPosts_scheduleReconnect posts_scheduleReconnect : frame.

Lemma isRegistered_connect ok (s : State) :
  isRegistered (Backoff.connect ok s) = isRegistered s.
Proof. unfold Backoff.connect, ws_removeAllListeners. cbv zeta. frame_cases. Qed.

Lemma posts_connect ok (s : State) :
  posts (log (Backoff.connect ok s)) = posts (log s).
Proof. unfold Backoff.connect, ws_removeAllListeners. cbv zeta. frame_cases. Qed.

#[local] Hint Rewrite isRegistered_connect posts_connect : frame.

(** ** The shape of what the message handler does *)

Lemma sendKey_shape (command : value) (s s' : State) :
  sendKey command s = Some s' → ∃ line, s' = emit (EExec line) s.
Proof.
  unfold sendKey. repeat case_match; try done. intros [= <-]. by eexists.
Qed.

(** The handler records the arrival, then either stops there, or runs a
    key event, or runs a key event and confirms it. *)
Lemma on_message_shape (dev : Device) now msg (s : State) :
  ∃ l, Backoff.on_message dev now msg s =
         set_log (l ++ log s) (set_lastActivityTime now s) ∧
       (l = [] ∨ (∃ line, l = [EExec line]) ∨
        ∃ line command, l = [ESend (Confirm (tvId dev) command "ok" now); EExec line]).
Proof.
  assert (set_lastActivityTime now s = set_log ([] ++ log s) (set_lastActivityTime now s))
    as Hnil by by destruct s.
  unfold Backoff.on_message. cbv zeta.
  repeat case_match; try (exists []; split; [exact Hnil | by left]).
  all: match goal with H : sendKey _ _ = Some _ |- _ =>
         apply sendKey_shape in H as [line ->] end.
  - eexists [_; _]. split; [reflexivity |]. right. right. by eexists _, _.
  - eexists [_]. split; [reflexivity |]. right. left. by eexists.
Qed.

(** ** The counter and the connected state in every reachable state *)

Lemma control_wf_frame (s s' : State) :
  reconnectAttempts s' = reconnectAttempts s →
  isReconnecting s' = isReconnecting s →
  exited s' = exited s →
  pingTimer s' = pingTimer s →
  healthCheckInterval s' = healthCheckInterval s →
  (is_Some (ws s) → is_Some (ws s')) →
  control_wf s → control_wf s'.
Proof.
  intros Ha Hr He Hp Hh Hw [C1 C2]. split.
  - by rewrite Ha.
  - rewrite Ha, Hr, He, Hp, Hh. intros Hx Harmed.
    destruct (C2 Hx Harmed) as (? & ? & ?). auto.
Qed.

Ltac control_frame :=
  eapply control_wf_frame; [.. | eassumption];
  simpl; autorewrite with frame; try done.

Lemma control_wf_exited (s : State) :
  0 ≤ reconnectAttempts s ≤ Backoff.MAX_RECONNECT_ATTEMPTS →
  is_Some (exited s) → control_wf s.
Proof. intros Ha [c Hc]. split; [done |]. rewrite Hc. discriminate. Qed.

Lemma control_wf_scheduleReconnect (s : State) :
  control_wf s → control_wf (Backoff.scheduleReconnect s).
Proof.
  intros C. destruct (isReconnecting s) eqn:Hr.
  - by rewrite scheduleReconnect_pending.
  - destruct (Z.lt_ge_cases (reconnectAttempts s) Backoff.MAX_RECONNECT_ATTEMPTS) as [Hlt | Hge].
    + destruct (scheduleReconnect_schedules s Hr Hlt) as (_ & Ha & _ & Hp & Hh & _).
      destruct C as [C1 _]. split.
      * rewrite Ha. lia.
      * rewrite Hp, Hh. intros _ [[? [=]] | [? [=]]].
    + rewrite scheduleReconnect_exits by done.
      apply control_wf_exited; autorewrite with frame; [apply C | by eexists].
Qed.

Lemma control_wf_connect (ok : bool) (s : State) :
  control_wf s → isReconnecting s = false → control_wf (Backoff.connect ok s).
Proof.
  intros C Hr. unfold Backoff.connect. cbv zeta.
  match goal with |- control_wf (if _ then _ else Backoff.scheduleReconnect ?Y) =>
    assert (reconnectAttempts Y = reconnectAttempts s ∧ isReconnecting Y = false ∧
            exited Y = exited s ∧ pingTimer Y = pingTimer s ∧
            healthCheckInterval Y = healthCheckInterval s) as (Ya & Yr & Ye & Yp & Yh);
      [| generalize dependent Y; intros s0 Ya Yr Ye Yp Yh]
  end.
  { unfold ws_removeAllListeners. by repeat (simpl; case_match). }
  destruct C as [C1 C2]. destruct ok.
  - split; simpl; rewrite ?Ya, ?Yr, ?Ye, ?Yp, ?Yh; [done |].
    intros Hx Harmed. destruct (C2 Hx Harmed) as (? & ? & ?). by eauto.
  - destruct (Z.lt_ge_cases (reconnectAttempts s0) Backoff.MAX_RECONNECT_ATTEMPTS) as [Hlt | Hge].
    + destruct (scheduleReconnect_schedules s0 Yr Hlt) as (_ & Ha & _ & Hp & Hh & _).
      split.
      * rewrite Ha. lia.
      * rewrite Hp, Hh. intros _ [[? [=]] | [? [=]]].
    + rewrite scheduleReconnect_exits by done.
      apply control_wf_exited; autorewrite with frame; [by rewrite Ya | by eexists].
Qed.

Section ControlReachable.
Context (dev : Device).

Lemma on_open_control now (s : State) :
  let s' := Backoff.on_open dev now s in
  reconnectAttempts s' = 0 ∧ isReconnecting s' = false ∧
  ws s' = ws s ∧ exited s' = exited s ∧ lastActivityTime s' = now.
Proof. unfold Backoff.on_open. cbv zeta. by autorewrite with frame. Qed.

Lemma control_wf_on_open now (s : State) :
  is_Some (ws s) → control_wf (Backoff.on_open dev now s).
Proof.
  intros Hw. destruct (on_open_control now s) as (Ha & Hr & Hws & _).
  split.
  - rewrite Ha. unfold Backoff.MAX_RECONNECT_ATTEMPTS. lia.
  - intros _ _. by rewrite Ha, Hr, Hws.
Qed.

Lemma control_wf_on_ping_timer now ip sendOk (s : State) :
  control_wf s → control_wf (Backoff.on_ping_timer dev now ip sendOk s).
Proof.
  intros C. unfold Backoff.on_ping_timer.
  destruct (is_open (ws s)), sendOk;
    try (by apply control_wf_scheduleReconnect). control_frame.
Qed.

Lemma control_wf_on_health_timer now (s : State) :
  control_wf s → control_wf (Backoff.on_health_timer now s).
Proof.
  intros C. unfold Backoff.on_health_timer. cbv zeta.
  destruct (_ <? _); [| done]. apply control_wf_scheduleReconnect.
  destruct (ws s) eqn:Hw; [| done]. unfold ws_terminate. control_frame.
Qed.

Lemma control_wf_on_message now msg (s : State) :
  control_wf s → control_wf (Backoff.on_message dev now msg s).
Proof.
  intros C. destruct (on_message_shape dev now msg s) as (l & -> & _).
  control_frame.
Qed.

Lemma control_wf_step e (s : State) :
  control_wf s → control_wf (Backoff.step dev e s).
Proof.
  intros C. unfold Backoff.step. destruct (exited s) eqn:Hx; [done |].
  destruct e.
  - repeat case_match; try done. apply control_wf_on_open. by eauto.
  - repeat case_match; try done; by apply control_wf_on_message.
  - repeat case_match; try done;
      apply control_wf_scheduleReconnect; unfold set_readyState; control_frame;
      by eauto.
  - by repeat case_match.
  - unfold Backoff.on_ping. repeat case_match; try done; control_frame.
  - unfold Backoff.on_pong. repeat case_match; try done; control_frame.
  - unfold set_readyState. repeat case_match; try done; control_frame; by eauto.
  - case_match; [done |]. by apply control_wf_on_ping_timer.
  - case_match; [done |]. by apply control_wf_on_health_timer.
  - destruct (expire ReconnectTimer s) as [s' |] eqn:E; [| done].
    unfold expire in E. destruct (outstanding ReconnectTimer s); [done |].
    injection E as <-. apply control_wf_connect; [| done].
    destruct C as [C1 C2]. split; [done |]. simpl. intros Hx' Harmed.
    destruct (C2 Hx' Harmed) as (? & ? & ?). auto.
  - unfold registerToServer_resume. repeat case_match; try done; control_frame.
  - apply control_wf_exited; autorewrite with frame; [apply C | by eexists].
Qed.

Lemma control_wf_run evs (s : State) :
  control_wf s → control_wf (Backoff.run dev evs s).
Proof.
  revert s. induction evs as [| e evs IH]; intros s C; [done |].
  apply IH. by apply control_wf_step.
Qed.

Lemma control_wf_init t0 : control_wf (init t0).
Proof.
  split; simpl; [unfold Backoff.MAX_RECONNECT_ATTEMPTS; lia |].
  intros _ [[? [=]] | [? [=]]].
Qed.

Lemma control_wf_boot t0 ok : control_wf (Backoff.boot t0 ok).
Proof. apply control_wf_connect; [apply control_wf_init | done]. Qed.

End ControlReachable.



(** ** Resolving a command name *)

Lemma COMMAND_MAP_nonzero (key : string) (code : Z) :
  COMMAND_MAP !! key = Some code → code ≠ 0.
Proof.
  intros H. apply elem_of_list_to_map_2 in H.
  repeat (apply elem_of_cons in H as [H | H]; [injection H as _ ->; lia |]).
  by apply elem_of_nil in H.
Qed.

Lemma Object_prototype_objects (key : string) (v : value) :
  Object_prototype !! key = Some v →
  ToBoolean v = true ∧ is_Some (ToString v).
Proof.
  intros H. apply elem_of_list_to_map_2 in H.
  repeat (apply elem_of_cons in H as [H | H];
          [injection H as _ ->; split; [reflexivity | eexists; reflexivity] |]).
  by apply elem_of_nil in H.
Qed.

(** A name of the table resolves to its code. *)
Lemma keyCode_own (command : value) (key : string) (code : Z) :
  ToPropertyKey command = Some key →
  COMMAND_MAP !! key = Some code →
  keyCode command = Some (Json (JNum code)).
Proof.
  intros Hk Hm. unfold keyCode, COMMAND_MAP_get. rewrite Hk, Hm. simpl.
  apply COMMAND_MAP_nonzero in Hm. by destruct (Z.eqb_spec code 0).
Qed.

(** A name that the table neither holds nor inherits passes through. *)
Lemma keyCode_raw (command : value) (key : string) :
  ToPropertyKey command = Some key →
  COMMAND_MAP !! key = None →
  Object_prototype !! key = None →
  keyCode command = Some command.
Proof.
  intros Hk Hm Hp. unfold keyCode, COMMAND_MAP_get, inherited.
  by rewrite Hk, Hm, Hp.
Qed.

(** A name that the table inherits resolves to the inherited member. *)
Lemma keyCode_inherited (command : value) (key : string) (v : value) :
  ToPropertyKey command = Some key →
  COMMAND_MAP !! key = None →
  Object_prototype !! key = Some v →
  keyCode command = Some v.
Proof.
  intros Hk Hm Hp. unfold keyCode, COMMAND_MAP_get, inherited.
  rewrite Hk, Hm, Hp. simpl.
  by destruct (Object_prototype_objects _ _ Hp) as [-> _].
Qed.

(** Once the property key exists, [sendKey] reaches [exec]. *)
Lemma keyCode_runs (command : value) (key : string) :
  ToPropertyKey command = Some key →
  ∃ code line, keyCode command = Some code ∧ adb_keyevent code = Some line.
Proof.
  intros Hk.
  destruct (COMMAND_MAP !! key) as [n|] eqn:Hm.
  - exists (Json (JNum n)). eexists. split; [by eapply keyCode_own |]. reflexivity.
  - destruct (Object_prototype !! key) as [v|] eqn:Hp.
    + destruct (Object_prototype_objects _ _ Hp) as [_ [str Hstr]].
      exists v, ("adb shell input keyevent " +:+ str).
      split; [by eapply keyCode_inherited |]. unfold adb_keyevent. by rewrite Hstr.
    + exists command, ("adb shell input keyevent " +:+ key).
      split; [by eapply keyCode_raw |]. unfold adb_keyevent.
      unfold ToPropertyKey in Hk. by rewrite Hk.
Qed.

(** ** Dispatch of a decoded message ([src/unnamed/part_000]) *)

Section Dispatch.
Context (dev : Device).

(** A command for this device: the executor runs with the resolved code,
    then the confirmation leaves if and only if the transport is open. *)
Lemma on_message_command now data type target command code line s :
  Get data "type" = Some type →
  is_string type "welcome" = false →
  is_string type "pong" = false →
  Get data "target" = Some target →
  is_string target (tvId dev) || is_string target "all" = true →
  Get data "command" = Some command →
  keyCode command = Some code →
  adb_keyevent code = Some line →
  Backoff.on_message dev now (Parsed data) s =
    let s1 := emit (EExec line) (set_lastActivityTime now s) in
    if is_open (ws s)
    then emit (ESend (Confirm (tvId dev) command "ok" now)) s1
    else s1.
Proof.
  intros Hty Hw Hp Htg Hm Hc Hk Hl. unfold Backoff.on_message.
  rewrite Hty, Hw, Hp, Htg, Hm, Hc. unfold sendKey. rewrite Hk, Hl.
  reflexivity.
Qed.

(** A message for somebody else is dropped. *)
Lemma on_message_dropped now data type target s :
  Get data "type" = Some type →
  Get data "target" = Some target →
  is_string target (tvId dev) || is_string target "all" = false →
  Backoff.on_message dev now (Parsed data) s = set_lastActivityTime now s.
Proof.
  intros Hty Htg Hm. unfold Backoff.on_message. rewrite Hty, Htg, Hm.
  by repeat case_match.
Qed.

(** The scenario of the specification: [sleep] for everybody. *)
Example sleep_for_all_runs_223 :
  log (Backoff.step Sample.dev (WsMessage 2000 (Parsed Sample.sleep_all)) Sample.opened) =
    ESend (Confirm "TV-ABCD1234" (Json (JStr "sleep")) "ok" 2000)
    :: EExec "adb shell input keyevent 223"
    :: log Sample.opened.
Proof. vm_compute. reflexivity. Qed.

End Dispatch.

(** C1 (failing input).  The message
    [{"target":"all","command":"constructor"}] names no entry of the command
    table, yet the executor does not receive the raw name: the lookup
    reaches the member [constructor] that the table inherits, and the key
    event carries that function. *)
Theorem C1_inherited_name_is_not_passed_through :
  COMMAND_MAP !! "constructor" = None ∧
  keyCode (Json (JStr "constructor")) = Some (Builtin "Object") ∧
  log (Backoff.step Sample.dev (WsMessage 2000 (Parsed Sample.constructor_all)) Sample.opened) =
    ESend (Confirm "TV-ABCD1234" (Json (JStr "constructor")) "ok" 2000)
    :: EExec "adb shell input keyevent function Object() { [native code] }"
    :: log Sample.opened.
Proof. split; [| split]; vm_compute; reflexivity. Qed.

(** ** A command the table does not hold *)

(** For every decoded message whose type is neither [welcome] nor [pong]
    and whose target is the device id or [all]: the executor is invoked
    whatever the command is, with the raw value when its property key is
    neither an entry of the table nor a name the table inherits (so with
    [undefined] when the field is absent); and the confirmation, sent when
    the transport is open, carries the raw command, not the resolved
    code. *)
Lemma on_message_unknown_command
    (dev : Device) (now : Z) (data : json) (type target command : value)
    (key : string) (s : State) :
  Get data "type" = Some type →
  is_string type "welcome" = false →
  is_string type "pong" = false →
  Get data "target" = Some target →
  is_string target (tvId dev) || is_string target "all" = true →
  Get data "command" = Some command →
  ToPropertyKey command = Some key →
  ∃ code line,
    keyCode command = Some code ∧
    adb_keyevent code = Some line ∧
    Backoff.on_message dev now (Parsed data) s =
      (let s1 := emit (EExec line) (set_lastActivityTime now s) in
       if is_open (ws s)
       then emit (ESend (Confirm (tvId dev) command "ok" now)) s1
       else s1) ∧
    (COMMAND_MAP !! key = None → Object_prototype !! key = None → code = command).
Proof.
  intros Hty Hw Hp Htg Hm Hc Hk.
  destruct (keyCode_runs _ _ Hk) as (code & line & Hcode & Hline).
  exists code, line.
  split; [done |]. split; [done |]. split; [by eapply on_message_command |].
  intros Hmap Hproto. rewrite (keyCode_raw _ _ Hk Hmap Hproto) in Hcode. congruence.
Qed.

(** A message for [all] without a command: the key event runs with
    [undefined]. *)
Example absent_command_runs_undefined :
  log (Backoff.step Sample.dev (WsMessage 2000 (Parsed Sample.bare_all)) Sample.opened) =
    ESend (Confirm "TV-ABCD1234" Undefined "ok" 2000)
    :: EExec "adb shell input keyevent undefined"
    :: log Sample.opened.
Proof. vm_compute. reflexivity. Qed.

(** What a message can carry as its command: parsed data, or [undefined]
    when the field is absent. *)
Lemma Get_command_parsed (data : json) (command : value) :
  Get data "command" = Some command →
  command = Undefined ∨ ∃ j, command = Json j.
Proof.
  destruct data as [| b | n | str | items | props]; simpl; try done;
    try (intros [= <-]; by left).
  destruct (own "command" props) as [j |]; intros [= <-]; [right; by eexists | by left].
Qed.

(** The names the table inherits are none of its entries, and each prints
    as something else than its own name. *)
Lemma Object_prototype_shadows (key : string) (v : value) :
  Object_prototype !! key = Some v →
  COMMAND_MAP !! key = None ∧
  v ≠ Undefined ∧ (∀ j, v ≠ Json j) ∧
  ∃ str, ToString v = Some str ∧ str ≠ key.
Proof.
  intros H. apply elem_of_list_to_map_2 in H.
  repeat (apply elem_of_cons in H as [H | H];
          [injection H as -> ->;
           split; [reflexivity |]; split; [discriminate |]; split; [discriminate |];
           eexists; split; [reflexivity | discriminate] |]).
  by apply elem_of_nil in H.
Qed.

(** C10 (failing inputs).  A command that is no key of the command table
    but names a member the table object inherits from [Object.prototype]
    ([constructor], [toString], [valueOf], [hasOwnProperty], [__proto__],
    ...) is not handed to the executor as the raw value: in a message that
    is neither [welcome] nor [pong] and is addressed to the device, the
    lookup yields the inherited member, which is truthy, so the key event
    line carries that member's text and differs from the line the raw value
    would give.  The confirmation, sent when the transport is open, still
    echoes the raw command. *)
Theorem C10_inherited_name_is_executed_resolved
    (dev : Device) (now : Z) (data : json) (type target command v : value)
    (key : string) (s : State) :
  Get data "type" = Some type →
  is_string type "welcome" = false →
  is_string type "pong" = false →
  Get data "target" = Some target →
  is_string target (tvId dev) || is_string target "all" = true →
  Get data "command" = Some command →
  ToPropertyKey command = Some key →
  Object_prototype !! key = Some v →
  COMMAND_MAP !! key = None ∧
  keyCode command = Some v ∧ v ≠ command ∧
  ∃ line raw,
    adb_keyevent v = Some line ∧ adb_keyevent command = Some raw ∧ line ≠ raw ∧
    Backoff.on_message dev now (Parsed data) s =
      (let s1 := emit (EExec line) (set_lastActivityTime now s) in
       if is_open (ws s)
       then emit (ESend (Confirm (tvId dev) command "ok" now)) s1
       else s1).
Proof.
  intros Hty Hw Hp Htg Hm Hc Hk Hv.
  destruct (Object_prototype_shadows key v Hv) as (Hmap & Hu & Hj & str & Hstr & Hne).
  assert (keyCode command = Some v) as Hcode by by eapply keyCode_inherited.
  split; [done |]. split; [done |]. split.
  { destruct (Get_command_parsed data command Hc) as [-> | [j ->]]; [done |].
    intros E. by apply (Hj j). }
  exists ("adb shell input keyevent " +:+ str), ("adb shell input keyevent " +:+ key).
  unfold ToPropertyKey in Hk.
  assert (adb_keyevent v = Some ("adb shell input keyevent " +:+ str)) as Hline
    by (unfold adb_keyevent; by rewrite Hstr).
  split; [done |]. split; [unfold adb_keyevent; by rewrite Hk |]. split.
  - simpl. intros [= E]. by apply Hne.
  - by eapply on_message_command.
Qed.

(** C10 at the message [{"target":"all","command":"toString"}]. *)
Lemma C10_toString_for_all_runs_a_function :
  COMMAND_MAP !! "toString" = None ∧
  keyCode (Json (JStr "toString")) = Some (Builtin "toString") ∧
  Builtin "toString" ≠ Json (JStr "toString") ∧
  ∃ line raw,
    adb_keyevent (Builtin "toString") = Some line ∧
    adb_keyevent (Json (JStr "toString")) = Some raw ∧ line ≠ raw ∧
    Backoff.on_message Sample.dev 2000 (Parsed Cases.toString_all) Sample.opened =
      (let s1 := emit (EExec line) (set_lastActivityTime 2000 Sample.opened) in
       if is_open (ws Sample.opened)
       then emit (ESend (Confirm (tvId Sample.dev) (Json (JStr "toString")) "ok" 2000)) s1
       else s1).
Proof.
  apply (C10_inherited_name_is_executed_resolved Sample.dev 2000 Cases.toString_all
           Undefined (Json (JStr "all")) (Json (JStr "toString")) (Builtin "toString")
           "toString" Sample.opened);
    vm_compute; reflexivity.
Defined.

(** ** Backoff delay *)

Lemma delay_monotone (a b : Z) :
  a ≤ b → Backoff.delay a ≤ Backoff.delay b.
Proof.
  intros Hab. unfold Backoff.delay.
  apply Z.min_le_compat_r, Z.mul_le_mono_nonneg_l; [done |].
  apply Z.pow_le_mono_r; lia.
Qed.

(** C2.  For every attempt number from 1 on, the delay is
    [min (5000 * 2^(attempts-1)) 300000]; [scheduleReconnect] arms its
    timer with exactly that delay for the attempt it counts; the delay never
    decreases as attempts grow; attempts 1 to 7 give 5000, 10000, 20000,
    40000, 80000, 160000, 300000. *)
Theorem C2_reconnect_delay (s : State) (attempts : Z) :
  1 ≤ attempts ≤ Backoff.MAX_RECONNECT_ATTEMPTS →
  isReconnecting s = false →
  reconnectAttempts s = attempts - 1 →
  let s' := Backoff.scheduleReconnect s in
  reconnectAttempts s' = attempts ∧
  (∃ older,
      log s' = ESetTimer ReconnectTimer (nextHandle s)
                 (Z.min (5000 * 2 ^ (attempts - 1)) 300000) :: older) ∧
  (∀ a, 1 ≤ a → Backoff.delay a = Z.min (5000 * 2 ^ (a - 1)) 300000) ∧
  (∀ a b, 1 ≤ a ≤ b → Backoff.delay a ≤ Backoff.delay b) ∧
  map Backoff.delay [1; 2; 3; 4; 5; 6; 7] =
    [5000; 10000; 20000; 40000; 80000; 160000; 300000].
Proof.
  intros Hrange Hr Ha s'.
  destruct (scheduleReconnect_schedules s Hr) as (_ & Hn & _ & _ & _ & _ & _ & older & Hlog);
    [lia |].
  fold s' in Hn, Hlog. split; [lia |]. split.
  - exists older. rewrite Hlog. by replace (reconnectAttempts s + 1) with attempts by lia.
  - split; [done |]. split; [| reflexivity].
    intros a b [_ Hab]. by apply delay_monotone.
Qed.

(** C2 at the seventh attempt in a row: the delay is capped at 300000. *)
Lemma C2_seventh_attempt_is_capped :
  let s := set_reconnectAttempts 6 (init 0) in
  let s' := Backoff.scheduleReconnect s in
  reconnectAttempts s' = 7 ∧
  (∃ older,
      log s' = ESetTimer ReconnectTimer (nextHandle s)
                 (Z.min (5000 * 2 ^ (7 - 1)) 300000) :: older) ∧
  (∀ a, 1 ≤ a → Backoff.delay a = Z.min (5000 * 2 ^ (a - 1)) 300000) ∧
  (∀ a b, 1 ≤ a ≤ b → Backoff.delay a ≤ Backoff.delay b) ∧
  map Backoff.delay [1; 2; 3; 4; 5; 6; 7] =
    [5000; 10000; 20000; 40000; 80000; 160000; 300000].
Proof.
  apply (C2_reconnect_delay (set_reconnectAttempts 6 (init 0)) 7);
    [unfold Backoff.MAX_RECONNECT_ATTEMPTS; lia | reflexivity | reflexivity].
Defined.

(** ** A reconnect that is already pending *)

(** C6.  While a reconnect is pending, [scheduleReconnect] changes nothing:
    counter, timers and pending delay stay as the first call left them, so a
    second call in a row has no further effect. *)
Theorem C6_scheduleReconnect_idempotent (s : State) :
  isReconnecting s = true →
  Backoff.scheduleReconnect s = s ∧
  Backoff.scheduleReconnect (Backoff.scheduleReconnect s) = Backoff.scheduleReconnect s.
Proof.
  intros Hr. rewrite !(scheduleReconnect_pending s Hr). split; reflexivity.
Qed.

(** C6 at an agent that lost its transport once. *)
Lemma C6_pending_reconnect_is_kept :
  Backoff.scheduleReconnect Sample.pending = Sample.pending ∧
  Backoff.scheduleReconnect (Backoff.scheduleReconnect Sample.pending) =
    Backoff.scheduleReconnect Sample.pending.
Proof.
  apply (C6_scheduleReconnect_idempotent Sample.pending). vm_compute. reflexivity.
Defined.

(** Two calls in a row, the first of which schedules, amount to one. *)
Lemma scheduleReconnect_twice (s : State) :
  reconnectAttempts s < Backoff.MAX_RECONNECT_ATTEMPTS →
  Backoff.scheduleReconnect (Backoff.scheduleReconnect s) = Backoff.scheduleReconnect s.
Proof.
  intros Hlt. destruct (isReconnecting s) eqn:Hr.
  - by rewrite !(scheduleReconnect_pending s Hr).
  - destruct (scheduleReconnect_schedules s Hr Hlt) as (Hr' & _).
    by apply scheduleReconnect_pending.
Qed.

(** ** A payload that does not decode *)

(** C4 (counterexample).  A malformed payload does move the activity
    timestamp: the handler records the arrival before it decodes. *)
Lemma C4_malformed_payload_bumps_activity :
  lastActivityTime Sample.opened = 1000 ∧
  lastActivityTime (Backoff.step Sample.dev (WsMessage 2000 SyntaxError) Sample.opened) = 2000.
Proof. split; vm_compute; reflexivity. Qed.

(** C4 (amended).  A payload that fails to decode is discarded without a
    crash and without a reconnect; the only thing it changes is the activity
    timestamp, which is set to the arrival time because the handler records
    the arrival before it decodes. *)
Theorem C4_malformed_payload_only_bumps_activity (dev : Device) (now : Z) (s : State) :
  Backoff.on_message dev now SyntaxError s = set_lastActivityTime now s ∧
  Backoff.step dev (WsMessage now SyntaxError) s =
    if accepts_frames s then set_lastActivityTime now s else s.
Proof.
  split; [reflexivity |].
  unfold Backoff.step, accepts_frames.
  destruct (exited s); [done |].
  destruct (listening_socket s) as [[[] ?] |]; reflexivity.
Qed.

(** ** At most one timer of each kind *)

Lemma live_of_drop (k : TimerKind) (h : Handle) (l : list (Handle * TimerKind)) :
  (length (filter (λ p, p.2 = k) (filter (λ p, p.1 ≠ h) l))
   ≤ length (filter (λ p, p.2 = k) l))%nat.
Proof.
  induction l as [| p l IH]; [done |].
  rewrite (filter_cons (λ p, p.1 ≠ h)), (filter_cons (λ p, p.2 = k) p l).
  destruct (decide (p.1 ≠ h)), (decide (p.2 = k)) as [Hk | Hk];
    rewrite ?filter_cons; simpl; try rewrite decide_True by done;
    try rewrite decide_False by done; simpl; lia.
Qed.

(** A disciplined history never had two timers of a kind at once. *)
Lemma disciplined_at_most_one (l : list Effect) (k : TimerKind) :
  disciplined l → (length (live_of k l) ≤ 1)%nat.
Proof.
  induction l as [| e l IH]; [simpl; lia |].
  intros [He Hl]. specialize (IH Hl). unfold live_of in *.
  destruct e; simpl; try done.
  - rewrite filter_cons. simpl. destruct (decide (k0 = k)) as [-> | _]; [| done].
    unfold live_of in He. rewrite He. simpl. lia.
  - etrans; [apply live_of_drop | done].
  - etrans; [apply live_of_drop | done].
Qed.

Lemma disciplined_past (recent past : list Effect) :
  disciplined (recent ++ past)%list → disciplined past.
Proof. induction recent as [| e l IH]; [done |]. intros [_ H]. by apply IH. Qed.

(** C5.  Over every sequence of events, at most one ping timer, one
    health-check timer and one reconnect timer are outstanding, in the final
    state and at every earlier instant of the history; and whenever a timer
    was armed, no timer of its kind was outstanding at that moment: its
    predecessor had been cancelled (or, for the one-shot reconnect timer,
    had run). *)
Theorem C5_one_timer_of_each_kind
    (dev : Device) (t0 : Z) (ctorOk : bool) (evs : list Event) :
  let s := Backoff.run dev evs (Backoff.boot t0 ctorOk) in
  (∀ k, (length (outstanding k s) ≤ 1)%nat) ∧
  live (log s) = timer_key <$> timers s ∧
  ∀ recent past,
    log s = (recent ++ past)%list →
    (∀ k, (length (live_of k past) ≤ 1)%nat) ∧
    (∀ k h d older, past = ESetTimer k h d :: older → live_of k older = []).
Proof.
  intros s.
  assert (timers_wf s) as [_ W2 W3 W4 _ _ _] by apply timers_wf_run, timers_wf_boot.
  split; [done |]. split; [done |].
  intros recent past Hlog. rewrite Hlog in W4. apply disciplined_past in W4.
  split.
  - intros k. by apply disciplined_at_most_one.
  - intros k h d older ->. by destruct W4.
Qed.

(** ** Teardown *)

Lemma no_timers (s : State) : (∀ k, outstanding k s = []) → timers s = [].
Proof.
  intros H. destruct (timers s) as [| t l] eqn:E; [done |].
  exfalso. apply (proj1 (outstanding_nil (timer_kind t) s) (H _) t); [| done].
  rewrite E. by left.
Qed.

Lemma timers_cleanup (s : State) :
  timers (cleanup s) = timers (cancel ReconnectTimer (cancel PingTimer s)).
Proof. unfold cleanup, ws_close, ws_removeAllListeners. cbv zeta. frame_cases. Qed.


Lemma lockFile_cleanup (s : State) : lockFile (cleanup s) = false.
Proof.
  unfold cleanup. cbv zeta.
  match goal with |- context [if lockFile ?X then _ else _] =>
    destruct (lockFile X) eqn:E end; done.
Qed.

Lemma ws_cleanup (s : State) :
  ws (cleanup s) =
    match ws s with
    | Some sock =>
        Some {| readyState := if open_or_connecting sock then CLOSING
                              else readyState sock;
                listening := false |}
    | None => None
    end.
Proof.
  unfold cleanup, ws_close, ws_removeAllListeners, closing. cbv zeta.
  assert (ws (cancel ReconnectTimer (cancel PingTimer s)) = ws s) as E
    by by autorewrite with frame.
  generalize dependent (cancel ReconnectTimer (cancel PingTimer s)). intros Y E.
  rewrite E. destruct (ws s) as [[[] ?] |]; simpl;
    match goal with |- context [if lockFile ?X then _ else _] =>
      destruct (lockFile X) end; simpl; done.
Qed.



(** Nothing happens once the process is gone. *)
Lemma step_exited (dev : Device) (e : Event) (s : State) :
  is_Some (exited s) → Backoff.step dev e s = s.
Proof. intros [c Hc]. unfold Backoff.step. by rewrite Hc. Qed.


Lemma step_open (dev : Device) (now : Z) (s : State) :
  accepts_open s = true →
  ∃ sock, ws s = Some sock ∧
    Backoff.step dev (WsOpen now) s = Backoff.on_open dev now (set_readyState OPEN sock s).
Proof.
  unfold accepts_open, Backoff.step, listening_socket.
  destruct (exited s); [done |].
  destruct (ws s) as [[[] []] |]; try done. intros _. by eexists.
Qed.

(** ** The attempt counter *)



(** ** Registration over HTTP *)

Section Registration.
Context (dev : Device).

Lemma registerToServer_confirmed (c : value) (s : State) :
  isRegistered s = true → registerToServer dev c s = s.
Proof. intros H. unfold registerToServer. by rewrite H. Qed.

Lemma registerToServer_posts (c : value) (s : State) :
  isRegistered s = false →
  posts (log (registerToServer dev c s)) = S (posts (log s)).
Proof. intros H. unfold registerToServer. by rewrite H. Qed.

Lemma isRegistered_on_message now msg (s : State) :
  isRegistered (Backoff.on_message dev now msg s) = isRegistered s.
Proof. by destruct (on_message_shape dev now msg s) as (l & -> & _). Qed.

Lemma posts_on_message now msg (s : State) :
  posts (log (Backoff.on_message dev now msg s)) = posts (log s).
Proof.
  destruct (on_message_shape dev now msg s)
    as (l & -> & [-> | [(? & ->) | (? & ? & ->)]]); reflexivity.
Qed.

Lemma isRegistered_on_open now (s : State) :
  isRegistered (Backoff.on_open dev now s) = isRegistered s.
Proof. unfold Backoff.on_open. cbv zeta. by autorewrite with frame. Qed.

Lemma posts_on_open now (s : State) :
  posts (log (Backoff.on_open dev now s)) =
    if isRegistered s then posts (log s) else S (posts (log s)).
Proof.
  unfold Backoff.on_open. cbv zeta. autorewrite with frame.
  destruct (isRegistered s) eqn:Hr.
  - by rewrite registerToServer_confirmed.
  - by rewrite registerToServer_posts.
Qed.

#[local] Hint Rewrite isRegistered_on_message posts_on_message
  isRegistered_on_open : frame.

(** Only a successful response changes the flag, and only to [true]. *)
Lemma step_isRegistered e (s : State) :
  isRegistered (Backoff.step dev e s) = isRegistered s ∨
  e = HttpResponse true ∧ isRegistered (Backoff.step dev e s) = true.
Proof.
  unfold Backoff.step. destruct (exited s); [by left |].
  destruct e; try destruct ok;
    unfold Backoff.on_close, Backoff.on_error, Backoff.on_ping, Backoff.on_pong,
      Backoff.on_ping_timer, Backoff.on_health_timer, Backoff.on_reconnect_timer,
      ws_terminate, expire, registerToServer_resume, set_readyState;
    cbv zeta; repeat case_match; simplify_eq;
    autorewrite with frame; simpl; autorewrite with frame; auto.
Qed.

(** Once confirmed, no event sends another registration. *)
Lemma step_posts e (s : State) :
  isRegistered s = true →
  posts (log (Backoff.step dev e s)) = posts (log s).
Proof.
  intros Hr. unfold Backoff.step. destruct (exited s); [done |].
  destruct e;
    unfold Backoff.on_close, Backoff.on_error, Backoff.on_ping, Backoff.on_pong,
      Backoff.on_ping_timer, Backoff.on_health_timer, Backoff.on_reconnect_timer,
      ws_terminate, expire, registerToServer_resume, set_readyState;
    cbv zeta; repeat case_match; simplify_eq;
    rewrite ?posts_on_open;
    autorewrite with frame; simpl; autorewrite with frame; rewrite ?Hr; auto.
Qed.

Lemma run_confirmed evs (s : State) :
  isRegistered s = true →
  isRegistered (Backoff.run dev evs s) = true ∧
  posts (log (Backoff.run dev evs s)) = posts (log s).
Proof.
  revert s. induction evs as [| e evs IH]; intros s Hr; [done |].
  simpl. assert (isRegistered (Backoff.step dev e s) = true) as Hr'.
  { destruct (step_isRegistered e s) as [-> | [_ ->]]; done. }
  destruct (IH _ Hr') as [-> ->]. by rewrite step_posts.
Qed.

End Registration.

(** The request of an unconfirmed agent leaves, and awaits its response. *)
Lemma pendingPosts_on_open (dev : Device) now (s : State) :
  pendingPosts (Backoff.on_open dev now s) =
    if isRegistered s then pendingPosts s else S (pendingPosts s).
Proof.
  unfold Backoff.on_open. cbv zeta. autorewrite with frame.
  unfold registerToServer. simpl. by destruct (isRegistered s).
Qed.

(** A successful response to a request in flight sets the flag, whatever
    the state of the connection. *)
Lemma step_response_confirms (dev : Device) (s : State) :
  exited s = None → pendingPosts s ≠ O →
  isRegistered (Backoff.step dev (HttpResponse true) s) = true ∧
  posts (log (Backoff.step dev (HttpResponse true) s)) = posts (log s).
Proof.
  intros Hx Hp. unfold Backoff.step. rewrite Hx.
  destruct (pendingPosts s); [done |]. done.
Qed.

(** C7.  The [isRegistered] flag goes from [false] to [true] at most once
    and never back: once it is set, [registerToServer] does nothing, and no
    sequence of events, however many reconnects it holds, clears the flag or
    sends another registration; only a successful response sets it, and a
    successful response to a request in flight does set it, after which no
    sequence of events sends another registration; a failed response
    changes nothing but the count of requests in flight, so the flag stays
    [false]; and the next open of an unconfirmed agent sends the
    registration again and leaves it in flight. *)
Theorem C7_registration_confirmed_once (dev : Device) (s : State) :
  (isRegistered s = true →
   registerToServer dev Backoff.cabangId s = s ∧
   ∀ evs, isRegistered (Backoff.run dev evs s) = true ∧
          posts (log (Backoff.run dev evs s)) = posts (log s)) ∧
  (∀ e, isRegistered s = false →
        isRegistered (Backoff.step dev e s) = true → e = HttpResponse true) ∧
  (∃ n, Backoff.step dev (HttpResponse false) s = set_pendingPosts n s) ∧
  (∀ now, isRegistered s = false → accepts_open s = true →
          posts (log (Backoff.step dev (WsOpen now) s)) = S (posts (log s)) ∧
          pendingPosts (Backoff.step dev (WsOpen now) s) = S (pendingPosts s) ∧
          exited (Backoff.step dev (WsOpen now) s) = None) ∧
  (exited s = None → pendingPosts s ≠ O →
   let s' := Backoff.step dev (HttpResponse true) s in
   isRegistered s' = true ∧
   registerToServer dev Backoff.cabangId s' = s' ∧
   ∀ evs, isRegistered (Backoff.run dev evs s') = true ∧
          posts (log (Backoff.run dev evs s')) = posts (log s)).
Proof.
  split_and!.
  - intros Hr. split; [by apply registerToServer_confirmed |].
    intros evs. by apply run_confirmed.
  - intros e Hr Hr'. destruct (step_isRegistered dev e s) as [E | [-> _]]; [| done].
    congruence.
  - unfold Backoff.step, registerToServer_resume.
    destruct (exited s); [exists (pendingPosts s); by destruct s |].
    destruct (pendingPosts s) eqn:E; [exists O; destruct s; simpl in *; by subst |].
    by eexists.
  - intros now Hr Hopen. destruct (step_open dev now s Hopen) as (sock & _ & ->).
    split_and!.
    + rewrite posts_on_open. simpl. by rewrite Hr.
    + rewrite pendingPosts_on_open. simpl. by rewrite Hr.
    + destruct (on_open_control dev now (set_readyState OPEN sock s))
        as (_ & _ & _ & -> & _).
      simpl. unfold accepts_open in Hopen. by destruct (exited s).
  - intros Hx Hp s'.
    destruct (step_response_confirms dev s Hx Hp) as [Hr Hposts].
    split; [done |]. split; [by apply registerToServer_confirmed |].
    intros evs. destruct (run_confirmed dev evs s' Hr) as [-> ->]. done.
Qed.

(** C7 at an agent whose first registration succeeded. *)
Lemma C7_confirmed_agent_never_registers_again :
  let s := Backoff.run Sample.dev [HttpResponse true] Sample.opened in
  registerToServer Sample.dev Backoff.cabangId s = s ∧
  ∀ evs, isRegistered (Backoff.run Sample.dev evs s) = true ∧
         posts (log (Backoff.run Sample.dev evs s)) = posts (log s).
Proof.
  apply (proj1 (C7_registration_confirmed_once Sample.dev
                  (Backoff.run Sample.dev [HttpResponse true] Sample.opened))).
  vm_compute. reflexivity.
Defined.

(** ** The health check *)

Lemma log_cancel (k : TimerKind) (s : State) :
  ∃ recent, log (cancel k s) = (recent ++ log s)%list ∧ timer_ops recent.
Proof.
  unfold cancel. destruct (var_of k s) as [h |].
  - exists [EClearTimer h]. split; [done |]. by repeat constructor.
  - exists []. split; [done | constructor].
Qed.

Lemma log_cancel_and_forget (k : TimerKind) (s : State) :
  ∃ recent, log (cancel_and_forget k s) = (recent ++ log s)%list ∧ timer_ops recent.
Proof.
  unfold cancel_and_forget. destruct (var_of k s) as [h |].
  - exists [EClearTimer h]. split; [by destruct k |]. by repeat constructor.
  - exists []. split; [done | constructor].
Qed.

(** A call that schedules touches the outside world through timers only. *)
Lemma scheduleReconnect_log (s : State) :
  isReconnecting s = false →
  reconnectAttempts s < Backoff.MAX_RECONNECT_ATTEMPTS →
  ∃ recent, log (Backoff.scheduleReconnect s) = (recent ++ log s)%list ∧
            timer_ops recent.
Proof.
  intros Hr Hlt. unfold Backoff.scheduleReconnect. rewrite Hr.
  destruct (Z.leb_spec Backoff.MAX_RECONNECT_ATTEMPTS (reconnectAttempts s)); [lia |].
  cbv zeta.
  set (s1 := set_reconnectAttempts _ _).
  destruct (log_cancel_and_forget PingTimer s1) as (r1 & E1 & T1).
  destruct (log_cancel_and_forget HealthTimer (cancel_and_forget PingTimer s1))
    as (r2 & E2 & T2).
  destruct (log_cancel ReconnectTimer
              (cancel_and_forget HealthTimer (cancel_and_forget PingTimer s1)))
    as (r3 & E3 & T3).
  eexists (_ :: r3 ++ r2 ++ r1)%list. split.
  - unfold arm, setTimer. simpl. rewrite E3, E2, E1. simpl.
    by rewrite <- !app_assoc.
  - constructor; [done |]. by repeat apply Forall_app_2.
Qed.

Section HealthCheck.
Context (dev : Device).

(** The open handler leaves exactly one health check, of period twice
    the ping interval. *)
Lemma on_open_health now (s : State) :
  timers_wf s →
  ∃ h, outstanding HealthTimer (Backoff.on_open dev now s) =
         [{| timer_id := h; timer_kind := HealthTimer;
             timer_delay := Backoff.PING_INTERVAL * 2 |}].
Proof.
  intros W. unfold Backoff.on_open. cbv zeta.
  match goal with |- context [cancel_and_forget PingTimer ?Y] =>
    assert (timers_wf Y) as WY; [| generalize dependent Y; intros s0 WY]
  end.
  { apply timers_wf_registerToServer. timers_frame. }
  eexists. rewrite outstanding_arm, decide_True by done.
  rewrite outstanding_arm, decide_False by done.
  by rewrite cancel_and_forget_none by by apply timers_wf_cancel_and_forget.
Qed.

Lemma accepts_open_same (s s' : State) :
  exited s' = exited s → ws s' = ws s → accepts_open s' = accepts_open s.
Proof. intros Hx Hw. unfold accepts_open, listening_socket. by rewrite Hx, Hw. Qed.

Lemma accepts_open_not_connecting (s : State) (sock : Socket) :
  ws s = Some sock → readyState sock ≠ CONNECTING → accepts_open s = false.
Proof.
  intros Hw Hc. unfold accepts_open, listening_socket. rewrite Hw.
  destruct (exited s), sock as [[] []]; done.
Qed.

(** While a reconnect is pending and no transport is connecting, nothing
    but the reconnect timer can lead to another scheduling. *)
Lemma step_pending e (s : State) :
  is_reconnect_fire e = false →
  isReconnecting s = true →
  accepts_open s = false →
  isReconnecting (Backoff.step dev e s) = true ∧
  accepts_open (Backoff.step dev e s) = false ∧
  reconnects (log (Backoff.step dev e s)) = reconnects (log s).
Proof.
  intros He Hr Hopen. unfold Backoff.step.
  destruct (exited s) eqn:Hx; [done |].
  destruct e; try discriminate He.
  - assert (accepts_open s = false) as Hopen' by done.
    unfold accepts_open, listening_socket in Hopen'. rewrite Hx in Hopen'.
    unfold listening_socket. by destruct (ws s) as [[[] []] |].
  - destruct (on_message_shape dev now msg s)
      as (l & -> & Hl).
    assert (accepts_open (set_log (l ++ log s) (set_lastActivityTime now s)) = false)
      as Hopen' by (by rewrite <- Hopen; apply accepts_open_same).
    assert (reconnects (l ++ log s) = reconnects (log s)) as Hl'
      by (by destruct Hl as [-> | [(? & ->) | (? & ? & ->)]]).
    by repeat case_match.
  - unfold Backoff.on_close. repeat case_match; try done;
      rewrite scheduleReconnect_pending by done;
      (split_and!; [done | by eapply accepts_open_not_connecting | done]).
  - unfold Backoff.on_error. by case_match.
  - unfold Backoff.on_ping. repeat case_match; try done;
      (split_and!; [done | by rewrite <- Hopen; apply accepts_open_same | done]).
  - unfold Backoff.on_pong. repeat case_match; try done;
      (split_and!; [done | by rewrite <- Hopen; apply accepts_open_same | done]).
  - repeat case_match; try done;
      (split_and!; [done | by eapply accepts_open_not_connecting | done]).
  - case_match; [done |]. unfold Backoff.on_ping_timer.
    destruct (is_open (ws s)), sendOk;
      rewrite ?scheduleReconnect_pending by done; done.
  - case_match; [done |]. unfold Backoff.on_health_timer. cbv zeta.
    destruct (_ <? _); [| done].
    destruct (ws s) as [sock |] eqn:Hw;
      rewrite scheduleReconnect_pending by done; [| done].
    split_and!; [done | | done].
    eapply accepts_open_not_connecting; [reflexivity |]. by destruct sock as [[] ?].
  - unfold registerToServer_resume.
    destruct (pendingPosts s), ok; try done;
      (split_and!; [done | by rewrite <- Hopen; apply accepts_open_same | done]).
  - autorewrite with frame. done.
Qed.

Lemma run_pending evs (s : State) :
  Forall (λ e, is_reconnect_fire e = false) evs →
  isReconnecting s = true →
  accepts_open s = false →
  reconnects (log (Backoff.run dev evs s)) = reconnects (log s).
Proof.
  revert s. induction evs as [| e evs IH]; intros s Hevs Hr Hopen; [done |].
  apply Forall_cons in Hevs as [He Hevs].
  destruct (step_pending e s He Hr Hopen) as (Hr' & Hopen' & <-).
  simpl. by apply IH.
Qed.

End HealthCheck.

(** ** The timer table of [src/tvagent.js] *)

Lemma timers_wf_Fixed_scheduleReconnect (s : State) :
  timers_wf s → timers_wf (Fixed.scheduleReconnect s).
Proof.
  intros W. unfold Fixed.scheduleReconnect.
  destruct (isReconnecting s); [done |]. cbv zeta.
  apply timers_wf_arm; [| | done].
  - apply timers_wf_cancel, timers_wf_cancel_and_forget. timers_frame.
  - apply cancel_none, timers_wf_cancel_and_forget. timers_frame.
Qed.

Lemma timers_wf_Fixed_connect (ctorOk : bool) (s : State) :
  timers_wf s → timers_wf (Fixed.connect ctorOk s).
Proof.
  intros W. unfold Fixed.connect, Fixed.uncaught. cbv zeta.
  match goal with |- timers_wf (if _ then _ else process_exit _ ?Y) =>
    assert (timers_wf Y) as WY; [| generalize dependent Y; intros s0 WY]
  end.
  { unfold ws_removeAllListeners. quiet_cases. }
  destruct ctorOk; [quiet_cases | by apply timers_wf_process_exit].
Qed.

Section FixedReachable.
Context (dev : Device).

Lemma timers_wf_Fixed_on_open (s : State) :
  timers_wf s → timers_wf (Fixed.on_open dev s).
Proof.
  intros W. unfold Fixed.on_open. cbv zeta.
  match goal with |- timers_wf (arm _ _ (cancel_and_forget _ ?Y)) =>
    assert (timers_wf Y) as WY; [| generalize dependent Y; intros s0 WY]
  end.
  { apply timers_wf_registerToServer. timers_frame. }
  apply timers_wf_arm; [by apply timers_wf_cancel_and_forget | | done].
  by apply cancel_and_forget_none.
Qed.

Lemma timers_wf_Fixed_on_message now msg (s : State) :
  timers_wf s → timers_wf (Fixed.on_message dev now msg s).
Proof.
  intros W. unfold Fixed.on_message.
  repeat case_match; try done.
  all: match goal with H : sendKey _ _ = Some _ |- _ =>
         apply timers_wf_sendKey in H; [| done] end.
  all: timers_frame.
Qed.

Lemma timers_wf_Fixed_step e (s : State) :
  timers_wf s → timers_wf (Fixed.step dev e s).
Proof.
  intros W. unfold Fixed.step. destruct (exited s); [done |].
  destruct e; try done.
  - repeat case_match; try done. apply timers_wf_Fixed_on_open.
    unfold set_readyState. timers_frame.
  - repeat case_match; try done; by apply timers_wf_Fixed_on_message.
  - repeat case_match; try done;
      apply timers_wf_Fixed_scheduleReconnect; unfold set_readyState; timers_frame.
  - by repeat case_match.
  - unfold set_readyState. repeat case_match; try done; timers_frame.
  - case_match; [done |]. unfold Fixed.on_ping_timer, Fixed.uncaught.
    repeat case_match; try done; [timers_frame | by apply timers_wf_process_exit].
  - destruct (expire ReconnectTimer s) as [s' |] eqn:E; [| done].
    apply timers_wf_expire in E; [| done].
    apply timers_wf_Fixed_connect. timers_frame.
  - unfold registerToServer_resume. quiet_cases.
  - by apply timers_wf_process_exit, timers_wf_cleanup.
Qed.

Lemma timers_wf_Fixed_boot t0 ctorOk : timers_wf (Fixed.boot t0 ctorOk).
Proof. apply timers_wf_Fixed_connect, timers_wf_init. Qed.

End FixedReachable.

(** ** Clearing one kind of timer leaves the others alone *)

Lemma filter_all {A} (P : A → Prop) `{∀ x, Decision (P x)} (l : list A) :
  (∀ x, x ∈ l → P x) → filter P l = l.
Proof.
  induction l as [| x l IH]; [done |]. intros Hall.
  rewrite filter_cons, decide_True by (apply Hall; by left).
  f_equal. apply IH. intros y Hy. apply Hall. by right.
Qed.

Lemma clearTimer_other (k k' : TimerKind) (h : Handle) (s : State) :
  timers_wf s → var_of k s = Some h → k' ≠ k →
  outstanding k' (clearTimer h s) = outstanding k' s.
Proof.
  intros [W1 _ _ _ _ _ W7] Hv Hk. rewrite outstanding_clearTimer.
  apply filter_all. intros t Ht Hid.
  apply list_elem_of_filter in Ht as [Hkind Ht].
  specialize (W1 t Ht). rewrite Hkind, Hid in W1.
  apply Hk. by eapply W7.
Qed.

Lemma cancel_other (k k' : TimerKind) (s : State) :
  timers_wf s → k' ≠ k → outstanding k' (cancel k s) = outstanding k' s.
Proof.
  intros W Hk. unfold cancel. destruct (var_of k s) eqn:Hv; [| done].
  by eapply clearTimer_other.
Qed.

Lemma cancel_and_forget_other (k k' : TimerKind) (s : State) :
  timers_wf s → k' ≠ k →
  outstanding k' (cancel_and_forget k s) = outstanding k' s.
Proof.
  intros W Hk. unfold cancel_and_forget. destruct (var_of k s) eqn:Hv; [| done].
  rewrite outstanding_set_var. by eapply clearTimer_other.
Qed.

(** What expiry does to the table. *)
Lemma expire_fields (k : TimerKind) (s s' : State) :
  timers_wf s → expire k s = Some s' →
  outstanding k s' = [] ∧
  (∀ k', k' ≠ k → outstanding k' s' = outstanding k' s) ∧
  ∃ h, s' = emit (EExpired h) (set_timers (drop_timer h (timers s)) s).
Proof.
  intros W. unfold expire. destruct (outstanding k s) as [| t rest] eqn:E; [done |].
  intros [= <-].
  assert (t ∈ outstanding k s) as Ht by (rewrite E; by left).
  apply list_elem_of_filter in Ht as [Hkind Ht].
  pose proof (wf_var s W t Ht) as Hv. rewrite Hkind in Hv.
  split_and!; [| | by eexists].
  - change (outstanding k (clearTimer (timer_id t) s) = []).
    by apply clearTimer_none.
  - intros k' Hk. change (outstanding k' (clearTimer (timer_id t) s) = outstanding k' s).
    by eapply clearTimer_other.
Qed.

(** ** Timer operations are invisible *)

Lemma observe_cancel (k : TimerKind) (s : State) :
  observe (log (cancel k s)) = observe (log s).
Proof. unfold cancel. by destruct (var_of k s). Qed.

Lemma observe_cancel_and_forget (k : TimerKind) (s : State) :
  observe (log (cancel_and_forget k s)) = observe (log s).
Proof. unfold cancel_and_forget. destruct (var_of k s); [by destruct k | done]. Qed.

Lemma observe_arm (k : TimerKind) (d : Z) (s : State) :
  observe (log (arm k d s)) = observe (log s).
Proof. by destruct k. Qed.

#[local] Hint Rewrite observe_cancel observe_cancel_and_forget observe_arm : frame.

(** ** The two files in step *)

(** Closes [agree s1' s2'] when both states are the agreeing [s1] and [s2]
    changed by assignments and effects that can be read off the goal. *)
Ltac agree_close A :=
  let Aws := fresh "Aws" in let Arec := fresh "Arec" in
  let Areg := fresh "Areg" in let Apend := fresh "Apend" in
  let Alock := fresh "Alock" in let Aex := fresh "Aex" in
  let Aobs := fresh "Aobs" in let Atim := fresh "Atim" in
  destruct A as [Aws Arec Areg Apend Alock Aex Aobs Atim];
  split; unfold outstanding in *; simpl;
  autorewrite with frame;
  rewrite ?Aws, ?Arec, ?Areg, ?Apend, ?Alock, ?Aex, ?Aobs; try done.

Lemma agree_cancel_and_forget (k : TimerKind) (s1 s2 : State) :
  timers_wf s1 → timers_wf s2 → agree s1 s2 →
  agree (cancel_and_forget k s1) (cancel_and_forget k s2).
Proof.
  intros W1 W2 [Aws Arec Areg Apend Alock Aex Aobs Atim].
  split; autorewrite with frame; try done.
  intros k' Hk'. destruct (decide (k' = k)) as [-> | Hne].
  - by rewrite !cancel_and_forget_none.
  - rewrite !cancel_and_forget_other by done. by apply Atim.
Qed.

Lemma agree_cancel (k : TimerKind) (s1 s2 : State) :
  timers_wf s1 → timers_wf s2 → agree s1 s2 →
  agree (cancel k s1) (cancel k s2).
Proof.
  intros W1 W2 [Aws Arec Areg Apend Alock Aex Aobs Atim].
  split; autorewrite with frame; try done.
  intros k' Hk'. destruct (decide (k' = k)) as [-> | Hne].
  - by rewrite !cancel_none.
  - rewrite !cancel_other by done. by apply Atim.
Qed.

Lemma agree_arm (k : TimerKind) (d1 d2 : Z) (s1 s2 : State) :
  agree s1 s2 → agree (arm k d1 s1) (arm k d2 s2).
Proof.
  intros [Aws Arec Areg Apend Alock Aex Aobs Atim].
  split; autorewrite with frame; try done.
  intros k' Hk'. rewrite !outstanding_arm. case_decide; [done |]. by apply Atim.
Qed.

(** The health check of [src/unnamed/part_000] is out of sight. *)
Lemma agree_forget_health (s1 s2 : State) :
  timers_wf s2 → agree s1 s2 → agree s1 (cancel_and_forget HealthTimer s2).
Proof.
  intros W2 [Aws Arec Areg Apend Alock Aex Aobs Atim].
  split; autorewrite with frame; try done.
  intros k' Hk'. rewrite cancel_and_forget_other by done. by apply Atim.
Qed.

Lemma agree_arm_health (d : Z) (s1 s2 : State) :
  agree s1 s2 → agree s1 (arm HealthTimer d s2).
Proof.
  intros [Aws Arec Areg Apend Alock Aex Aobs Atim].
  split; autorewrite with frame; try done.
  intros k' Hk'. rewrite outstanding_arm, decide_False by done. by apply Atim.
Qed.

Lemma agree_registerToServer (dev : Device) (c1 c2 : value) (s1 s2 : State) :
  agree s1 s2 →
  agree (registerToServer dev c1 s1) (registerToServer dev c2 s2).
Proof.
  intros A. unfold registerToServer.
  rewrite (ag_isRegistered _ _ A). destruct (isRegistered s2); [done |].
  agree_close A.
Qed.

Lemma agree_cleanup (s1 s2 : State) :
  timers_wf s1 → timers_wf s2 → agree s1 s2 → agree (cleanup s1) (cleanup s2).
Proof.
  intros W1 W2 A. unfold cleanup. cbv zeta.
  assert (agree (cancel ReconnectTimer (cancel PingTimer s1))
                (cancel ReconnectTimer (cancel PingTimer s2))) as AY
    by (apply agree_cancel; [by apply timers_wf_cancel .. | by apply agree_cancel]).
  generalize dependent (cancel ReconnectTimer (cancel PingTimer s2)).
  generalize dependent (cancel ReconnectTimer (cancel PingTimer s1)).
  intros Y1 Y2 AY. clear A W1 W2.
  unfold ws_close, ws_removeAllListeners.
  rewrite (ag_ws _ _ AY).
  destruct (ws Y2) as [sock |]; [destruct (open_or_connecting sock) |]; simpl;
    rewrite (ag_lockFile _ _ AY); destruct (lockFile Y2); agree_close AY.
Qed.

Lemma agree_process_exit (code : Z) (s1 s2 : State) :
  timers_wf s1 → timers_wf s2 → agree s1 s2 →
  agree (process_exit code s1) (process_exit code s2).
Proof.
  intros W1 W2 A. apply agree_cleanup in A; [| done ..].
  destruct A as [Aws Arec Areg Apend Alock Aex Aobs Atim].
  split; [exact Aws | exact Arec | exact Areg | exact Apend | exact Alock
         | reflexivity | | exact Atim].
  change (EExit code :: observe (log (cleanup s1)) =
          EExit code :: observe (log (cleanup s2))).
  by rewrite Aobs.
Qed.

Lemma agree_scheduleReconnect (s1 s2 : State) :
  timers_wf s1 → timers_wf s2 → agree s1 s2 →
  reconnectAttempts s2 < Backoff.MAX_RECONNECT_ATTEMPTS →
  agree (Fixed.scheduleReconnect s1) (Backoff.scheduleReconnect s2).
Proof.
  intros W1 W2 A Hlt. unfold Fixed.scheduleReconnect, Backoff.scheduleReconnect.
  rewrite (ag_isReconnecting _ _ A). destruct (isReconnecting s2); [done |].
  destruct (Z.leb_spec Backoff.MAX_RECONNECT_ATTEMPTS (reconnectAttempts s2)); [lia |].
  cbv zeta.
  set (X1 := set_isReconnecting true s1).
  set (X2 := set_reconnectAttempts _ (set_isReconnecting true s2)).
  assert (timers_wf X1) as WX1 by (unfold X1; timers_frame).
  assert (timers_wf X2) as WX2 by (unfold X2; timers_frame).
  assert (agree X1 X2) as AX by (unfold X1, X2; agree_close A).
  apply agree_arm, agree_cancel;
    [by apply timers_wf_cancel_and_forget
    | by do 2 apply timers_wf_cancel_and_forget |].
  apply agree_forget_health; [by apply timers_wf_cancel_and_forget |].
  by apply agree_cancel_and_forget.
Qed.

Lemma agree_connect (s1 s2 : State) :
  agree s1 s2 → agree (Fixed.connect true s1) (Backoff.connect true s2).
Proof.
  intros A. unfold Fixed.connect, Backoff.connect, ws_removeAllListeners.
  rewrite (ag_ws _ _ A).
  destruct (ws s2) as [sock |]; [destruct (open_or_connecting sock) |];
    agree_close A.
Qed.

Section InStep.
Context (dev : Device).

Lemma agree_on_open now (s1 s2 : State) :
  timers_wf s1 → timers_wf s2 → agree s1 s2 →
  agree (Fixed.on_open dev s1) (Backoff.on_open dev now s2).
Proof.
  intros W1 W2 A. unfold Fixed.on_open, Backoff.on_open. cbv zeta.
  match goal with
  | |- agree (arm _ _ (cancel_and_forget _ ?Y1))
             (arm _ _ (arm _ _ (cancel_and_forget _ (cancel_and_forget _ ?Y2)))) =>
      assert (timers_wf Y1 ∧ timers_wf Y2 ∧ agree Y1 Y2) as (WY1 & WY2 & AY);
      [| generalize dependent Y2; generalize dependent Y1; intros x1 WY1 x2 WY2 AY]
  end.
  { split_and!.
    - apply timers_wf_registerToServer. timers_frame.
    - apply timers_wf_registerToServer. timers_frame.
    - apply agree_registerToServer. agree_close A. }
  apply agree_arm_health, agree_arm.
  apply agree_forget_health; [by apply timers_wf_cancel_and_forget |].
  by apply agree_cancel_and_forget.
Qed.

Lemma agree_on_message now msg (s1 s2 : State) :
  shared dev (WsMessage now msg) s2 = true →
  agree s1 s2 →
  agree (Fixed.on_message dev now msg s1) (Backoff.on_message dev now msg s2).
Proof.
  intros Hsh A. unfold Fixed.on_message, Backoff.on_message. cbv zeta.
  destruct msg as [| data]; [agree_close A |].
  simpl in Hsh. unfold classified, addressed in Hsh.
  destruct (Get data "type") as [type |] eqn:Hty.
  - destruct (Get data "target") as [target |] eqn:Htg;
      [| by destruct data].
    destruct (is_string target (tvId dev) || is_string target "all") eqn:Haddr.
    + rewrite andb_true_r in Hsh. apply negb_true_iff, orb_false_iff in Hsh as [-> ->].
      destruct (Get data "command") as [command |]; [| agree_close A].
      unfold sendKey. destruct (keyCode command); [| agree_close A].
      destruct (adb_keyevent _); [| agree_close A].
      simpl. rewrite (ag_ws _ _ A). destruct (is_open (ws s2)); agree_close A.
    + repeat case_match; agree_close A.
  - assert (Get data "target" = None) as -> by by destruct data.
    agree_close A.
Qed.

(** One shared event keeps the two agents in step. *)
Lemma agree_step e (s1 s2 : State) :
  timers_wf s1 → timers_wf s2 → agree s1 s2 →
  shared dev e s2 = true →
  agree (Fixed.step dev e s1) (Backoff.step dev e s2).
Proof.
  intros W1 W2 A Hsh. unfold Fixed.step, Backoff.step.
  rewrite (ag_exited _ _ A). destruct (exited s2) eqn:Hx; [done |].
  destruct e; try discriminate Hsh.
  - unfold listening_socket. rewrite (ag_ws _ _ A).
    destruct (ws s2) as [[[] []] |]; try done.
    apply agree_on_open; unfold set_readyState; [timers_frame .. | agree_close A].
  - unfold listening_socket. rewrite (ag_ws _ _ A).
    destruct (ws s2) as [[[] []] |]; try done; by apply agree_on_message.
  - simpl in Hsh. apply Z.ltb_lt in Hsh.
    unfold listening_socket, Fixed.on_close, Backoff.on_close, set_readyState.
    rewrite (ag_ws _ _ A).
    destruct (ws s2) as [[[] []] |]; simpl; try done;
      (apply agree_scheduleReconnect;
         [timers_frame | timers_frame | agree_close A | simpl; done]).
  - unfold listening_socket, Fixed.on_error, Backoff.on_error.
    rewrite (ag_ws _ _ A). by destruct (ws s2) as [[? []] |].
  - unfold Backoff.on_pong. repeat case_match; try done; agree_close A.
  - unfold set_readyState. rewrite (ag_ws _ _ A).
    destruct (ws s2) as [[[] []] |]; try done; agree_close A.
  - simpl in Hsh. apply andb_true_iff in Hsh as [-> Hopen].
    unfold Fixed.on_ping_timer, Backoff.on_ping_timer.
    rewrite (ag_ws _ _ A), Hopen.
    pose proof (ag_timers _ _ A PingTimer ltac:(done)) as Hping.
    destruct (outstanding PingTimer s1), (outstanding PingTimer s2); try done.
    + by destruct Hping as [Hping _]; specialize (Hping eq_refl).
    + by destruct Hping as [_ Hping]; specialize (Hping eq_refl).
    + agree_close A.
  - simpl in Hsh. apply negb_true_iff in Hsh.
    unfold Backoff.on_health_timer. cbv zeta. rewrite Hsh. by case_match.
  - simpl in Hsh. subst ctorOk.
    pose proof (ag_timers _ _ A ReconnectTimer ltac:(done)) as Hrec.
    destruct (expire ReconnectTimer s1) as [s1' |] eqn:E1;
      destruct (expire ReconnectTimer s2) as [s2' |] eqn:E2.
    + destruct (expire_fields _ _ _ W1 E1) as (N1 & O1 & h1 & ->).
      destruct (expire_fields _ _ _ W2 E2) as (N2 & O2 & h2 & ->).
      apply agree_connect.
      destruct A as [Aws Arec Areg Apend Alock Aex Aobs Atim].
      split; try done.
      intros k Hk. destruct (decide (k = ReconnectTimer)) as [-> | Hne].
      * split; intros _; [exact N2 | exact N1].
      * specialize (O1 k Hne). specialize (O2 k Hne). specialize (Atim k Hk).
        unfold outstanding in *. simpl in *. by rewrite O1, O2.
    + unfold expire in E1, E2.
      destruct (outstanding ReconnectTimer s1), (outstanding ReconnectTimer s2);
        try done. by destruct Hrec as [_ Hrec]; specialize (Hrec eq_refl).
    + unfold expire in E1, E2.
      destruct (outstanding ReconnectTimer s1), (outstanding ReconnectTimer s2);
        try done. by destruct Hrec as [Hrec _]; specialize (Hrec eq_refl).
    + done.
  - unfold registerToServer_resume. rewrite (ag_pendingPosts _ _ A).
    destruct (pendingPosts s2), ok; try done; agree_close A.
  - apply agree_process_exit; [by apply timers_wf_cleanup .. |].
    by apply agree_cleanup.
Qed.

Lemma agree_run evs (s1 s2 : State) :
  timers_wf s1 → timers_wf s2 → agree s1 s2 →
  shared_run dev evs s2 = true →
  agree (Fixed.run dev evs s1) (Backoff.run dev evs s2).
Proof.
  revert s1 s2. induction evs as [| e evs IH]; intros s1 s2 W1 W2 A Hsh; [done |].
  simpl in Hsh. apply andb_true_iff in Hsh as [He Hevs].
  apply IH; [by apply timers_wf_Fixed_step | by apply timers_wf_step
            | by apply agree_step | done].
Qed.

End InStep.

Lemma agree_boot (t0 : Z) : agree (Fixed.boot t0 true) (Backoff.boot t0 true).
Proof. apply agree_connect. by split. Qed.

(** C9 (counterexample).  After the same two events, an open and a
    [welcome] message addressed to [all] that carries a command, the two
    files have not done the same, timers and branch id set aside:
    [src/tvagent.js] has run the key event and confirmed it,
    [src/unnamed/part_000] has only logged the welcome. *)
Lemma C9_welcome_with_command_tells_the_files_apart :
  let evs := [WsOpen 1000; WsMessage 2000 (Parsed Sample.welcome_sleep_all)] in
  observe (log (Fixed.run Sample.dev evs (Fixed.boot 0 true))) ≠
  observe (log (Backoff.run Sample.dev evs (Backoff.boot 0 true))).
Proof. vm_compute. discriminate. Qed.

(** C9 (amended).  Started alike, the two files stay in step over every
    sequence of shared events: same transport state, same flags, same exit
    status, and the same effects on the outside world up to timers and the
    branch id.  Shared events leave out what only [src/unnamed/part_000]
    handles: a [welcome] or [pong] message addressed to the device, ping
    frames, a ping that cannot be sent, a stale health check, a failed
    construction of the transport, and a close that finds the attempts
    exhausted. *)
Theorem C9_files_in_step_on_shared_events
    (dev : Device) (t0 : Z) (evs : list Event) :
  shared_run dev evs (Backoff.boot t0 true) = true →
  let s1 := Fixed.run dev evs (Fixed.boot t0 true) in
  let s2 := Backoff.run dev evs (Backoff.boot t0 true) in
  observe (log s1) = observe (log s2) ∧
  ws s1 = ws s2 ∧
  isReconnecting s1 = isReconnecting s2 ∧
  isRegistered s1 = isRegistered s2 ∧
  exited s1 = exited s2.
Proof.
  intros Hsh s1 s2.
  assert (agree s1 s2) as [Aws Arec Areg _ _ Aex Aobs _].
  { apply agree_run; [apply timers_wf_Fixed_boot | apply timers_wf_boot
                     | apply agree_boot | done]. }
  done.
Qed.

(** C9 over a session with a command, a ping, a registration, a lost
    transport, a reconnect and a termination signal. *)
Lemma C9_sample_session_in_step :
  let s1 := Fixed.run Sample.dev Sample.session (Fixed.boot 0 true) in
  let s2 := Backoff.run Sample.dev Sample.session (Backoff.boot 0 true) in
  observe (log s1) = observe (log s2) ∧
  ws s1 = ws s2 ∧
  isReconnecting s1 = isReconnecting s2 ∧
  isRegistered s1 = isRegistered s2 ∧
  exited s1 = exited s2.
Proof.
  apply (C9_files_in_step_on_shared_events Sample.dev 0 Sample.session).
  vm_compute. reflexivity.
Defined.

(** ** Device information *)

Lemma scan_interface_find (infos : list NetworkInterfaceInfo) :
  scan_interface infos = address <$> List.find external_IPv4 infos.
Proof.
  induction infos as [| net rest IH]; [done |]. simpl.
  by destruct (external_IPv4 net).
Qed.

Lemma find_app_split {A} (f : A → bool) (l1 l2 : list A) :
  List.find f (l1 ++ l2)%list =
    match List.find f l1 with
    | Some x => Some x
    | None => List.find f l2
    end.
Proof.
  induction l1 as [| x l1 IH]; [done |]. simpl. by destruct (f x).
Qed.

(** X1.  [getLocalIp] returns the address of the first entry, in the order
    the interfaces and their entries are listed, whose family is the string
    [IPv4] and which is not internal; it returns [unknown] exactly when
    there is no such entry (no interface at all, loopback only, IPv6
    only). *)
Theorem X1_getLocalIp_first_external
    (nets : list (string * list NetworkInterfaceInfo)) :
  getLocalIp nets =
    match List.find external_IPv4 (mjoin (snd <$> nets)) with
    | Some net => address net
    | None => "unknown"
    end.
Proof.
  induction nets as [| [name infos] more IH]; [done |].
  simpl. rewrite find_app_split, scan_interface_find.
  by destruct (List.find external_IPv4 infos).
Qed.

(** X2.  The device id is stable: whatever the file holds, a second call
    returns the id of the first and leaves the file as the first left it,
    provided a freshly generated id has no surrounding white space to
    trim. *)
Theorem X2_getDeviceId_stable
    (trim : string → string) (random1 random2 : string) (file : option string) :
  trim ("TV-" +:+ random1) = "TV-" +:+ random1 →
  let first := getDeviceId trim random1 file in
  let second := getDeviceId trim random2 first.2 in
  second.1 = first.1 ∧ second.2 = first.2 ∧ is_Some first.2 ∧
  (file = None → first.1 = "TV-" +:+ random1).
Proof.
  intros Htrim. destruct file as [content |]; simpl.
  - by eauto.
  - rewrite Htrim. by eauto.
Qed.

(** X2 at a first start, without a file: the generated id is the one read
    back at the next start. *)
Lemma X2_generated_id_is_kept :
  let first := getDeviceId Cases.trim "K3X9A0ZQ" None in
  let second := getDeviceId Cases.trim "7FFB21MM" first.2 in
  second.1 = first.1 ∧ second.2 = first.2 ∧ is_Some first.2 ∧
  (@None string = None → first.1 = "TV-" +:+ "K3X9A0ZQ").
Proof.
  apply (X2_getDeviceId_stable Cases.trim "K3X9A0ZQ" "7FFB21MM" None).
  vm_compute. reflexivity.
Defined.

(** ** Which commands [sendKey] can run *)

Lemma json_nested_ind (P : json → Prop) :
  P JNull → (∀ b, P (JBool b)) → (∀ n, P (JNum n)) → (∀ s, P (JStr s)) →
  (∀ items, Forall P items → P (JArr items)) →
  (∀ props, P (JObj props)) →
  ∀ j, P j.
Proof.
  intros Hnull Hbool Hnum Hstr Harr Hobj.
  fix IH 1.
  intros [| b | n | s | items | props];
    [apply Hnull | apply Hbool | apply Hnum | apply Hstr | | apply Hobj].
  apply Harr. induction items as [| x rest IHrest]; constructor;
    [apply IH | exact IHrest].
Qed.

Lemma json_ToString_None (j : json) :
  json_ToString j = None ↔ unprintable j = true.
Proof.
  induction j as [| b | n | s | items IH | props] using json_nested_ind;
    try (simpl; split; discriminate).
  - simpl. induction IH as [| x rest Hx _ IHrest]; [split; discriminate |].
    assert (match x with JNull => Some "" | _ => json_ToString x end = None
            ↔ unprintable x = true) as Hhead.
    { destruct x; try exact Hx. simpl. split; discriminate. }
    destruct (match x with JNull => Some "" | _ => json_ToString x end) as [sx |].
    + assert (unprintable x = false) as ->.
      { destruct (unprintable x); [| done].
        destruct Hhead as [_ Hhead]. by specialize (Hhead eq_refl). }
      destruct rest as [| y rest']; [split; discriminate |].
      rewrite orb_false_l, <- IHrest.
      match goal with |- context [match ?J with Some _ => _ | None => _ end] =>
        destruct J end; split; (done || discriminate).
    + destruct Hhead as [-> _]; [done |]. done.
  - simpl. destruct (own "toString" props); split; (done || discriminate).
Qed.

Lemma ToString_None (v : value) :
  ToString v = None ↔ ∃ j, v = Json j ∧ unprintable j = true.
Proof.
  destruct v as [| j | name |]; simpl;
    try (split; [discriminate | by intros (? & ? & ?)]).
  rewrite json_ToString_None. split; [by eauto | by intros (? & [= <-] & ?)].
Qed.

Lemma sendKey_None (command : value) (s : State) :
  sendKey command s = None ↔ ∃ j, command = Json j ∧ unprintable j = true.
Proof.
  rewrite <- ToString_None. unfold sendKey.
  destruct (ToString command) as [key |] eqn:Hk.
  - destruct (keyCode_runs command key Hk) as (code & line & -> & ->).
    split; discriminate.
  - unfold keyCode, ToPropertyKey. by rewrite Hk.
Qed.

(** X3.  [sendKey] throws exactly on a command that holds, at any depth of
    arrays, an object with an own [toString] property (the conversion to a
    property key fails before anything is looked up).  The message handler
    swallows the exception: such a message only records the arrival, nothing
    is executed and nothing is confirmed. *)
Theorem X3_unprintable_command_is_dropped
    (dev : Device) (now : Z) (data : json) (command : value) (s : State) :
  Get data "command" = Some command →
  (sendKey command s = None ↔ ∃ j, command = Json j ∧ unprintable j = true) ∧
  (sendKey command s = None →
   Backoff.on_message dev now (Parsed data) s = set_lastActivityTime now s).
Proof.
  intros Hc. split; [apply sendKey_None |].
  intros Hthrow. unfold Backoff.on_message. cbv zeta. rewrite Hc.
  repeat case_match; try done.
  all: match goal with H : sendKey _ _ = Some _ |- _ =>
         exfalso; revert H end.
  all: assert (∀ s', sendKey command s' = None) as Hany
         by (intros s'; apply sendKey_None; by apply sendKey_None in Hthrow).
  all: by rewrite Hany.
Qed.

(** X3 at a command for [all] that is an array holding an object with an
    own [toString]. *)
Lemma X3_own_toString_is_dropped :
  let data := JObj [("target", JStr "all");
                    ("command", JArr [JNum 26; JObj [("toString", JNum 1)]])] in
  let command := Json (JArr [JNum 26; JObj [("toString", JNum 1)]]) in
  (sendKey command Sample.opened = None ↔
     ∃ j, command = Json j ∧ unprintable j = true) ∧
  (sendKey command Sample.opened = None →
   Backoff.on_message Sample.dev 2000 (Parsed data) Sample.opened =
     set_lastActivityTime 2000 Sample.opened).
Proof.
  apply (X3_unprintable_command_is_dropped Sample.dev 2000). reflexivity.
Defined.

(** ** Numeric commands *)

Lemma Number_toString_head (n : Z) :
  ∃ c rest, Number_toString n = String c rest ∧ digit_or_minus c = true.
Proof.
  unfold Number_toString. destruct (Z.to_int n) as [d | d]; simpl.
  - destruct d; simpl; by eexists _, _.
  - by eexists _, _.
Qed.

Lemma Number_toString_no_name (n : Z) :
  COMMAND_MAP !! Number_toString n = None ∧
  Object_prototype !! Number_toString n = None.
Proof.
  destruct (Number_toString_head n) as (c & rest & -> & Hc). split.
  - destruct (COMMAND_MAP !! String c rest) as [code |] eqn:H; [| done].
    apply elem_of_list_to_map_2 in H.
    repeat (apply elem_of_cons in H as [H | H];
            [injection H as -> _ _; by vm_compute in Hc |]).
    by apply elem_of_nil in H.
  - destruct (Object_prototype !! String c rest) as [v |] eqn:H; [| done].
    apply elem_of_list_to_map_2 in H.
    repeat (apply elem_of_cons in H as [H | H];
            [injection H as -> _ _; by vm_compute in Hc |]).
    by apply elem_of_nil in H.
Qed.

(** X4.  A numeric command is its own key code.  For every safe integer
    (magnitude at most [2^53 - 1], where the parsed number is exact and
    prints in plain decimal, zero and negative integers included): the
    number prints as no name the table holds or inherits, so [sendKey]
    hands the number itself to the shell.  Larger and fractional numbers
    are outside this statement. *)
Theorem X4_numeric_command_is_its_own_code (n : Z) (s : State) :
  isSafeInteger n = true →
  COMMAND_MAP !! Number_toString n = None ∧
  Object_prototype !! Number_toString n = None ∧
  keyCode (Json (JNum n)) = Some (Json (JNum n)) ∧
  sendKey (Json (JNum n)) s =
    Some (emit (EExec ("adb shell input keyevent " +:+ Number_toString n)) s).
Proof.
  intros _.
  destruct (Number_toString_no_name n) as [Hm Hp].
  assert (keyCode (Json (JNum n)) = Some (Json (JNum n))) as Hk
    by by apply (keyCode_raw _ (Number_toString n)).
  split; [done |]. split; [done |]. split; [done |].
  unfold sendKey. by rewrite Hk.
Qed.

(** X4 at the key code of the power button, sent as a number. *)
Lemma X4_power_sent_as_a_number :
  COMMAND_MAP !! Number_toString 26 = None ∧
  Object_prototype !! Number_toString 26 = None ∧
  keyCode (Json (JNum 26)) = Some (Json (JNum 26)) ∧
  sendKey (Json (JNum 26)) Sample.opened =
    Some (emit (EExec ("adb shell input keyevent " +:+ Number_toString 26))
            Sample.opened).
Proof.
  apply (X4_numeric_command_is_its_own_code 26 Sample.opened).
  vm_compute. reflexivity.
Defined.

(** ** The activity clock ([src/unnamed/part_000]) *)

Lemma lastActivityTime_connect ok (s : State) :
  lastActivityTime (Backoff.connect ok s) = lastActivityTime s.
Proof. unfold Backoff.connect, ws_removeAllListeners. cbv zeta. frame_cases. Qed.

#[local] Hint Rewrite lastActivityTime_connect : frame.

Lemma lastActivityTime_on_message dev now msg (s : State) :
  lastActivityTime (Backoff.on_message dev now msg s) = now.
Proof. by destruct (on_message_shape dev now msg s) as (l & -> & _). Qed.

(** X5.  [lastActivityTime] moves only in the listeners for [open],
    [message], [ping] and [pong] and after a ping was sent, and then to the
    clock reading of that event; a close, an error, a ping that could not be
    sent, the health check, a reconnect, a registration response and a
    signal leave it alone. *)
Theorem X5_activity_clock (dev : Device) (e : Event) (s : State) :
  lastActivityTime (Backoff.step dev e s) = lastActivityTime s ∨
  activity e = Some (lastActivityTime (Backoff.step dev e s)).
Proof.
  unfold Backoff.step. destruct (exited s); [by left |].
  destruct e as [now | now msg | | | now | now | | now ip sendOk | now | ctorOk | ok |].
  - destruct (listening_socket s) as [[[] ?] |]; try by left.
    right. unfold activity.
    match goal with |- context [Backoff.on_open dev now ?X] =>
      by destruct (on_open_control dev now X) as (_ & _ & _ & _ & ->) end.
  - destruct (listening_socket s) as [[[] ?] |]; try by left.
    all: right; unfold activity; by rewrite lastActivityTime_on_message.
  - destruct (listening_socket s) as [[[] ?] |]; try by left.
    all: left; unfold Backoff.on_close; by autorewrite with frame.
  - left. by destruct (listening_socket s).
  - destruct (listening_socket s) as [[[] ?] |]; by (left + right).
  - destruct (listening_socket s) as [[[] ?] |]; by (left + right).
  - left. by destruct (ws s) as [[[] ?] |].
  - destruct (outstanding PingTimer s); [by left |].
    unfold Backoff.on_ping_timer. destruct (is_open (ws s)), sendOk;
      try (left; by autorewrite with frame). by right.
  - destruct (outstanding HealthTimer s); [by left |].
    left. unfold Backoff.on_health_timer. cbv zeta.
    case_match; [| done]. autorewrite with frame. by destruct (ws s).
  - destruct (expire ReconnectTimer s) as [s' |] eqn:Hx; [| by left].
    left. unfold Backoff.on_reconnect_timer. autorewrite with frame. simpl.
    unfold expire in Hx. destruct (outstanding ReconnectTimer s); [done |].
    by injection Hx as <-.
  - left. destruct (pendingPosts s); [done |].
    unfold registerToServer_resume. by destruct ok.
  - left. by autorewrite with frame.
Qed.

(** ** The lock file and the exit status ([src/unnamed/part_000]) *)

Lemma lockFile_process_exit code (s : State) : lockFile (process_exit code s) = false.
Proof. change (lockFile (cleanup s) = false). apply lockFile_cleanup. Qed.

Lemma lockFile_scheduleReconnect_schedules (s : State) :
  isReconnecting s = false →
  reconnectAttempts s < Backoff.MAX_RECONNECT_ATTEMPTS →
  lockFile (Backoff.scheduleReconnect s) = lockFile s.
Proof.
  intros Hr Hlt. unfold Backoff.scheduleReconnect. rewrite Hr.
  destruct (Z.leb_spec Backoff.MAX_RECONNECT_ATTEMPTS (reconnectAttempts s)); [lia |].
  cbv zeta. by autorewrite with frame.
Qed.

(** A call of [scheduleReconnect] keeps the process and its lock file, or
    ends the process with status 1 at the bound. *)
Lemma scheduleReconnect_lifecycle (s : State) :
  exited s = None →
  let s' := Backoff.scheduleReconnect s in
  exited s' = None ∧ lockFile s' = lockFile s ∨
  exited s' = Some 1 ∧ lockFile s' = false ∧
    Backoff.MAX_RECONNECT_ATTEMPTS ≤ reconnectAttempts s ∧
    reconnectAttempts s' = reconnectAttempts s.
Proof.
  intros Hx s'. unfold s'. destruct (isReconnecting s) eqn:Hr.
  - rewrite scheduleReconnect_pending by done. by left.
  - destruct (Z.lt_ge_cases (reconnectAttempts s) Backoff.MAX_RECONNECT_ATTEMPTS)
      as [Hlt | Hge].
    + left. split; [| by apply lockFile_scheduleReconnect_schedules].
      destruct (scheduleReconnect_schedules s Hr Hlt) as (_ & _ & _ & _ & _ & -> & _).
      done.
    + right. rewrite scheduleReconnect_exits by done.
      split; [done |]. split; [apply lockFile_process_exit |].
      split; [done |]. by autorewrite with frame.
Qed.

Lemma connect_lifecycle ok (s : State) :
  exited s = None →
  let s' := Backoff.connect ok s in
  exited s' = None ∧ lockFile s' = lockFile s ∨
  ok = false ∧ exited s' = Some 1 ∧ lockFile s' = false ∧
    Backoff.MAX_RECONNECT_ATTEMPTS ≤ reconnectAttempts s ∧
    reconnectAttempts s' = reconnectAttempts s.
Proof.
  intros Hx. unfold Backoff.connect. cbv zeta.
  match goal with |- context [Backoff.scheduleReconnect ?Y] =>
    assert (exited Y = None ∧ lockFile Y = lockFile s ∧
            reconnectAttempts Y = reconnectAttempts s) as (Ye & Yl & Ya);
      [| generalize dependent Y; intros s0 Ye Yl Ya]
  end.
  { unfold ws_removeAllListeners. by repeat (simpl; case_match). }
  destruct ok.
  - left. by simpl.
  - destruct (scheduleReconnect_lifecycle s0 Ye) as [[? ?] | (? & ? & ? & ?)].
    + left. split; [done | congruence].
    + right. split_and!; try done; [lia | congruence].
Qed.

(** What one turn of the event loop does to the process and its lock. *)
Lemma step_lifecycle (dev : Device) (e : Event) (s : State) :
  exited s = None →
  let s' := Backoff.step dev e s in
  exited s' = None ∧ lockFile s' = lockFile s ∨
  e = Signal ∧ exited s' = Some 0 ∧ lockFile s' = false ∨
  calls_scheduleReconnect e = true ∧
    exited s' = Some 1 ∧ lockFile s' = false ∧
    Backoff.MAX_RECONNECT_ATTEMPTS ≤ reconnectAttempts s ∧
    reconnectAttempts s' = reconnectAttempts s.
Proof.
  intros Hx. unfold Backoff.step. rewrite Hx.
  destruct e as [now | now msg | | | now | now | | now ip sendOk | now | ctorOk | ok |].
  - left. destruct (listening_socket s) as [[[] ?] |]; try done.
    match goal with |- context [Backoff.on_open dev now ?X] =>
      destruct (on_open_control dev now X) as (_ & _ & _ & -> & _) end.
    split; [done |]. unfold Backoff.on_open. cbv zeta. by autorewrite with frame.
  - left. destruct (listening_socket s) as [[[] ?] |]; try done.
    all: by destruct (on_message_shape dev now msg s) as (l & -> & _).
  - destruct (listening_socket s) as [[[] ?] |]; try by left.
    all: match goal with |- context [Backoff.on_close ?X] =>
           destruct (scheduleReconnect_lifecycle X Hx) as [? | (? & ? & ? & ?)] end;
         [by left | right; right; by split_and!].
  - left. by destruct (listening_socket s).
  - left. by destruct (listening_socket s) as [[[] ?] |].
  - left. by destruct (listening_socket s) as [[[] ?] |].
  - left. by destruct (ws s) as [[[] ?] |].
  - destruct (outstanding PingTimer s); [by left |].
    unfold Backoff.on_ping_timer. destruct (is_open (ws s)), sendOk; try by left.
    all: destruct (scheduleReconnect_lifecycle s Hx) as [? | (? & ? & ? & ?)];
         [by left | right; right; by split_and!].
  - destruct (outstanding HealthTimer s); [by left |].
    unfold Backoff.on_health_timer. cbv zeta. case_match; [| by left].
    match goal with |- context [Backoff.scheduleReconnect ?Y] =>
      assert (exited Y = None ∧ lockFile Y = lockFile s ∧
              reconnectAttempts Y = reconnectAttempts s) as (Ye & Yl & Ya)
        by (by destruct (ws s));
      destruct (scheduleReconnect_lifecycle Y Ye) as [[? ?] | (? & ? & ? & ?)]
    end.
    + left. split; [done | congruence].
    + right. right. split_and!; try done; [lia | congruence].
  - destruct (expire ReconnectTimer s) as [s' |] eqn:Hexp; [| by left].
    unfold expire in Hexp. destruct (outstanding ReconnectTimer s); [done |].
    injection Hexp as <-. unfold Backoff.on_reconnect_timer.
    match goal with |- context [Backoff.connect ctorOk ?Y] =>
      destruct (connect_lifecycle ctorOk Y Hx) as [? | (-> & ? & ? & ? & ?)] end.
    + by left.
    + right. right. by split_and!.
  - left. destruct (pendingPosts s); [done |].
    unfold registerToServer_resume. by destruct ok.
  - right. left. split; [done |]. split; [done | apply lockFile_process_exit].
Qed.

Lemma lifecycle_run (dev : Device) (evs : list Event) (s : State) :
  control_wf s → lifecycle s → lifecycle (Backoff.run dev evs s).
Proof.
  revert s. induction evs as [| e evs IH]; [done |].
  intros s C L. simpl. apply IH; [by apply control_wf_step |].
  destruct (exited s) as [c |] eqn:Hx.
  { by rewrite step_exited by by eexists. }
  assert (control_wf (Backoff.step dev e s)) as [C1 _] by by apply control_wf_step.
  destruct C as [C0 _].
  destruct (step_lifecycle dev e s Hx) as [[He Hl] | [(_ & He & Hl) | (_ & He & Hl & Hge & Ha)]];
    unfold lifecycle in *; rewrite He; rewrite ?Hx in L.
  - congruence.
  - split; [done | by left].
  - split; [done |]. right. split; [done |].
    lia.
Qed.

Lemma lifecycle_boot (t0 : Z) (ctorOk : bool) :
  lifecycle (Backoff.boot t0 ctorOk).
Proof. destruct ctorOk; vm_compute; done. Qed.

(** X6.  In every reachable state the lock file exists exactly while the
    process runs: it is written before the first connection, no handler
    removes it, and every way out of the process ([SIGINT], [SIGTERM], the
    bound on reconnect attempts) goes through [cleanup], which removes
    it. *)
Theorem X6_lock_file_held_while_running
    (dev : Device) (t0 : Z) (ctorOk : bool) (evs : list Event) :
  let s := Backoff.run dev evs (Backoff.boot t0 ctorOk) in
  lockFile s = true ↔ exited s = None.
Proof.
  intros s.
  assert (lifecycle s) as L
    by (apply lifecycle_run; [apply control_wf_boot | apply lifecycle_boot]).
  unfold lifecycle in L. destruct (exited s) as [c |].
  - destruct L as [-> _]. split; discriminate.
  - done.
Qed.

(** X7.  The process ends in two ways only.  A signal ends it with status
    0.  Otherwise it ends with status 1, and only from a handler that calls
    [scheduleReconnect] (a close, the ping or health-check callback, a
    reconnect whose transport cannot be constructed) at the moment the
    counter stands at the maximum of 100.  No listener for [open],
    [message], [error], [ping] or [pong], no registration response and no
    successful construction ends it. *)
Theorem X7_ways_out
    (dev : Device) (t0 : Z) (ctorOk : bool) (evs : list Event) (e : Event)
    (code : Z) :
  let s := Backoff.run dev evs (Backoff.boot t0 ctorOk) in
  exited s = None →
  exited (Backoff.step dev e s) = Some code →
  e = Signal ∧ code = 0 ∨
  calls_scheduleReconnect e = true ∧ code = 1 ∧
    reconnectAttempts s = Backoff.MAX_RECONNECT_ATTEMPTS.
Proof.
  intros s Hx Hc.
  assert (control_wf s) as [C _] by apply control_wf_run, control_wf_boot.
  destruct (step_lifecycle dev e s Hx)
    as [[He _] | [(-> & He & _) | (Hk & He & _ & Hge & _)]];
    rewrite He in Hc.
  - done.
  - left. split; [done | congruence].
  - right. split; [done |]. split; [congruence | lia].
Qed.

(** X7 at the close that follows one hundred refused connections. *)
Lemma X7_close_after_hundred_refusals :
  WsClose = Signal ∧ 1 = 0 ∨
  calls_scheduleReconnect WsClose = true ∧ 1 = 1 ∧
    reconnectAttempts (Backoff.run Sample.dev Sample.refusals (Backoff.boot 0 true)) =
      Backoff.MAX_RECONNECT_ATTEMPTS.
Proof.
  apply (X7_ways_out Sample.dev 0 true Sample.refusals WsClose 1);
    vm_compute; reflexivity.
Defined.

(** ** What each statement adds to the history *)

Lemma extends_refl (P : Effect → Prop) (l : list Effect) : extends P l l.
Proof. exists []. by split. Qed.

Lemma extends_cons (P : Effect → Prop) (e : Effect) (older newer : list Effect) :
  P e → extends P older newer → extends P older (e :: newer).
Proof. intros He (recent & -> & Hr). exists (e :: recent). split; [done | by constructor]. Qed.

Lemma extends_trans (P : Effect → Prop) (l1 l2 l3 : list Effect) :
  extends P l1 l2 → extends P l2 l3 → extends P l1 l3.
Proof.
  intros (r1 & -> & H1) (r2 & -> & H2). exists (r2 ++ r1)%list.
  split; [by rewrite app_assoc | by apply Forall_app_2].
Qed.

Lemma extends_mono (P Q : Effect → Prop) (older newer : list Effect) :
  (∀ e, P e → Q e) → extends P older newer → extends Q older newer.
Proof.
  intros HPQ (recent & -> & Hr). exists recent. split; [done |].
  eapply Forall_impl; [exact Hr | exact HPQ].
Qed.

Lemma extends_Forall (P : Effect → Prop) (older newer : list Effect) :
  extends P older newer → Forall P older → Forall P newer.
Proof. intros (recent & -> & Hr) Ho. by apply Forall_app_2. Qed.

Lemma cancel_extends (P : Effect → Prop) (k : TimerKind) (s : State) :
  (∀ h, P (EClearTimer h)) → extends P (log s) (log (cancel k s)).
Proof.
  intros HP. unfold cancel. destruct (var_of k s) as [h |].
  - apply extends_cons; [done | apply extends_refl].
  - apply extends_refl.
Qed.

Lemma cancel_and_forget_extends (P : Effect → Prop) (k : TimerKind) (s : State) :
  (∀ h, P (EClearTimer h)) → extends P (log s) (log (cancel_and_forget k s)).
Proof.
  intros HP. unfold cancel_and_forget. destruct (var_of k s) as [h |].
  - destruct k; (apply extends_cons; [done | apply extends_refl]).
  - apply extends_refl.
Qed.

Lemma arm_extends (P : Effect → Prop) (k : TimerKind) (d : Z) (s : State) :
  P (ESetTimer k (nextHandle s) d) → extends P (log s) (log (arm k d s)).
Proof.
  intros HP. destruct (arm_fields k d s) as (_ & -> & _).
  apply extends_cons; [done | apply extends_refl].
Qed.

Lemma registerToServer_extends (P : Effect → Prop) dev c (s : State) :
  P (EPost {| reg_tv_id := tvId dev; reg_model := deviceModel dev;
              reg_ip := localIp dev; reg_modeltv := modelTv dev;
              reg_cabangid := c |}) →
  extends P (log s) (log (registerToServer dev c s)).
Proof.
  intros HP. unfold registerToServer. destruct (isRegistered s).
  - apply extends_refl.
  - apply extends_cons; [done | apply extends_refl].
Qed.

Lemma cleanup_extends (P : Effect → Prop) (s : State) :
  (∀ e, teardown e → P e) → extends P (log s) (log (cleanup s)).
Proof.
  intros HP.
  assert (extends P (log s) (log (cancel ReconnectTimer (cancel PingTimer s)))) as Hc.
  { eapply extends_trans; apply cancel_extends; intros h; by apply HP. }
  unfold cleanup. cbv zeta.
  generalize dependent (cancel ReconnectTimer (cancel PingTimer s)). intros s1 Hc.
  unfold ws_close, ws_removeAllListeners.
  destruct (ws s1) as [sock |]; [destruct (open_or_connecting sock) |];
    simpl; destruct (lockFile s1); simpl;
    repeat (apply extends_cons; [by apply HP |]); exact Hc.
Qed.

Lemma process_exit_extends (P : Effect → Prop) (code : Z) (s : State) :
  (∀ e, teardown e → P e) → P (EExit code) →
  extends P (log s) (log (process_exit code s)).
Proof.
  intros HP Hx. change (log (process_exit code s)) with (EExit code :: log (cleanup s)).
  apply extends_cons; [done | by apply cleanup_extends].
Qed.

Lemma nextHandle_cancel_chain (s : State) :
  nextHandle (cancel ReconnectTimer (cancel_and_forget HealthTimer
               (cancel_and_forget PingTimer s))) = nextHandle s.
Proof. by autorewrite with frame. Qed.

(** A call that schedules cancels, then arms the reconnect timer. *)
Lemma scheduleReconnect_schedules_log (s : State) :
  isReconnecting s = false →
  reconnectAttempts s < Backoff.MAX_RECONNECT_ATTEMPTS →
  ∃ older,
    log (Backoff.scheduleReconnect s) =
      ESetTimer ReconnectTimer (nextHandle s) (Backoff.delay (reconnectAttempts s + 1))
      :: older ∧
    extends (λ e, ∃ h, e = EClearTimer h) (log s) older.
Proof.
  intros Hr Hlt. unfold Backoff.scheduleReconnect. rewrite Hr.
  destruct (Z.leb_spec Backoff.MAX_RECONNECT_ATTEMPTS (reconnectAttempts s)); [lia |].
  cbv zeta. set (s1 := set_reconnectAttempts _ _).
  destruct (arm_fields ReconnectTimer (Backoff.delay (reconnectAttempts s1))
              (cancel ReconnectTimer (cancel_and_forget HealthTimer
                 (cancel_and_forget PingTimer s1)))) as (_ & -> & _).
  rewrite nextHandle_cancel_chain. eexists. split; [reflexivity |].
  change (log s) with (log s1).
  eapply extends_trans; [| apply cancel_extends; by eauto].
  eapply extends_trans; apply cancel_and_forget_extends; by eauto.
Qed.

Lemma scheduleReconnect_extends (P : Effect → Prop) (s : State) :
  (∀ e, teardown e → P e) →
  P (EExit 1) →
  (isReconnecting s = false →
   reconnectAttempts s < Backoff.MAX_RECONNECT_ATTEMPTS →
   P (ESetTimer ReconnectTimer (nextHandle s)
        (Backoff.delay (reconnectAttempts s + 1)))) →
  extends P (log s) (log (Backoff.scheduleReconnect s)).
Proof.
  intros HP Hx Hset. destruct (isReconnecting s) eqn:Hr.
  - rewrite scheduleReconnect_pending by done. apply extends_refl.
  - destruct (Z.lt_ge_cases (reconnectAttempts s) Backoff.MAX_RECONNECT_ATTEMPTS)
      as [Hlt | Hge].
    + destruct (scheduleReconnect_schedules_log s Hr Hlt) as (older & -> & Ho).
      apply extends_cons; [by apply Hset |].
      eapply extends_mono; [| exact Ho]. intros e [h ->]. by apply HP.
    + rewrite scheduleReconnect_exits by done.
      eapply extends_trans; [by apply cleanup_extends |].
      by apply process_exit_extends.
Qed.

(** What [connect] does before it constructs the transport. *)
Lemma connect_cases (ok : bool) (s : State) :
  ∃ s0,
    Backoff.connect ok s =
      (if ok
       then emit ENewSocket
              (set_ws (Some {| readyState := CONNECTING; listening := true |}) s0)
       else Backoff.scheduleReconnect s0) ∧
    ws s0 = None ∧
    timers s0 = timers s ∧ nextHandle s0 = nextHandle s ∧
    (∀ k, var_of k s0 = var_of k s) ∧
    isReconnecting s0 = isReconnecting s ∧
    reconnectAttempts s0 = reconnectAttempts s ∧
    exited s0 = exited s ∧ lockFile s0 = lockFile s ∧
    match ws s with
    | None => log s0 = log s
    | Some sock =>
        log s0 = ((if open_or_connecting sock then [EClose] else []) ++
                  ERemoveAllListeners :: log s)%list
    end ∧
    (timers_wf s → timers_wf s0).
Proof.
  unfold Backoff.connect. cbv zeta. eexists. split; [reflexivity |].
  unfold ws_removeAllListeners.
  destruct (ws s) as [sock |] eqn:Hw; [destruct (open_or_connecting sock) |];
    simpl; split_and!; try done; try (by intros []); intros W; timers_frame.
Qed.

(** ** The footprint of the agent ([src/unnamed/part_000]) *)

Lemma delay_bounds (attempts : Z) :
  0 ≤ attempts →
  Backoff.RECONNECT_DELAY_MIN ≤ Backoff.delay (attempts + 1) ≤ Backoff.RECONNECT_DELAY_MAX.
Proof.
  intros Ha. unfold Backoff.delay, Backoff.RECONNECT_DELAY_MIN, Backoff.RECONNECT_DELAY_MAX.
  replace (attempts + 1 - 1) with attempts by lia.
  pose proof (Z.pow_pos_nonneg 2 attempts ltac:(lia) Ha). lia.
Qed.

Lemma teardown_permitted (dev : Device) (e : Effect) : teardown e → permitted dev e.
Proof. destruct e; simpl; try done. by left. Qed.

(** The message handler records the arrival and stops there, or resolves
    the command, hands the key event to the shell and confirms it when the
    transport is open. *)
Lemma on_message_cases (dev : Device) now msg (s : State) :
  Backoff.on_message dev now msg s = set_lastActivityTime now s ∨
  ∃ command code line,
    keyCode command = Some code ∧ adb_keyevent code = Some line ∧
    Backoff.on_message dev now msg s =
      if is_open (ws s)
      then emit (ESend (Confirm (tvId dev) command "ok" now))
             (emit (EExec line) (set_lastActivityTime now s))
      else emit (EExec line) (set_lastActivityTime now s).
Proof.
  unfold Backoff.on_message. cbv zeta.
  destruct msg as [| data]; [by left |].
  destruct (Get data "type") as [type |]; [| by left].
  destruct (is_string type "welcome"); [by left |].
  destruct (is_string type "pong"); [by left |].
  destruct (Get data "target") as [target |]; [| by left].
  destruct (is_string target (tvId dev) || is_string target "all"); [| by left].
  destruct (Get data "command") as [command |]; [| by left].
  unfold sendKey.
  destruct (keyCode command) as [code |] eqn:Hcode; [| by left].
  destruct (adb_keyevent code) as [line |] eqn:Hline; [| by left].
  right. exists command, code, line. split; [done |]. split; [done |]. reflexivity.
Qed.

Lemma adb_keyevent_line (code : value) (line : string) :
  adb_keyevent code = Some line →
  ∃ c, line = "adb shell input keyevent " +:+ c.
Proof.
  unfold adb_keyevent. destruct (ToString code) as [c |]; [| done].
  intros [= <-]. by eexists.
Qed.

Section Footprint.
Context (dev : Device).

Lemma on_message_permitted now msg (s : State) :
  extends (permitted dev) (log s) (log (Backoff.on_message dev now msg s)).
Proof.
  destruct (on_message_cases dev now msg s) as [-> | (command & code & line & _ & Hline & ->)].
  - apply extends_refl.
  - apply adb_keyevent_line in Hline as [c ->].
    destruct (is_open (ws s)); simpl;
      repeat (apply extends_cons; [simpl; by eauto |]); apply extends_refl.
Qed.

Lemma scheduleReconnect_permitted (s : State) :
  0 ≤ reconnectAttempts s →
  extends (permitted dev) (log s) (log (Backoff.scheduleReconnect s)).
Proof.
  intros Ha. apply scheduleReconnect_extends.
  - apply teardown_permitted.
  - by right.
  - intros _ _. by apply delay_bounds.
Qed.

Lemma on_open_permitted now (s : State) :
  extends (permitted dev) (log s) (log (Backoff.on_open dev now s)).
Proof.
  unfold Backoff.on_open. cbv zeta.
  eapply extends_trans; [| by apply arm_extends].
  eapply extends_trans; [| by apply arm_extends].
  eapply extends_trans; [| by apply cancel_and_forget_extends].
  eapply extends_trans; [| by apply cancel_and_forget_extends].
  eapply extends_trans; [| by apply registerToServer_extends].
  simpl. apply extends_cons; [done | apply extends_refl].
Qed.

Lemma connect_permitted ok (s : State) :
  0 ≤ reconnectAttempts s →
  extends (permitted dev) (log s) (log (Backoff.connect ok s)).
Proof.
  intros Ha.
  destruct (connect_cases ok s) as (s0 & -> & _ & _ & _ & _ & _ & Ha0 & _ & _ & Hlog & _).
  assert (extends (permitted dev) (log s) (log s0)) as H0.
  { destruct (ws s) as [sock |]; rewrite Hlog; [| apply extends_refl].
    destruct (open_or_connecting sock); simpl;
      repeat (apply extends_cons; [done |]); apply extends_refl. }
  destruct ok.
  - simpl. by apply extends_cons.
  - eapply extends_trans; [exact H0 |]. apply scheduleReconnect_permitted. by rewrite Ha0.
Qed.

Lemma step_permitted (e : Event) (s : State) :
  0 ≤ reconnectAttempts s →
  extends (permitted dev) (log s) (log (Backoff.step dev e s)).
Proof.
  intros Ha. unfold Backoff.step. destruct (exited s); [apply extends_refl |].
  destruct e as [now | now msg | | | now | now | | now ip sendOk | now | ctorOk | ok |].
  - destruct (listening_socket s) as [[[] ?] |]; try apply extends_refl.
    apply (on_open_permitted now (set_readyState OPEN _ s)).
  - destruct (listening_socket s) as [[[] ?] |]; try apply extends_refl;
      apply on_message_permitted.
  - destruct (listening_socket s) as [[[] ?] |]; try apply extends_refl.
    all: match goal with |- context [Backoff.on_close ?X] =>
           by apply (scheduleReconnect_permitted X) end.
  - destruct (listening_socket s); apply extends_refl.
  - destruct (listening_socket s) as [[[] ?] |]; try apply extends_refl.
    all: simpl; apply extends_cons; [done | apply extends_refl].
  - destruct (listening_socket s) as [[[] ?] |]; apply extends_refl.
  - destruct (ws s) as [[[] ?] |]; apply extends_refl.
  - destruct (outstanding PingTimer s); [apply extends_refl |].
    unfold Backoff.on_ping_timer. destruct (is_open (ws s)), sendOk;
      try by apply scheduleReconnect_permitted.
    simpl. apply extends_cons; [done | apply extends_refl].
  - destruct (outstanding HealthTimer s); [apply extends_refl |].
    unfold Backoff.on_health_timer. cbv zeta. case_match; [| apply extends_refl].
    destruct (ws s) as [sock |]; [| by apply scheduleReconnect_permitted].
    eapply extends_trans;
      [| by apply (scheduleReconnect_permitted (ws_terminate sock s))].
    simpl. apply extends_cons; [done | apply extends_refl].
  - destruct (expire ReconnectTimer s) as [s' |] eqn:Hexp; [| apply extends_refl].
    unfold expire in Hexp. destruct (outstanding ReconnectTimer s) as [| t ?]; [done |].
    injection Hexp as <-. unfold Backoff.on_reconnect_timer.
    eapply extends_trans; [| by apply connect_permitted].
    simpl. apply extends_cons; [done | apply extends_refl].
  - destruct (pendingPosts s); [apply extends_refl |].
    unfold registerToServer_resume. destruct ok; apply extends_refl.
  - eapply extends_trans; [apply cleanup_extends, teardown_permitted |].
    apply process_exit_extends; [apply teardown_permitted | by left].
Qed.

Lemma run_permitted (evs : list Event) (s : State) :
  control_wf s → Forall (permitted dev) (log s) →
  Forall (permitted dev) (log (Backoff.run dev evs s)).
Proof.
  revert s. induction evs as [| e evs IH]; [done |].
  intros s C F. simpl. apply IH; [by apply control_wf_step |].
  eapply extends_Forall; [apply step_permitted | done].
  by destruct C as [[? _] _].
Qed.

End Footprint.

(** X8.  From the first [connect()] on, everything the agent does to the
    outside world stays within its footprint: every frame and registration
    request carries this device's data, a confirmation always has status
    [ok], the only shell lines are key events and the release of the wake
    lock, the ping and health-check intervals are armed with 60 and 120
    seconds, every reconnect waits between 5 and 300 seconds, and the exit
    status is 0 or 1. *)
Theorem X8_footprint
    (dev : Device) (t0 : Z) (ctorOk : bool) (evs : list Event) :
  Forall (permitted dev) (log (Backoff.run dev evs (Backoff.boot t0 ctorOk))).
Proof.
  apply run_permitted; [apply control_wf_boot |].
  eapply extends_Forall; [apply (connect_permitted dev ctorOk (init t0)) | constructor].
  done.
Qed.

(** ** One turn of the event loop, handler by handler *)

(** To relate a state to its successor it is enough to do so for each
    handler, under the condition that lets the handler run. *)
Lemma step_cases (dev : Device) (R : Event → State → State → Prop) :
  (∀ e s, R e s s) →
  (∀ s now sock, exited s = None → ws s = Some sock →
     readyState sock = CONNECTING → listening sock = true →
     R (WsOpen now) s (Backoff.on_open dev now (set_readyState OPEN sock s))) →
  (∀ s now msg, exited s = None → accepts_frames s = true →
     R (WsMessage now msg) s (Backoff.on_message dev now msg s)) →
  (∀ s sock, exited s = None → ws s = Some sock →
     readyState sock ≠ CLOSED → listening sock = true →
     R WsClose s (Backoff.on_close (set_readyState CLOSED sock s))) →
  (∀ s now, exited s = None → accepts_frames s = true →
     R (WsPing now) s (Backoff.on_ping now s)) →
  (∀ s now, exited s = None → accepts_frames s = true →
     R (WsPong now) s (Backoff.on_pong now s)) →
  (∀ s sock, exited s = None → ws s = Some sock → readyState sock = OPEN →
     R WsClosing s (set_readyState CLOSING sock s)) →
  (∀ s now ip sendOk, exited s = None → outstanding PingTimer s ≠ [] →
     R (PingTick now ip sendOk) s (Backoff.on_ping_timer dev now ip sendOk s)) →
  (∀ s now, exited s = None → outstanding HealthTimer s ≠ [] →
     R (HealthTick now) s (Backoff.on_health_timer now s)) →
  (∀ s s' ctorOk, exited s = None → expire ReconnectTimer s = Some s' →
     R (ReconnectFire ctorOk) s (Backoff.on_reconnect_timer ctorOk s')) →
  (∀ s ok, exited s = None → pendingPosts s ≠ O →
     R (HttpResponse ok) s (registerToServer_resume ok s)) →
  (∀ s, exited s = None → R Signal s (process_exit 0 (cleanup s))) →
  ∀ e s, R e s (Backoff.step dev e s).
Proof.
  intros Hrefl Hopen Hmsg Hclose Hping Hpong Hclosing Hpt Hht Hrt Hhttp Hsig e s.
  unfold Backoff.step. destruct (exited s) eqn:Hx; [apply Hrefl |].
  assert (∀ sock, listening_socket s = Some sock →
            ws s = Some sock ∧ listening sock = true) as Hls.
  { unfold listening_socket. intros sock. destruct (ws s) as [[r []] |]; try done.
    intros [= <-]. done. }
  assert (∀ r l, listening_socket s = Some {| readyState := r; listening := l |} →
            (r = OPEN ∨ r = CLOSING) → accepts_frames s = true) as Hacc.
  { intros r l Hl Hr. unfold accepts_frames. rewrite Hx, Hl. by destruct Hr as [-> | ->]. }
  destruct e as [now | now msg | | | now | now | | now ip sendOk | now | ctorOk | ok |].
  - destruct (listening_socket s) as [[[] l] |] eqn:Hl; try apply Hrefl.
    destruct (Hls _ eq_refl). by apply Hopen.
  - destruct (listening_socket s) as [[[] l] |] eqn:Hl; try apply Hrefl;
      apply Hmsg; try done; apply (Hacc _ _ eq_refl); by eauto.
  - destruct (listening_socket s) as [[[] l] |] eqn:Hl; try apply Hrefl;
      destruct (Hls _ eq_refl); by apply Hclose.
  - destruct (listening_socket s); apply Hrefl.
  - destruct (listening_socket s) as [[[] l] |] eqn:Hl; try apply Hrefl;
      apply Hping; try done; apply (Hacc _ _ eq_refl); by eauto.
  - destruct (listening_socket s) as [[[] l] |] eqn:Hl; try apply Hrefl;
      apply Hpong; try done; apply (Hacc _ _ eq_refl); by eauto.
  - destruct (ws s) as [[[] l] |] eqn:Hw; try apply Hrefl. by eapply Hclosing.
  - destruct (outstanding PingTimer s) eqn:Ho; [apply Hrefl |].
    apply Hpt; [done |]. by rewrite Ho.
  - destruct (outstanding HealthTimer s) eqn:Ho; [apply Hrefl |].
    apply Hht; [done |]. by rewrite Ho.
  - destruct (expire ReconnectTimer s) eqn:He; [| apply Hrefl]. by eapply Hrt.
  - destruct (pendingPosts s) eqn:Hp; [apply Hrefl |]. apply Hhttp; [done |].
    by rewrite Hp.
  - by apply Hsig.
Qed.

(** ** The backoff over a whole history ([src/unnamed/part_000]) *)

Lemma streak_extends (older newer : list Effect) :
  extends streak_neutral older newer →
  streak newer = streak older ∧ (backed_off older → backed_off newer).
Proof.
  intros (recent & -> & Hr). induction Hr as [| e recent He _ [IH1 IH2]]; [done |].
  destruct e as [| [] | | | | | | | [] | | | |]; simpl in *; try done; auto.
Qed.

Lemma teardown_streak_neutral (e : Effect) : teardown e → streak_neutral e.
Proof. by destruct e. Qed.

Lemma backoff_wf_frame (s s' : State) :
  extends streak_neutral (log s) (log s') →
  reconnectAttempts s' = reconnectAttempts s →
  backoff_wf s → backoff_wf s'.
Proof.
  intros He Ha [B1 B2]. destruct (streak_extends _ _ He) as [E1 E2].
  split; [congruence | auto].
Qed.

Lemma backoff_wf_scheduleReconnect (s : State) :
  backoff_wf s → backoff_wf (Backoff.scheduleReconnect s).
Proof.
  intros B. destruct (isReconnecting s) eqn:Hr.
  - by rewrite scheduleReconnect_pending.
  - destruct (Z.lt_ge_cases (reconnectAttempts s) Backoff.MAX_RECONNECT_ATTEMPTS)
      as [Hlt | Hge].
    + destruct (scheduleReconnect_schedules_log s Hr Hlt) as (older & Hlog & Ho).
      destruct (scheduleReconnect_schedules s Hr Hlt) as (_ & Ha & _).
      destruct B as [B1 B2].
      destruct (streak_extends (log s) older) as [E1 E2].
      { eapply extends_mono; [| exact Ho]. by intros e [h ->]. }
      split; rewrite Hlog; simpl.
      * rewrite Ha. congruence.
      * split; [congruence | auto].
    + rewrite scheduleReconnect_exits by done.
      eapply backoff_wf_frame; [| | exact B].
      * eapply extends_trans; [apply cleanup_extends, teardown_streak_neutral |].
        apply process_exit_extends; [apply teardown_streak_neutral | done].
      * by autorewrite with frame.
Qed.

Lemma backoff_wf_connect ok (s : State) :
  backoff_wf s → backoff_wf (Backoff.connect ok s).
Proof.
  intros B.
  destruct (connect_cases ok s) as (s0 & -> & _ & _ & _ & _ & _ & Ha0 & _ & _ & Hlog & _).
  assert (backoff_wf s0) as B0.
  { eapply backoff_wf_frame; [| exact Ha0 | exact B].
    destruct (ws s) as [sock |]; rewrite Hlog; [| apply extends_refl].
    destruct (open_or_connecting sock); simpl;
      repeat (apply extends_cons; [done |]); apply extends_refl. }
  destruct ok; [| by apply backoff_wf_scheduleReconnect].
  eapply backoff_wf_frame; [| | exact B0]; [| done].
  simpl. apply extends_cons; [done | apply extends_refl].
Qed.

Section BackoffHistory.
Context (dev : Device).

Lemma backoff_wf_on_open now (s : State) :
  backed_off (log s) → backoff_wf (Backoff.on_open dev now s).
Proof.
  intros B. unfold Backoff.on_open. cbv zeta.
  match goal with |- context [registerToServer dev Backoff.cabangId ?Y] =>
    assert (backoff_wf Y) as BY by (by split);
    generalize dependent Y; intros s1 B1
  end.
  eapply backoff_wf_frame; [| | exact B1]; [| by autorewrite with frame].
  eapply extends_trans; [| by apply arm_extends].
  eapply extends_trans; [| by apply arm_extends].
  eapply extends_trans; [| by apply cancel_and_forget_extends].
  eapply extends_trans; [| by apply cancel_and_forget_extends].
  by apply registerToServer_extends.
Qed.

Lemma backoff_wf_step (e : Event) (s : State) :
  backoff_wf s → backoff_wf (Backoff.step dev e s).
Proof.
  revert e s. apply (step_cases dev (λ _ s s', backoff_wf s → backoff_wf s')).
  - done.
  - intros s now sock _ _ _ _ [_ B]. by apply backoff_wf_on_open.
  - intros s now msg _ _ B.
    destruct (on_message_cases dev now msg s) as [-> | (command & code & line & _ & _ & ->)];
      [done |].
    eapply backoff_wf_frame; [| | exact B]; [| by destruct (is_open (ws s))].
    destruct (is_open (ws s)); simpl;
      repeat (apply extends_cons; [done |]); apply extends_refl.
  - intros s sock _ _ _ _ B. by apply backoff_wf_scheduleReconnect.
  - intros s now _ _ B. eapply backoff_wf_frame; [| | exact B]; [| done].
    simpl. apply extends_cons; [done | apply extends_refl].
  - by intros s now _ _ B.
  - by intros s sock _ _ _ B.
  - intros s now ip sendOk _ _ B. unfold Backoff.on_ping_timer.
    destruct (is_open (ws s)), sendOk; try by apply backoff_wf_scheduleReconnect.
    eapply backoff_wf_frame; [| | exact B]; [| done].
    simpl. apply extends_cons; [done | apply extends_refl].
  - intros s now _ _ B. unfold Backoff.on_health_timer. cbv zeta.
    case_match; [| done]. apply backoff_wf_scheduleReconnect.
    destruct (ws s) as [sock |]; [| done].
    eapply backoff_wf_frame; [| | exact B]; [| done].
    simpl. apply extends_cons; [done | apply extends_refl].
  - intros s s' ctorOk _ Hexp B. unfold expire in Hexp.
    destruct (outstanding ReconnectTimer s) as [| t ?]; [done |].
    injection Hexp as <-. apply backoff_wf_connect.
    eapply backoff_wf_frame; [| | exact B]; [| done].
    simpl. apply extends_cons; [done | apply extends_refl].
  - intros s ok _ _ B. unfold registerToServer_resume. by destruct ok.
  - intros s _ B. eapply backoff_wf_frame; [| | exact B].
    + eapply extends_trans; [apply cleanup_extends, teardown_streak_neutral |].
      apply process_exit_extends; [apply teardown_streak_neutral | done].
    + by autorewrite with frame.
Qed.

Lemma backoff_wf_run (evs : list Event) (s : State) :
  backoff_wf s → backoff_wf (Backoff.run dev evs s).
Proof.
  revert s. induction evs as [| e evs IH]; [done |].
  intros s B. simpl. by apply IH, backoff_wf_step.
Qed.

End BackoffHistory.

(** X9.  The backoff holds over the whole history of the process: in every
    reachable state each reconnect ever scheduled waited for
    [min(5000 * 2^(n-1), 300000)] milliseconds, [n] being its rank among the
    reconnects scheduled since the transport last opened, and the counter
    [reconnectAttempts] is the number of those reconnects. *)
Theorem X9_backoff_over_history
    (dev : Device) (t0 : Z) (ctorOk : bool) (evs : list Event) :
  let s := Backoff.run dev evs (Backoff.boot t0 ctorOk) in
  backed_off (log s) ∧ streak (log s) = reconnectAttempts s.
Proof.
  intros s.
  assert (backoff_wf s) as [B1 B2]; [| done].
  apply backoff_wf_run, backoff_wf_connect. by split.
Qed.

(** ** Which event can cause which effect ([src/unnamed/part_000]) *)

Lemma may_exit_teardown (e : Event) (x : Effect) :
  may_exit e = true → teardown x → may_cause e x = true.
Proof.
  intros He. destruct x; simpl; try done; intros _; destruct e; try done.
  all: by match goal with b : bool |- _ => destruct b end.
Qed.

Lemma scheduleReconnect_caused (e : Event) (s : State) :
  calls_scheduleReconnect e = true →
  extends (λ x, may_cause e x = true) (log s) (log (Backoff.scheduleReconnect s)).
Proof.
  intros He.
  assert (may_exit e = true) as Hx by by destruct e.
  apply scheduleReconnect_extends.
  - intros x. by apply may_exit_teardown.
  - done.
  - done.
Qed.

Lemma on_message_caused (dev : Device) now msg (s : State) :
  extends (λ x, may_cause (WsMessage now msg) x = true)
    (log s) (log (Backoff.on_message dev now msg s)).
Proof.
  unfold Backoff.on_message. cbv zeta.
  destruct msg as [| data]; [apply extends_refl |].
  repeat case_match; try apply extends_refl.
  all: match goal with H : sendKey _ _ = Some _ |- _ =>
         apply sendKey_shape in H as [line ->] end.
  all: simpl; repeat (apply extends_cons; [simpl; by rewrite ?Z.eqb_refl |]);
       apply extends_refl.
Qed.

Lemma step_caused (dev : Device) (e : Event) (s : State) :
  extends (λ x, may_cause e x = true) (log s) (log (Backoff.step dev e s)).
Proof.
  revert e s.
  apply (step_cases dev
    (λ e s s', extends (λ x, may_cause e x = true) (log s) (log s'))).
  - intros e s. apply extends_refl.
  - intros s now sock _ _ _ _. unfold Backoff.on_open. cbv zeta.
    eapply extends_trans; [| by apply arm_extends].
    eapply extends_trans; [| by apply arm_extends].
    eapply extends_trans; [| by apply cancel_and_forget_extends].
    eapply extends_trans; [| by apply cancel_and_forget_extends].
    eapply extends_trans; [| by apply registerToServer_extends].
    simpl. apply extends_cons; [done | apply extends_refl].
  - intros s now msg _ _. apply on_message_caused.
  - intros s sock _ _ _ _.
    by apply (scheduleReconnect_caused _ (set_readyState CLOSED sock s)).
  - intros s now _ _. simpl. apply extends_cons; [done | apply extends_refl].
  - intros s now _ _. apply extends_refl.
  - intros s sock _ _ _. apply extends_refl.
  - intros s now ip sendOk _ _. unfold Backoff.on_ping_timer.
    destruct (is_open (ws s)), sendOk; try by apply scheduleReconnect_caused.
    simpl. apply extends_cons; [| apply extends_refl].
    simpl. by rewrite Z.eqb_refl, String.eqb_refl.
  - intros s now _ _. unfold Backoff.on_health_timer. cbv zeta.
    case_match; [| apply extends_refl].
    destruct (ws s) as [sock |]; [| by apply scheduleReconnect_caused].
    eapply extends_trans; [| by apply (scheduleReconnect_caused _ (ws_terminate sock s))].
    simpl. apply extends_cons; [done | apply extends_refl].
  - intros s s' ctorOk _ Hexp. unfold expire in Hexp.
    destruct (outstanding ReconnectTimer s) as [| t ?]; [done |].
    injection Hexp as <-. unfold Backoff.on_reconnect_timer.
    match goal with |- context [Backoff.connect ctorOk ?Y] =>
      destruct (connect_cases ctorOk Y)
        as (s0 & -> & _ & _ & _ & _ & _ & _ & _ & _ & Hlog & _);
      assert (extends (λ x, may_cause (ReconnectFire ctorOk) x = true) (log s) (log s0))
        as H0
    end.
    { simpl in Hlog. destruct (ws s) as [sock |]; rewrite Hlog.
      - destruct (open_or_connecting sock); simpl;
          repeat (apply extends_cons; [done |]); apply extends_refl.
      - apply extends_cons; [done | apply extends_refl]. }
    destruct ctorOk.
    + simpl. by apply extends_cons.
    + eapply extends_trans; [exact H0 | by apply scheduleReconnect_caused].
  - intros s ok _ _. unfold registerToServer_resume. destruct ok; apply extends_refl.
  - intros s _.
    eapply extends_trans;
      [apply cleanup_extends; intros x; by apply may_exit_teardown |].
    apply process_exit_extends; [intros x; by apply may_exit_teardown | done].
Qed.

Lemma run_caused (dev : Device) (evs : list Event) (s : State) :
  Forall (λ x, (∃ e, e ∈ evs ∧ may_cause e x = true) ∨ x ∈ log s)
         (log (Backoff.run dev evs s)).
Proof.
  revert s. induction evs as [| e evs IH]; intros s.
  - apply Forall_forall. intros x Hx. by right.
  - simpl. eapply Forall_impl; [apply IH |]. intros x [(e' & He' & Hc) | Hx].
    + left. exists e'. split; [by right | done].
    + destruct (step_caused dev e s) as (recent & Hlog & Hr).
      rewrite Hlog in Hx. apply elem_of_app in Hx as [Hx | Hx]; [| by right].
      left. exists e. split; [by left |].
      by apply (proj1 (Forall_forall _ _) Hr).
Qed.

(** X10.  Each effect has its causes: whatever the process has done was
    done at start-up by the first [connect()] or caused by one of the events
    delivered since, within this table.  A transport is constructed only
    when the reconnect timeout elapses; the register frame, the registration
    request and the ping and health-check intervals come from the [open]
    listener only; a ping frame leaves only from a ping callback whose send
    succeeds, and carries that callback's address and time; a confirmation
    leaves only while a decoded message is handled; [terminate] is called by
    the health check only; a reconnect is scheduled only on close, from the
    ping or health-check callback, or after a failed construction; the lock
    file is removed and the process ended only by a signal or by a handler
    that calls [scheduleReconnect].  An error event, a pong frame, the
    closing handshake and a registration response cause nothing at all. *)
Theorem X10_causes
    (dev : Device) (t0 : Z) (ctorOk : bool) (evs : list Event) (x : Effect) :
  x ∈ log (Backoff.run dev evs (Backoff.boot t0 ctorOk)) →
  (∃ e, e ∈ evs ∧ may_cause e x = true) ∨
  x = ENewSocket ∧ ctorOk = true ∨
  x = ESetTimer ReconnectTimer O Backoff.RECONNECT_DELAY_MIN ∧ ctorOk = false.
Proof.
  intros Hx.
  pose proof (proj1 (Forall_forall _ _) (run_caused dev evs (Backoff.boot t0 ctorOk)) x Hx)
    as [Hc | Hboot]; [by left | right].
  destruct ctorOk.
  - left. change (x ∈ [ENewSocket]) in Hboot.
    apply elem_of_cons in Hboot as [-> | Hn]; [done | by apply elem_of_nil in Hn].
  - right.
    change (x ∈ [ESetTimer ReconnectTimer O Backoff.RECONNECT_DELAY_MIN]) in Hboot.
    apply elem_of_cons in Hboot as [-> | Hn]; [done | by apply elem_of_nil in Hn].
Qed.

(** X10 at the register frame of a first session: its cause is the [open]
    event. *)
Lemma X10_register_frame_comes_from_open :
  let x := ESend (Register (Backoff.regData Sample.dev)) in
  (∃ e, e ∈ [WsOpen 1000] ∧ may_cause e x = true) ∨
  x = ENewSocket ∧ true = true ∨
  x = ESetTimer ReconnectTimer O Backoff.RECONNECT_DELAY_MIN ∧ true = false.
Proof.
  apply (X10_causes Sample.dev 0 true [WsOpen 1000]
           (ESend (Register (Backoff.regData Sample.dev)))).
  vm_compute. repeat constructor.
Defined.

(** ** One transport at a time ([src/unnamed/part_000]) *)

Lemma attached_extends (older newer : list Effect) :
  extends socket_neutral older newer →
  attached newer = attached older ∧ (released older → released newer).
Proof.
  intros (recent & -> & Hr). induction Hr as [| e recent He _ [IH1 IH2]]; [done |].
  destruct e; simpl in *; try done; auto.
Qed.

Lemma transport_wf_frame (s s' : State) :
  extends socket_neutral (log s) (log s') →
  hears s' = hears s →
  transport_wf s → transport_wf s'.
Proof.
  intros He Hh [T1 T2]. destruct (attached_extends _ _ He) as [E1 E2].
  split; [auto | congruence].
Qed.

Lemma clears_socket_neutral (e : Effect) : (∃ h, e = EClearTimer h) → socket_neutral e.
Proof. by intros [h ->]. Qed.

Lemma transport_wf_cleanup (s : State) :
  transport_wf s → transport_wf (cleanup s).
Proof.
  intros T.
  assert (transport_wf (cancel ReconnectTimer (cancel PingTimer s))) as T1.
  { eapply transport_wf_frame; [| | exact T].
    - eapply extends_trans; by apply cancel_extends.
    - unfold hears. by autorewrite with frame. }
  unfold cleanup. cbv zeta.
  generalize dependent (cancel ReconnectTimer (cancel PingTimer s)).
  intros s1 [R1 A1]. unfold ws_close, ws_removeAllListeners, transport_wf, hears in *.
  destruct (ws s1) as [sock |] eqn:Hw; [destruct (open_or_connecting sock) |];
    simpl; destruct (lockFile s1); simpl; rewrite ?Hw; by split_and?.
Qed.

Lemma transport_wf_process_exit (code : Z) (s : State) :
  transport_wf s → transport_wf (process_exit code s).
Proof.
  intros T. apply transport_wf_cleanup in T. destruct T as [T1 T2].
  split; [by split | exact T2].
Qed.

Lemma transport_wf_scheduleReconnect (s : State) :
  transport_wf s → transport_wf (Backoff.scheduleReconnect s).
Proof.
  intros T. destruct (isReconnecting s) eqn:Hr.
  - by rewrite scheduleReconnect_pending.
  - destruct (Z.lt_ge_cases (reconnectAttempts s) Backoff.MAX_RECONNECT_ATTEMPTS)
      as [Hlt | Hge].
    + destruct (scheduleReconnect_schedules_log s Hr Hlt) as (older & Hlog & Ho).
      destruct (scheduleReconnect_schedules s Hr Hlt) as (_ & _ & _ & _ & _ & _ & Hw & _).
      eapply transport_wf_frame; [| | exact T].
      * rewrite Hlog. apply extends_cons; [done |].
        eapply extends_mono; [apply clears_socket_neutral | exact Ho].
      * unfold hears. by rewrite Hw.
    + rewrite scheduleReconnect_exits by done.
      by apply transport_wf_process_exit, transport_wf_cleanup.
Qed.

Lemma transport_wf_connect ok (s : State) :
  transport_wf s → transport_wf (Backoff.connect ok s).
Proof.
  intros [T1 T2].
  destruct (connect_cases ok s) as (s0 & -> & Hw0 & _ & _ & _ & _ & _ & _ & _ & Hlog & _).
  assert (released (log s0) ∧ attached (log s0) = false) as [R0 A0].
  { unfold hears in T2. destruct (ws s) as [sock |]; rewrite Hlog.
    - destruct (open_or_connecting sock); simpl; by split_and?.
    - done. }
  destruct ok.
  - split; [by split | done].
  - apply transport_wf_scheduleReconnect. split; [done |].
    unfold hears. by rewrite Hw0.
Qed.

Section Transport.
Context (dev : Device).

Lemma transport_wf_step (e : Event) (s : State) :
  transport_wf s → transport_wf (Backoff.step dev e s).
Proof.
  revert e s. apply (step_cases dev (λ _ s s', transport_wf s → transport_wf s')).
  - done.
  - intros s now sock _ Hw _ Hl T.
    eapply transport_wf_frame; [| | exact T].
    + unfold Backoff.on_open. cbv zeta.
      eapply extends_trans; [| by apply arm_extends].
      eapply extends_trans; [| by apply arm_extends].
      eapply extends_trans; [| apply cancel_and_forget_extends; by intros h].
      eapply extends_trans; [| apply cancel_and_forget_extends; by intros h].
      eapply extends_trans; [| by apply registerToServer_extends].
      simpl. apply extends_cons; [done | apply extends_refl].
    + unfold hears.
      destruct (on_open_control dev now (set_readyState OPEN sock s))
        as (_ & _ & -> & _).
      simpl. by rewrite Hw.
  - intros s now msg _ _ T.
    destruct (on_message_cases dev now msg s) as [-> | (command & code & line & _ & _ & ->)];
      [done |].
    eapply transport_wf_frame; [| | exact T]; destruct (is_open (ws s)); try done.
    all: simpl; repeat (apply extends_cons; [done |]); apply extends_refl.
  - intros s sock _ Hw _ Hl T. apply transport_wf_scheduleReconnect.
    eapply transport_wf_frame; [| | exact T]; [apply extends_refl |].
    unfold hears. simpl. by rewrite Hw.
  - intros s now _ _ T. eapply transport_wf_frame; [| | exact T]; [| done].
    simpl. apply extends_cons; [done | apply extends_refl].
  - by intros s now _ _ T.
  - intros s sock _ Hw _ T.
    eapply transport_wf_frame; [| | exact T]; [apply extends_refl |].
    unfold hears. simpl. by rewrite Hw.
  - intros s now ip sendOk _ _ T. unfold Backoff.on_ping_timer.
    destruct (is_open (ws s)), sendOk; try by apply transport_wf_scheduleReconnect.
    eapply transport_wf_frame; [| | exact T]; [| done].
    simpl. apply extends_cons; [done | apply extends_refl].
  - intros s now _ _ T. unfold Backoff.on_health_timer. cbv zeta.
    case_match; [| done]. apply transport_wf_scheduleReconnect.
    destruct (ws s) as [sock |] eqn:Hw; [| done].
    eapply transport_wf_frame; [| | exact T].
    + simpl. apply extends_cons; [done | apply extends_refl].
    + unfold hears. simpl. by rewrite Hw.
  - intros s s' ctorOk _ Hexp T. unfold expire in Hexp.
    destruct (outstanding ReconnectTimer s) as [| t ?]; [done |].
    injection Hexp as <-. apply transport_wf_connect.
    eapply transport_wf_frame; [| | exact T]; [| done].
    simpl. apply extends_cons; [done | apply extends_refl].
  - intros s ok _ _ T. unfold registerToServer_resume. by destruct ok.
  - intros s _ T. by apply transport_wf_process_exit, transport_wf_cleanup.
Qed.

Lemma transport_wf_run (evs : list Event) (s : State) :
  transport_wf s → transport_wf (Backoff.run dev evs s).
Proof.
  revert s. induction evs as [| e evs IH]; [done |].
  intros s T. simpl. by apply IH, transport_wf_step.
Qed.

End Transport.

(** X11.  One transport at a time: in every reachable state, whenever a
    transport was constructed the listeners of the one before it had been
    removed, and the transport constructed last still has its listeners
    exactly when [ws] holds a transport that has them.  So no event is ever
    delivered to a listener of an abandoned transport. *)
Theorem X11_one_transport_at_a_time
    (dev : Device) (t0 : Z) (ctorOk : bool) (evs : list Event) :
  let s := Backoff.run dev evs (Backoff.boot t0 ctorOk) in
  released (log s) ∧ (attached (log s) = true ↔ is_Some (listening_socket s)).
Proof.
  intros s.
  assert (transport_wf s) as [T1 T2].
  { apply transport_wf_run, transport_wf_connect. by split. }
  split; [done |]. rewrite T2. unfold hears, listening_socket.
  destruct (ws s) as [[r []] |]; split; try done; by intros [? [=]].
Qed.

(** ** Confirmations ([src/unnamed/part_000]) *)

Lemma confirms_extends (older newer : list Effect) :
  extends not_confirm older newer →
  confirms_follow_exec older → confirms_follow_exec newer.
Proof.
  intros (recent & -> & Hr) Ho. induction Hr as [| e recent He _ IH]; [done |].
  destruct e as [| [] | | | | | | | | | | |]; simpl in *; try done; auto.
Qed.

Lemma caused_not_confirm (e : Event) (x : Effect) :
  (∀ now data, e ≠ WsMessage now (Parsed data)) →
  may_cause e x = true → not_confirm x.
Proof.
  intros He. destruct x as [| [] | | | | | | | | | | |]; simpl; try done.
  destruct e as [| now [| data] | | | | | | | | | |]; try done.
  by destruct (He now data).
Qed.

Section Confirmations.
Context (dev : Device).

Lemma confirms_on_message now msg (s : State) :
  confirms_follow_exec (log s) →
  confirms_follow_exec (log (Backoff.on_message dev now msg s)).
Proof.
  intros C.
  destruct (on_message_cases dev now msg s)
    as [-> | (command & code & line & Hcode & Hline & ->)]; [done |].
  destruct (is_open (ws s)); simpl; [| done].
  split; [| done]. by exists code, line.
Qed.

Lemma confirms_step (e : Event) (s : State) :
  confirms_follow_exec (log s) →
  confirms_follow_exec (log (Backoff.step dev e s)).
Proof.
  intros C.
  assert ((∃ now data, e = WsMessage now (Parsed data)) ∨
          ∀ now data, e ≠ WsMessage now (Parsed data))
    as [(now & data & ->) | Hother].
  { destruct e as [| now [| data] | | | | | | | | | |];
      try (right; intros; discriminate). left. by eauto. }
  - unfold Backoff.step. destruct (exited s); [done |].
    destruct (listening_socket s) as [[[] ?] |]; try done;
      by apply confirms_on_message.
  - eapply confirms_extends; [| exact C].
    eapply extends_mono; [| apply step_caused].
    intros x. by apply caused_not_confirm.
Qed.

Lemma confirms_run (evs : list Event) (s : State) :
  confirms_follow_exec (log s) →
  confirms_follow_exec (log (Backoff.run dev evs s)).
Proof.
  revert s. induction evs as [| e evs IH]; [done |].
  intros s C. simpl. by apply IH, confirms_step.
Qed.

End Confirmations.

(** X12.  The agent never confirms what it has not handed to the shell: in
    every reachable state each confirmation in the history comes right
    after the key event line of its command, as [sendKey] resolves the
    command; its own effects never separate the two. *)
Theorem X12_confirmation_follows_key_event
    (dev : Device) (t0 : Z) (ctorOk : bool) (evs : list Event) :
  confirms_follow_exec (log (Backoff.run dev evs (Backoff.boot t0 ctorOk))).
Proof.
  apply confirms_run. destruct ctorOk; vm_compute; tauto.
Qed.

(** ** Scheduling a reconnect ([src/unnamed/part_000]) *)

(** After a call that schedules, the reconnect timer is the only timer of
    the process. *)
Lemma scheduleReconnect_only_timer (s : State) :
  timers_wf s →
  isReconnecting s = false →
  reconnectAttempts s < Backoff.MAX_RECONNECT_ATTEMPTS →
  timers (Backoff.scheduleReconnect s) = [next_reconnect s].
Proof.
  intros W Hr Hlt. unfold Backoff.scheduleReconnect. rewrite Hr.
  destruct (Z.leb_spec Backoff.MAX_RECONNECT_ATTEMPTS (reconnectAttempts s)); [lia |].
  cbv zeta.
  set (s1 := set_reconnectAttempts _ _).
  assert (timers_wf s1) as W1 by (unfold s1; timers_frame).
  assert (timers_wf (cancel_and_forget PingTimer s1)) as W2
    by by apply timers_wf_cancel_and_forget.
  assert (timers_wf (cancel_and_forget HealthTimer (cancel_and_forget PingTimer s1)))
    as W3 by by apply timers_wf_cancel_and_forget.
  destruct (arm_fields ReconnectTimer (Backoff.delay (reconnectAttempts s1))
              (cancel ReconnectTimer (cancel_and_forget HealthTimer
                 (cancel_and_forget PingTimer s1)))) as (-> & _).
  rewrite nextHandle_cancel_chain. unfold next_reconnect. f_equal.
  apply no_timers. intros [].
  - by apply cancel_keeps_none, cancel_and_forget_keeps_none, cancel_and_forget_none.
  - by apply cancel_keeps_none, cancel_and_forget_none.
  - by apply cancel_none.
Qed.

Lemma connected_control (s : State) (t : Timer) (l : list Timer) :
  timers_wf s → control_wf s → exited s = None →
  outstanding PingTimer s = t :: l →
  isReconnecting s = false ∧ reconnectAttempts s = 0.
Proof.
  intros [W1 _ _ _ _ _ _] [_ C2] Hx Ho.
  assert (t ∈ outstanding PingTimer s) as Ht by (rewrite Ho; by left).
  apply list_elem_of_filter in Ht as [Hk Ht].
  specialize (W1 t Ht). rewrite Hk in W1. simpl in W1.
  destruct C2 as (? & ? & _); [done | left; by eexists | done].
Qed.

(** X13.  Losing an established connection.  In a reachable state in which
    the ping interval runs, a close that reaches its listener, and a ping
    callback that finds the transport not open or whose send throws, each
    start the first attempt of a new streak: the counter goes to 1, and the
    only timer left in the process is a reconnect timeout of 5000 ms; the
    ping and health-check intervals are gone. *)
Theorem X13_lost_connection
    (dev : Device) (t0 : Z) (ctorOk : bool) (evs : list Event) (e : Event) :
  let s := Backoff.run dev evs (Backoff.boot t0 ctorOk) in
  exited s = None →
  outstanding PingTimer s ≠ [] →
  drops_connection e s = true →
  let s' := Backoff.step dev e s in
  timers s' = [{| timer_id := nextHandle s; timer_kind := ReconnectTimer;
                  timer_delay := Backoff.RECONNECT_DELAY_MIN |}] ∧
  reconnectAttempts s' = 1 ∧ isReconnecting s' = true ∧ exited s' = None.
Proof.
  intros s Hx Hping Hdrop.
  assert (timers_wf s) as W by apply timers_wf_run, timers_wf_boot.
  assert (control_wf s) as C by apply control_wf_run, control_wf_boot.
  destruct (outstanding PingTimer s) as [| t l] eqn:Ho; [done |].
  destruct (connected_control s t l W C Hx Ho) as [Hr Ha].
  assert (∀ s0, timers_wf s0 → isReconnecting s0 = false → reconnectAttempts s0 = 0 →
            nextHandle s0 = nextHandle s → exited s0 = None →
            timers (Backoff.scheduleReconnect s0) =
              [{| timer_id := nextHandle s; timer_kind := ReconnectTimer;
                  timer_delay := Backoff.RECONNECT_DELAY_MIN |}] ∧
            reconnectAttempts (Backoff.scheduleReconnect s0) = 1 ∧
            isReconnecting (Backoff.scheduleReconnect s0) = true ∧
            exited (Backoff.scheduleReconnect s0) = None) as Hsched.
  { intros s0 W0 Hr0 Ha0 Hn0 Hx0.
    assert (reconnectAttempts s0 < Backoff.MAX_RECONNECT_ATTEMPTS) as Hlt
      by (rewrite Ha0; done).
    rewrite scheduleReconnect_only_timer by done.
    destruct (scheduleReconnect_schedules s0 Hr0 Hlt) as (-> & -> & _ & _ & _ & -> & _).
    unfold next_reconnect. rewrite Ha0, Hn0. done. }
  intros s'. unfold s', Backoff.step. rewrite Hx.
  destruct e as [| | | | | | | now ip sendOk | | | |]; try done; simpl in Hdrop.
  - destruct (listening_socket s) as [[[] ?] |]; try done.
    all: apply Hsched; try done; unfold set_readyState; timers_frame.
  - rewrite Ho. unfold Backoff.on_ping_timer.
    destruct (is_open (ws s)), sendOk; try done; by apply Hsched.
Qed.

(** X13 at a close on a transport opened at time 1000. *)
Lemma X13_close_while_connected :
  let s := Backoff.run Sample.dev [WsOpen 1000] (Backoff.boot 0 true) in
  let s' := Backoff.step Sample.dev WsClose s in
  timers s' = [{| timer_id := nextHandle s; timer_kind := ReconnectTimer;
                  timer_delay := Backoff.RECONNECT_DELAY_MIN |}] ∧
  reconnectAttempts s' = 1 ∧ isReconnecting s' = true ∧ exited s' = None.
Proof.
  apply (X13_lost_connection Sample.dev 0 true [WsOpen 1000] WsClose);
    vm_compute; done.
Defined.

(** X14.  A transport that cannot be constructed is handled like a lost
    connection.  When the reconnect timeout elapses in a reachable state and
    [new WebSocket] throws, no transport is held afterwards and none is
    constructed; below the bound the attempt is counted and the only timer
    left is the next reconnect timeout, with the backoff delay of the new
    count; at the bound the process ends with status 1. *)
Theorem X14_failed_construction
    (dev : Device) (t0 : Z) (ctorOk : bool) (evs : list Event) :
  let s := Backoff.run dev evs (Backoff.boot t0 ctorOk) in
  exited s = None →
  outstanding ReconnectTimer s ≠ [] →
  let s' := Backoff.step dev (ReconnectFire false) s in
  ws s' = None ∧
  (reconnectAttempts s < Backoff.MAX_RECONNECT_ATTEMPTS →
   timers s' = [next_reconnect s] ∧
   reconnectAttempts s' = reconnectAttempts s + 1 ∧
   isReconnecting s' = true ∧ exited s' = None) ∧
  (reconnectAttempts s = Backoff.MAX_RECONNECT_ATTEMPTS → exited s' = Some 1).
Proof.
  intros s Hx Hpending.
  assert (timers_wf s) as W by apply timers_wf_run, timers_wf_boot.
  intros s'. unfold s', Backoff.step. rewrite Hx.
  destruct (expire ReconnectTimer s) as [s1 |] eqn:Hexp.
  2: { unfold expire in Hexp. by destruct (outstanding ReconnectTimer s). }
  pose proof (timers_wf_expire _ _ _ W Hexp) as W1.
  destruct (expire_fields _ _ _ W Hexp) as (_ & _ & h & ->).
  unfold Backoff.on_reconnect_timer.
  match goal with |- context [Backoff.connect false ?Y] =>
    assert (timers_wf Y) as WY by timers_frame;
    destruct (connect_cases false Y)
      as (s0 & -> & Hw0 & Ht0 & Hn0 & Hv0 & Hr0 & Ha0 & Hx0 & _ & _ & W0);
    specialize (W0 WY)
  end.
  simpl in Hr0, Ha0, Hx0, Hn0.
  destruct (Z.lt_ge_cases (reconnectAttempts s0) Backoff.MAX_RECONNECT_ATTEMPTS)
    as [Hlt | Hge].
  - destruct (scheduleReconnect_schedules s0 Hr0 Hlt) as (Hr' & Ha' & _ & _ & _ & Hx' & Hw' & _).
    split; [by rewrite Hw' |]. split; [| lia].
    intros _. rewrite scheduleReconnect_only_timer by done.
    unfold next_reconnect. rewrite Hn0, Ha0, Ha', Hr', Hx', Ha0, Hx0. done.
  - rewrite scheduleReconnect_exits by done.
    split; [| split; [lia | done]].
    change (ws (cleanup (cleanup s0)) = None).
    rewrite !ws_cleanup. by rewrite Hw0.
Qed.

(** X14 at the reconnect that follows a first close. *)
Lemma X14_refused_after_a_close :
  let s := Backoff.run Sample.dev [WsOpen 1000; WsClose] (Backoff.boot 0 true) in
  let s' := Backoff.step Sample.dev (ReconnectFire false) s in
  ws s' = None ∧
  (reconnectAttempts s < Backoff.MAX_RECONNECT_ATTEMPTS →
   timers s' = [next_reconnect s] ∧
   reconnectAttempts s' = reconnectAttempts s + 1 ∧
   isReconnecting s' = true ∧ exited s' = None) ∧
  (reconnectAttempts s = Backoff.MAX_RECONNECT_ATTEMPTS → exited s' = Some 1).
Proof.
  apply (X14_failed_construction Sample.dev 0 true [WsOpen 1000; WsClose]);
    vm_compute; done.
Defined.

(** ** Connected or reconnecting, never both ([src/unnamed/part_000]) *)

Lemma phase_wf_frame (s s' : State) :
  timers s' = timers s →
  pingTimer s' = pingTimer s →
  healthCheckInterval s' = healthCheckInterval s →
  (accepts_open s = false → accepts_open s' = false) →
  phase_wf s → phase_wf s'.
Proof.
  intros Ht Hp Hh Ha [P1 P2]. unfold phase_wf, outstanding. rewrite Ht, Hp, Hh.
  split.
  - intros Hr. destruct (P1 Hr) as (? & ? & ?). auto.
  - auto.
Qed.

Lemma phase_wf_closed (s : State) :
  accepts_open s = false →
  (outstanding ReconnectTimer s ≠ [] →
   pingTimer s = None ∧ healthCheckInterval s = None) →
  phase_wf s.
Proof.
  intros Ha Hr. split; [| done]. intros H. by destruct (Hr H).
Qed.

Lemma accepts_open_exited (s : State) : is_Some (exited s) → accepts_open s = false.
Proof. intros [c Hc]. unfold accepts_open. by rewrite Hc. Qed.

Lemma outstanding_cleanup (s : State) :
  timers_wf s → outstanding ReconnectTimer (cleanup s) = [].
Proof.
  intros W. unfold outstanding. rewrite timers_cleanup.
  by apply (cancel_none ReconnectTimer), timers_wf_cancel.
Qed.

Lemma phase_wf_process_exit (code : Z) (s : State) :
  timers_wf s → phase_wf (process_exit code s).
Proof.
  intros W. apply phase_wf_closed.
  - apply accepts_open_exited. by eexists.
  - intros Hr. exfalso. apply Hr.
    change (outstanding ReconnectTimer (cleanup s) = []).
    by apply outstanding_cleanup.
Qed.

Lemma phase_wf_scheduleReconnect (s : State) :
  timers_wf s →
  accepts_open s = false →
  (outstanding ReconnectTimer s ≠ [] →
   pingTimer s = None ∧ healthCheckInterval s = None) →
  phase_wf (Backoff.scheduleReconnect s).
Proof.
  intros W Ha Hr. destruct (isReconnecting s) eqn:Hrec.
  - rewrite scheduleReconnect_pending by done. by apply phase_wf_closed.
  - destruct (Z.lt_ge_cases (reconnectAttempts s) Backoff.MAX_RECONNECT_ATTEMPTS)
      as [Hlt | Hge].
    + destruct (scheduleReconnect_schedules s Hrec Hlt)
        as (_ & _ & _ & Hp & Hh & Hx & Hw & _).
      apply phase_wf_closed; [| done].
      unfold accepts_open, listening_socket in *. by rewrite Hx, Hw.
    + rewrite scheduleReconnect_exits by done.
      by apply phase_wf_process_exit, timers_wf_cleanup.
Qed.

Lemma held_outstanding (k : TimerKind) (s : State) :
  timers_wf s → outstanding k s ≠ [] → is_Some (var_of k s).
Proof.
  intros W Ho. destruct (var_of k s) eqn:Hv; [by eexists |].
  by apply var_none_outstanding in Hv.
Qed.

Section Phases.
Context (dev : Device).

Lemma outstanding_on_open now (s : State) :
  outstanding ReconnectTimer s = [] →
  outstanding ReconnectTimer (Backoff.on_open dev now s) = [].
Proof.
  intros Ho. unfold Backoff.on_open. cbv zeta.
  rewrite !outstanding_arm, !decide_False by done.
  do 2 apply cancel_and_forget_keeps_none.
  unfold outstanding. by rewrite timers_registerToServer.
Qed.

Lemma phase_wf_step (e : Event) (s : State) :
  timers_wf s → phase_wf s → phase_wf (Backoff.step dev e s).
Proof.
  revert e s.
  apply (step_cases dev (λ _ s s', timers_wf s → phase_wf s → phase_wf s')).
  - done.
  - intros s now sock Hx Hw Hc Hl W [P1 _].
    assert (accepts_open s = true) as Hopen.
    { unfold accepts_open, listening_socket. rewrite Hx, Hw, Hl.
      destruct sock as [r l]. simpl in Hc. by subst r. }
    assert (outstanding ReconnectTimer s = []) as Hnone.
    { destruct (outstanding ReconnectTimer s) eqn:Ho; [done |].
      destruct P1 as (_ & _ & Hno); [done | congruence]. }
    apply phase_wf_closed.
    + destruct (on_open_control dev now (set_readyState OPEN sock s))
        as (_ & _ & Hws & Hex & _).
      unfold accepts_open, listening_socket. rewrite Hws, Hex. simpl.
      rewrite Hx. by destruct (listening sock).
    + intros Hr. exfalso. apply Hr. by apply outstanding_on_open.
  - intros s now msg _ _ W P.
    destruct (on_message_shape dev now msg s) as (l & -> & _).
    by eapply phase_wf_frame; [.. | exact P].
  - intros s sock Hx Hw Hc Hl W [P1 _]. apply phase_wf_scheduleReconnect.
    + unfold set_readyState. timers_frame.
    + unfold accepts_open, listening_socket. simpl. rewrite Hx.
      by destruct (listening sock).
    + intros Hr. by destruct (P1 Hr) as (? & ? & _).
  - intros s now _ _ W P. by eapply phase_wf_frame; [.. | exact P].
  - intros s now _ _ W P. by eapply phase_wf_frame; [.. | exact P].
  - intros s sock Hx Hw Ho W P. eapply phase_wf_frame; [.. | exact P]; try done.
    intros _. unfold accepts_open, listening_socket. simpl. rewrite Hx.
    by destruct (listening sock).
  - intros s now ip sendOk Hx Ho W [P1 P2].
    assert (accepts_open s = false) as Ha.
    { apply P2. left. by apply (held_outstanding PingTimer). }
    unfold Backoff.on_ping_timer. destruct (is_open (ws s)), sendOk.
    2-4: apply phase_wf_scheduleReconnect; try done; intros Hr;
         by destruct (P1 Hr) as (? & ? & _).
    by eapply phase_wf_frame; [.. | split].
  - intros s now Hx Ho W [P1 P2].
    assert (accepts_open s = false) as Ha.
    { apply P2. right. by apply (held_outstanding HealthTimer). }
    unfold Backoff.on_health_timer. cbv zeta. case_match; [| done].
    destruct (ws s) as [sock |] eqn:Hw.
    + apply phase_wf_scheduleReconnect.
      * unfold ws_terminate. timers_frame.
      * unfold accepts_open, listening_socket. simpl. rewrite Hx.
        destruct sock as [[] []]; done.
      * intros Hr. by destruct (P1 Hr) as (? & ? & _).
    + apply phase_wf_scheduleReconnect; try done.
      intros Hr. by destruct (P1 Hr) as (? & ? & _).
  - intros s s1 ctorOk Hx Hexp W [P1 _].
    assert (outstanding ReconnectTimer s ≠ []) as Hpending.
    { unfold expire in Hexp. by destruct (outstanding ReconnectTimer s). }
    destruct (P1 Hpending) as (Hp & Hh & _).
    pose proof (timers_wf_expire _ _ _ W Hexp) as W1.
    destruct (expire_fields _ _ _ W Hexp) as (Hnone & _ & h & ->).
    unfold Backoff.on_reconnect_timer.
    match goal with |- context [Backoff.connect ctorOk ?Y] =>
      assert (timers_wf Y) as WY by timers_frame;
      destruct (connect_cases ctorOk Y)
        as (s0 & -> & Hw0 & Ht0 & _ & Hv0 & _ & _ & Hx0 & _ & _ & W0);
      specialize (W0 WY)
    end.
    assert (outstanding ReconnectTimer s0 = []) as Hnone0.
    { unfold outstanding in *. by rewrite Ht0. }
    pose proof (Hv0 PingTimer) as Hp0. pose proof (Hv0 HealthTimer) as Hh0.
    simpl in Hp0, Hh0, Hx0. rewrite Hp in Hp0. rewrite Hh in Hh0.
    destruct ctorOk.
    + split; simpl; [done |]. rewrite Hp0, Hh0. by intros [[? [=]] | [? [=]]].
    + apply phase_wf_scheduleReconnect; [done | |].
      * unfold accepts_open, listening_socket. rewrite Hw0. by destruct (exited s0).
      * by rewrite Hnone0.
  - intros s ok _ _ W P. unfold registerToServer_resume.
    destruct ok; by eapply phase_wf_frame; [.. | exact P].
  - intros s _ W _. by apply phase_wf_process_exit, timers_wf_cleanup.
Qed.

Lemma phase_wf_run (evs : list Event) (s : State) :
  timers_wf s → phase_wf s → phase_wf (Backoff.run dev evs s).
Proof.
  revert s. induction evs as [| e evs IH]; [done |].
  intros s W P. simpl. apply IH; [by apply timers_wf_step | by apply phase_wf_step].
Qed.

End Phases.

Lemma phase_wf_boot (t0 : Z) (ctorOk : bool) : phase_wf (Backoff.boot t0 ctorOk).
Proof.
  destruct ctorOk.
  - split; [done |]. by intros [[? [=]] | [? [=]]].
  - apply phase_wf_closed; [done |]. intros _. by vm_compute.
Qed.

(** X15.  Connected or reconnecting, never both.  In every reachable state
    in which a reconnect timeout is outstanding, neither the ping interval
    nor the health check is, and no transport is waiting for its [open]
    event: the intervals of a connection never run alongside the timeout
    that replaces it, and a reconnect is never pending while a new transport
    is still connecting. *)
Theorem X15_connected_or_reconnecting
    (dev : Device) (t0 : Z) (ctorOk : bool) (evs : list Event) :
  let s := Backoff.run dev evs (Backoff.boot t0 ctorOk) in
  outstanding ReconnectTimer s ≠ [] →
  outstanding PingTimer s = [] ∧ outstanding HealthTimer s = [] ∧
  accepts_open s = false.
Proof.
  intros s Hr.
  assert (timers_wf s) as W by apply timers_wf_run, timers_wf_boot.
  assert (phase_wf s) as [P1 _].
  { apply phase_wf_run; [apply timers_wf_boot | apply phase_wf_boot]. }
  destruct (P1 Hr) as (Hp & Hh & Ha).
  split; [by apply var_none_outstanding |].
  split; [by apply var_none_outstanding | done].
Qed.

(** X15 while the reconnect that follows a first close is pending. *)
Lemma X15_pending_after_a_close :
  let s := Backoff.run Sample.dev [WsOpen 1000; WsClose] (Backoff.boot 0 true) in
  outstanding PingTimer s = [] ∧ outstanding HealthTimer s = [] ∧
  accepts_open s = false.
Proof.
  apply (X15_connected_or_reconnecting Sample.dev 0 true [WsOpen 1000; WsClose]).
  vm_compute. done.
Defined.

(** ** [src/tvagent.js]: one turn of the event loop, handler by handler *)

Lemma fixed_step_cases (dev : Device) (R : Event → State → State → Prop) :
  (∀ e s, R e s s) →
  (∀ s now sock, exited s = None → ws s = Some sock →
     readyState sock = CONNECTING → listening sock = true →
     R (WsOpen now) s (Fixed.on_open dev (set_readyState OPEN sock s))) →
  (∀ s now msg, exited s = None →
     R (WsMessage now msg) s (Fixed.on_message dev now msg s)) →
  (∀ s sock, exited s = None → ws s = Some sock →
     readyState sock ≠ CLOSED → listening sock = true →
     R WsClose s (Fixed.on_close (set_readyState CLOSED sock s))) →
  (∀ s sock, exited s = None → ws s = Some sock → readyState sock = OPEN →
     R WsClosing s (set_readyState CLOSING sock s)) →
  (∀ s now ip sendOk, exited s = None → outstanding PingTimer s ≠ [] →
     R (PingTick now ip sendOk) s (Fixed.on_ping_timer dev now ip sendOk s)) →
  (∀ s s' ctorOk, exited s = None → expire ReconnectTimer s = Some s' →
     R (ReconnectFire ctorOk) s (Fixed.on_reconnect_timer ctorOk s')) →
  (∀ s ok, exited s = None → pendingPosts s ≠ O →
     R (HttpResponse ok) s (registerToServer_resume ok s)) →
  (∀ s, exited s = None → R Signal s (process_exit 0 (cleanup s))) →
  ∀ e s, R e s (Fixed.step dev e s).
Proof.
  intros Hrefl Hopen Hmsg Hclose Hclosing Hpt Hrt Hhttp Hsig e s.
  unfold Fixed.step. destruct (exited s) eqn:Hx; [apply Hrefl |].
  assert (∀ sock, listening_socket s = Some sock →
            ws s = Some sock ∧ listening sock = true) as Hls.
  { unfold listening_socket. intros sock. destruct (ws s) as [[r []] |]; try done.
    intros [= <-]. done. }
  destruct e as [now | now msg | | | now | now | | now ip sendOk | now | ctorOk | ok |];
    try apply Hrefl.
  - destruct (listening_socket s) as [[[] l] |] eqn:Hl; try apply Hrefl.
    destruct (Hls _ eq_refl). by apply Hopen.
  - destruct (listening_socket s) as [[[] l] |] eqn:Hl; try apply Hrefl;
      by apply Hmsg.
  - destruct (listening_socket s) as [[[] l] |] eqn:Hl; try apply Hrefl;
      destruct (Hls _ eq_refl); by apply Hclose.
  - destruct (listening_socket s); apply Hrefl.
  - destruct (ws s) as [[[] l] |] eqn:Hw; try apply Hrefl. by eapply Hclosing.
  - destruct (outstanding PingTimer s) eqn:Ho; [apply Hrefl |].
    apply Hpt; [done |]. by rewrite Ho.
  - destruct (expire ReconnectTimer s) eqn:He; [| apply Hrefl]. by eapply Hrt.
  - destruct (pendingPosts s) eqn:Hp; [apply Hrefl |]. apply Hhttp; [done |].
    by rewrite Hp.
  - by apply Hsig.
Qed.

Lemma Fixed_scheduleReconnect_extends (P : Effect → Prop) (s : State) :
  (∀ h, P (EClearTimer h)) →
  P (ESetTimer ReconnectTimer (nextHandle s) Fixed.RECONNECT_DELAY) →
  extends P (log s) (log (Fixed.scheduleReconnect s)).
Proof.
  intros Hc Hs. unfold Fixed.scheduleReconnect.
  destruct (isReconnecting s); [apply extends_refl |]. cbv zeta.
  eapply extends_trans; [| apply arm_extends; by autorewrite with frame].
  eapply extends_trans; [| by apply cancel_extends].
  eapply extends_trans; [| by apply cancel_and_forget_extends].
  apply extends_refl.
Qed.

Lemma Fixed_scheduleReconnect_exited (s : State) :
  exited (Fixed.scheduleReconnect s) = exited s.
Proof.
  unfold Fixed.scheduleReconnect. destruct (isReconnecting s); [done |].
  cbv zeta. by autorewrite with frame.
Qed.

Lemma Fixed_connect_cases (ok : bool) (s : State) :
  ∃ s0,
    Fixed.connect ok s =
      (if ok
       then emit ENewSocket
              (set_ws (Some {| readyState := CONNECTING; listening := true |}) s0)
       else Fixed.uncaught s0) ∧
    exited s0 = exited s ∧
    extends (λ e, e = ERemoveAllListeners ∨ e = EClose) (log s) (log s0).
Proof.
  unfold Fixed.connect. cbv zeta. eexists. split; [reflexivity |].
  unfold ws_removeAllListeners.
  destruct (ws s) as [sock |]; [destruct (open_or_connecting sock) |];
    simpl; (split; [done |]);
    repeat (apply extends_cons; [by auto |]); apply extends_refl.
Qed.

Lemma Fixed_on_message_cases (dev : Device) now msg (s : State) :
  Fixed.on_message dev now msg s = s ∨
  ∃ command code line,
    keyCode command = Some code ∧ adb_keyevent code = Some line ∧
    Fixed.on_message dev now msg s =
      if is_open (ws s)
      then emit (ESend (Confirm (tvId dev) command "ok" now)) (emit (EExec line) s)
      else emit (EExec line) s.
Proof.
  unfold Fixed.on_message.
  destruct msg as [| data]; [by left |].
  destruct (Get data "target") as [target |]; [| by left].
  destruct (is_string target (tvId dev) || is_string target "all"); [| by left].
  destruct (Get data "command") as [command |]; [| by left].
  unfold sendKey.
  destruct (keyCode command) as [code |] eqn:Hcode; [| by left].
  destruct (adb_keyevent code) as [line |] eqn:Hline; [| by left].
  right. exists command, code, line. split; [done |]. split; [done |]. reflexivity.
Qed.

Lemma teardown_permitted_fixed (dev : Device) (e : Effect) :
  teardown e → permitted_fixed dev e.
Proof. destruct e; simpl; try done. by left. Qed.

Section FixedFootprint.
Context (dev : Device).

Lemma step_permitted_fixed (e : Event) (s : State) :
  extends (permitted_fixed dev) (log s) (log (Fixed.step dev e s)).
Proof.
  revert e s.
  apply (fixed_step_cases dev
    (λ _ s s', extends (permitted_fixed dev) (log s) (log s'))).
  - intros _ s. apply extends_refl.
  - intros s now sock _ _ _ _. unfold Fixed.on_open. cbv zeta.
    eapply extends_trans; [| by apply arm_extends].
    eapply extends_trans; [| by apply cancel_and_forget_extends].
    eapply extends_trans; [| by apply registerToServer_extends].
    simpl. apply extends_cons; [done | apply extends_refl].
  - intros s now msg _.
    destruct (Fixed_on_message_cases dev now msg s)
      as [-> | (command & code & line & _ & Hline & ->)]; [apply extends_refl |].
    apply adb_keyevent_line in Hline as [c ->].
    destruct (is_open (ws s)); simpl;
      repeat (apply extends_cons; [simpl; by eauto |]); apply extends_refl.
  - intros s sock _ _ _ _.
    by apply (Fixed_scheduleReconnect_extends _ (set_readyState CLOSED sock s)).
  - intros s sock _ _ _. apply extends_refl.
  - intros s now ip sendOk _ _. unfold Fixed.on_ping_timer, Fixed.uncaught.
    destruct (is_open (ws s)), sendOk; try apply extends_refl.
    + simpl. apply extends_cons; [done | apply extends_refl].
    + apply process_exit_extends; [apply teardown_permitted_fixed | by right].
  - intros s s' ctorOk _ Hexp. unfold expire in Hexp.
    destruct (outstanding ReconnectTimer s) as [| t ?]; [done |].
    injection Hexp as <-. unfold Fixed.on_reconnect_timer.
    match goal with |- context [Fixed.connect ctorOk ?Y] =>
      destruct (Fixed_connect_cases ctorOk Y) as (s0 & -> & _ & H0)
    end.
    assert (extends (permitted_fixed dev) (log s) (log s0)) as H1.
    { eapply extends_trans; [| eapply extends_mono; [| exact H0]].
      - simpl. apply extends_cons; [done | apply extends_refl].
      - by intros x [-> | ->]. }
    destruct ctorOk.
    + simpl. by apply extends_cons.
    + eapply extends_trans; [exact H1 |]. unfold Fixed.uncaught.
      apply process_exit_extends; [apply teardown_permitted_fixed | by right].
  - intros s ok _ _. unfold registerToServer_resume. destruct ok; apply extends_refl.
  - intros s _.
    eapply extends_trans; [apply cleanup_extends, teardown_permitted_fixed |].
    apply process_exit_extends; [apply teardown_permitted_fixed | by left].
Qed.

Lemma run_permitted_fixed (evs : list Event) (s : State) :
  Forall (permitted_fixed dev) (log s) →
  Forall (permitted_fixed dev) (log (Fixed.run dev evs s)).
Proof.
  revert s. induction evs as [| e evs IH]; [done |].
  intros s F. simpl. apply IH.
  eapply extends_Forall; [apply step_permitted_fixed | done].
Qed.

Lemma timers_wf_Fixed_run (evs : list Event) (s : State) :
  timers_wf s → timers_wf (Fixed.run dev evs s).
Proof.
  revert s. induction evs as [| e evs IH]; [done |].
  intros s W. simpl. by apply IH, timers_wf_Fixed_step.
Qed.

End FixedFootprint.

Lemma boot_permitted_fixed (dev : Device) (t0 : Z) (ctorOk : bool) :
  Forall (permitted_fixed dev) (log (Fixed.boot t0 ctorOk)).
Proof.
  destruct (Fixed_connect_cases ctorOk (init t0)) as (s0 & E & _ & H0).
  unfold Fixed.boot. rewrite E.
  assert (Forall (permitted_fixed dev) (log s0)) as F0.
  { eapply extends_Forall; [| by constructor].
    eapply extends_mono; [| exact H0]. by intros x [-> | ->]. }
  destruct ctorOk.
  - simpl. by constructor.
  - eapply extends_Forall; [| exact F0]. unfold Fixed.uncaught.
    apply process_exit_extends; [apply teardown_permitted_fixed | by right].
Qed.

(** X16.  The footprint of [src/tvagent.js] from the first [connect()]
    on, in every reachable state: every reconnect ever scheduled waits
    exactly 5000 ms, however many went before; the only other timer ever armed is the ping interval of 60000
    ms; the agent never calls [terminate] and never answers a ping frame;
    frames and registration requests carry this device's data, a
    confirmation has status [ok], and the only shell lines are key events
    and the release of the wake lock. *)
Theorem X16_footprint_of_tvagent_js
    (dev : Device) (t0 : Z) (ctorOk : bool) (evs : list Event) :
  Forall (permitted_fixed dev) (log (Fixed.run dev evs (Fixed.boot t0 ctorOk))).
Proof.
  pose proof (boot_permitted_fixed dev t0 ctorOk) as Hboot.
  revert Hboot. generalize (Fixed.boot t0 ctorOk).
  induction evs as [| e evs IH]; intros s F; [done |].
  simpl. apply IH.
  eapply extends_Forall; [apply step_permitted_fixed | done].
Qed.

(** ** [src/tvagent.js]: timers *)

Lemma live_kinds (P : TimerKind → Prop) (l : list Effect) :
  Forall (λ e, ∀ k h d, e = ESetTimer k h d → P k) l →
  ∀ p, p ∈ live l → P p.2.
Proof.
  induction 1 as [| e l He _ IH]; intros p Hp; [by apply elem_of_nil in Hp |].
  destruct e; simpl in Hp; try by apply IH.
  - apply elem_of_cons in Hp as [-> | Hp]; [by eapply He | by apply IH].
  - apply list_elem_of_filter in Hp as [_ Hp]. by apply IH.
  - apply list_elem_of_filter in Hp as [_ Hp]. by apply IH.
Qed.

Lemma no_health_timer (dev : Device) (s : State) :
  timers_wf s → Forall (permitted_fixed dev) (log s) →
  outstanding HealthTimer s = [].
Proof.
  intros [_ _ W3 _ _ _ _] F. apply outstanding_nil. intros t Ht.
  assert (Forall (λ e, ∀ k h d, e = ESetTimer k h d → k ≠ HealthTimer) (log s)) as Hk.
  { eapply Forall_impl; [exact F |]. intros e He k h d ->. by destruct k. }
  apply (live_kinds (λ k, k ≠ HealthTimer) (log s) Hk (timer_key t)).
  rewrite W3. by apply (list_elem_of_fmap_2 timer_key).
Qed.

(** X17.  In [src/tvagent.js] too at most one ping interval and one
    reconnect timeout are outstanding, in every reachable state and at
    every earlier instant of its history, and no health-check timer ever
    is. *)
Theorem X17_timers_of_tvagent_js
    (dev : Device) (t0 : Z) (ctorOk : bool) (evs : list Event) :
  let s := Fixed.run dev evs (Fixed.boot t0 ctorOk) in
  (∀ k, (length (outstanding k s) ≤ 1)%nat) ∧
  outstanding HealthTimer s = [] ∧
  ∀ recent past,
    log s = (recent ++ past)%list → ∀ k, (length (live_of k past) ≤ 1)%nat.
Proof.
  intros s.
  assert (timers_wf s) as W by apply timers_wf_Fixed_run, timers_wf_Fixed_boot.
  split; [by destruct W |]. split.
  - apply (no_health_timer dev); [done |].
    apply run_permitted_fixed, boot_permitted_fixed.
  - intros recent past Hlog k. destruct W as [_ _ _ W4 _ _ _].
    rewrite Hlog in W4. apply disciplined_past in W4.
    by apply disciplined_at_most_one.
Qed.

(** ** [src/tvagent.js]: the ways out *)

Lemma Fixed_on_open_exited (dev : Device) (s : State) :
  exited (Fixed.on_open dev s) = exited s.
Proof. unfold Fixed.on_open. cbv zeta. by autorewrite with frame. Qed.

(** X18.  [src/tvagent.js] never gives up.  Its process ends with status 0
    on a signal, and with status 1 only through an exception that none of
    its [try] blocks encloses: [new WebSocket] throwing in the reconnect
    callback or [ws.send] throwing in the ping callback.  A close, however
    often it happens, never ends it: there is no bound on reconnects. *)
Theorem X18_ways_out_of_tvagent_js
    (dev : Device) (e : Event) (s : State) (code : Z) :
  exited s = None →
  exited (Fixed.step dev e s) = Some code →
  e = Signal ∧ code = 0 ∨ throws e = true ∧ code = 1.
Proof.
  revert e s.
  apply (fixed_step_cases dev
    (λ e s s', exited s = None → exited s' = Some code →
               e = Signal ∧ code = 0 ∨ throws e = true ∧ code = 1)).
  - intros e s Hx Hc. congruence.
  - intros s now sock _ _ _ _ Hx Hc. rewrite Fixed_on_open_exited in Hc.
    simpl in Hc. congruence.
  - intros s now msg _ Hx Hc.
    destruct (Fixed_on_message_cases dev now msg s)
      as [E | (command & co & line & _ & _ & E)]; rewrite E in Hc.
    + congruence.
    + destruct (is_open (ws s)); simpl in Hc; congruence.
  - intros s sock _ _ _ _ Hx Hc. unfold Fixed.on_close in Hc.
    rewrite Fixed_scheduleReconnect_exited in Hc. simpl in Hc. congruence.
  - intros s sock _ _ _ Hx Hc. simpl in Hc. congruence.
  - intros s now ip sendOk _ _ Hx Hc. unfold Fixed.on_ping_timer, Fixed.uncaught in Hc.
    destruct (is_open (ws s)), sendOk; try (simpl in Hc; congruence).
    right. split; [done |]. rewrite exited_process_exit in Hc. congruence.
  - intros s s' ctorOk _ Hexp Hx Hc. unfold expire in Hexp.
    destruct (outstanding ReconnectTimer s) as [| t ?]; [done |].
    injection Hexp as <-. unfold Fixed.on_reconnect_timer in Hc.
    match type of Hc with context [Fixed.connect ctorOk ?Y] =>
      destruct (Fixed_connect_cases ctorOk Y) as (s0 & E & Hx0 & _)
    end.
    rewrite E in Hc. destruct ctorOk.
    + simpl in Hc, Hx0. congruence.
    + right. split; [done |]. unfold Fixed.uncaught in Hc.
      rewrite exited_process_exit in Hc. congruence.
  - intros s ok _ _ Hx Hc. unfold registerToServer_resume in Hc.
    destruct ok; simpl in Hc; congruence.
  - intros s _ _ Hc. left. split; [done |].
    rewrite exited_process_exit in Hc. congruence.
Qed.

(** X18 at a signal received right after start-up. *)
Lemma X18_signal_ends_tvagent_js :
  Signal = Signal ∧ 0 = 0 ∨ throws Signal = true ∧ 0 = 1.
Proof.
  apply (X18_ways_out_of_tvagent_js Sample.dev Signal (Fixed.boot 0 true) 0);
    vm_compute; reflexivity.
Defined.

(** ** Shutting down *)

Lemma outstanding_cleanup_kind (k : TimerKind) (s : State) :
  timers_wf s →
  outstanding k (cleanup s) =
    if decide (k = HealthTimer) then outstanding HealthTimer s else [].
Proof.
  intros W.
  assert (timers_wf (cancel PingTimer s)) as W1 by by apply timers_wf_cancel.
  unfold outstanding at 1. rewrite timers_cleanup.
  change (outstanding k (cancel ReconnectTimer (cancel PingTimer s)) =
          if decide (k = HealthTimer) then outstanding HealthTimer s else []).
  destruct k; simpl.
  - by apply cancel_keeps_none, cancel_none.
  - rewrite cancel_other by done. by rewrite cancel_other.
  - by apply cancel_none.
Qed.

(** X19.  A signal stops the ping interval and the reconnect timeout but
    not the health check: [cleanup()] never clears [healthCheckInterval], so
    in every reachable state the health-check timer that was outstanding
    before [SIGINT] or [SIGTERM] is still outstanding when [process.exit(0)]
    is reached, through both runs of [cleanup()]. *)
Theorem X19_signal_leaves_the_health_check
    (dev : Device) (t0 : Z) (ctorOk : bool) (evs : list Event) :
  let s := Backoff.run dev evs (Backoff.boot t0 ctorOk) in
  exited s = None →
  let s' := Backoff.step dev Signal s in
  exited s' = Some 0 ∧
  outstanding PingTimer s' = [] ∧
  outstanding ReconnectTimer s' = [] ∧
  outstanding HealthTimer s' = outstanding HealthTimer s.
Proof.
  intros s Hx s'.
  assert (timers_wf s) as W by apply timers_wf_run, timers_wf_boot.
  assert (timers_wf (cleanup s)) as W1 by by apply timers_wf_cleanup.
  unfold s', Backoff.step. rewrite Hx.
  assert (∀ k, outstanding k (process_exit 0 (cleanup s)) =
               outstanding k (cleanup (cleanup s))) as E by done.
  split_and!.
  - reflexivity.
  - by rewrite E, outstanding_cleanup_kind.
  - by rewrite E, outstanding_cleanup_kind.
  - rewrite E, outstanding_cleanup_kind, decide_True by done.
    by rewrite outstanding_cleanup_kind, decide_True.
Qed.

(** X19 at a signal received on a transport opened at time 1000. *)
Lemma X19_signal_while_connected :
  let s := Backoff.run Sample.dev [WsOpen 1000] (Backoff.boot 0 true) in
  let s' := Backoff.step Sample.dev Signal s in
  exited s' = Some 0 ∧
  outstanding PingTimer s' = [] ∧
  outstanding ReconnectTimer s' = [] ∧
  outstanding HealthTimer s' = outstanding HealthTimer s.
Proof.
  apply (X19_signal_leaves_the_health_check Sample.dev 0 true [WsOpen 1000]).
  vm_compute. reflexivity.
Defined.

Lemma drop_timer_twice (h : Handle) (l : list Timer) :
  drop_timer h (drop_timer h l) = drop_timer h l.
Proof.
  unfold drop_timer. induction l as [| t l IH]; [done |].
  rewrite (filter_cons _ t l). destruct (decide (timer_id t ≠ h)) as [Hn | Hn]; [| done].
  rewrite filter_cons, decide_True by done. by rewrite IH.
Qed.

Lemma drop_timer_comm (h h' : Handle) (l : list Timer) :
  drop_timer h (drop_timer h' l) = drop_timer h' (drop_timer h l).
Proof.
  unfold drop_timer. induction l as [| t l IH]; [done |].
  rewrite !(filter_cons _ t l).
  destruct (decide (timer_id t ≠ h')), (decide (timer_id t ≠ h));
    rewrite ?filter_cons, ?decide_True, ?decide_False by done; by rewrite ?IH.
Qed.

Lemma timers_cancel (k : TimerKind) (s : State) :
  timers (cancel k s) =
    match var_of k s with
    | Some h => drop_timer h (timers s)
    | None => timers s
    end.
Proof. unfold cancel. by destruct (var_of k s). Qed.

Lemma timers_cleanup_drop (s : State) :
  timers (cleanup s) =
    match reconnectTimer s with
    | Some hr =>
        drop_timer hr match pingTimer s with
                      | Some hp => drop_timer hp (timers s)
                      | None => timers s
                      end
    | None =>
        match pingTimer s with
        | Some hp => drop_timer hp (timers s)
        | None => timers s
        end
    end.
Proof.
  rewrite timers_cleanup, timers_cancel.
  change (var_of ReconnectTimer (cancel PingTimer s))
    with (reconnectTimer (cancel PingTimer s)).
  rewrite reconnectTimer_cancel, timers_cancel. reflexivity.
Qed.

(** X20.  [cleanup()] may run twice, as it does on a signal and at the
    bound on attempts (once called directly, once as the exit listener).
    The second run changes nothing in the process: same timers, same
    transport, lock file still gone.  It does not unlink again and does not
    close again; it only clears the same handles, removes the listeners and
    releases the wake lock once more. *)
Theorem X20_cleanup_twice (s : State) :
  let s1 := cleanup s in
  let s2 := cleanup s1 in
  timers s2 = timers s1 ∧ ws s2 = ws s1 ∧ lockFile s2 = false ∧
  lockFile s1 = false ∧
  extends repeatable (log s1) (log s2).
Proof.
  cbv zeta. split_and!.
  - rewrite (timers_cleanup_drop (cleanup s)).
    rewrite reconnectTimer_cleanup, pingTimer_cleanup, timers_cleanup_drop.
    destruct (reconnectTimer s) as [hr |], (pingTimer s) as [hp |]; try done.
    + rewrite (drop_timer_comm hp hr (drop_timer hp (timers s))).
      by rewrite !drop_timer_twice.
    + by rewrite drop_timer_twice.
    + by rewrite drop_timer_twice.
  - rewrite !ws_cleanup. by destruct (ws s) as [[[] ?] |].
  - apply lockFile_cleanup.
  - apply lockFile_cleanup.
  - pose proof (lockFile_cleanup s) as Hl.
    assert (match ws (cleanup s) with
            | Some sock => open_or_connecting sock = false
            | None => True
            end) as Hw.
    { rewrite ws_cleanup. by destruct (ws s) as [[[] ?] |]. }
    generalize dependent (cleanup s). intros c Hl Hw.
    assert (extends repeatable (log c)
              (log (cancel ReconnectTimer (cancel PingTimer c)))) as Hc.
    { eapply extends_trans; by apply cancel_extends. }
    assert (ws (cancel ReconnectTimer (cancel PingTimer c)) = ws c) as Ew
      by by autorewrite with frame.
    assert (lockFile (cancel ReconnectTimer (cancel PingTimer c)) = false) as El
      by by autorewrite with frame.
    unfold cleanup. cbv zeta.
    generalize dependent (cancel ReconnectTimer (cancel PingTimer c)).
    intros s0 Hc Ew El. rewrite Ew. unfold ws_close, ws_removeAllListeners.
    destruct (ws c) as [sock |]; [rewrite Hw |]; simpl; rewrite El;
      repeat (apply extends_cons; [done |]); exact Hc.
Qed.

(** ** Always a way forward ([src/unnamed/part_000]) *)

Lemma engaged_frame (s s' : State) :
  exited s' = exited s →
  isReconnecting s' = isReconnecting s →
  timers s' = timers s →
  (live_transport s = true → live_transport s' = true) →
  engaged s → engaged s'.
Proof.
  intros Hx Hr Ht Hl E. unfold engaged, outstanding. rewrite Hx, Hr, Ht.
  intros Hrun. destruct (E Hrun) as [E1 [E2 | E2]]; auto.
Qed.

Lemma engaged_scheduleReconnect (s : State) :
  timers_wf s →
  (exited s = None → isReconnecting s = true → outstanding ReconnectTimer s ≠ []) →
  engaged (Backoff.scheduleReconnect s).
Proof.
  intros W Hflag. destruct (isReconnecting s) eqn:Hr.
  - rewrite scheduleReconnect_pending by done. intros Hx.
    split; [| right; by apply Hflag]. rewrite Hr. split; [by auto | done].
  - destruct (Z.lt_ge_cases (reconnectAttempts s) Backoff.MAX_RECONNECT_ATTEMPTS)
      as [Hlt | Hge].
    + intros _. unfold outstanding.
      rewrite scheduleReconnect_only_timer by done.
      destruct (scheduleReconnect_schedules s Hr Hlt) as (-> & _).
      split; [done | by right].
    + rewrite scheduleReconnect_exits by done. intros Hx.
      by rewrite exited_process_exit in Hx.
Qed.

Section Engaged.
Context (dev : Device).

Lemma engaged_step (e : Event) (s : State) :
  timers_wf s → phase_wf s → engaged s → engaged (Backoff.step dev e s).
Proof.
  revert e s.
  apply (step_cases dev
    (λ _ s s', timers_wf s → phase_wf s → engaged s → engaged s')).
  - done.
  - intros s now sock Hx Hw Hc Hl W [P1 _] _ _.
    assert (accepts_open s = true) as Hopen.
    { unfold accepts_open, listening_socket. rewrite Hx, Hw, Hl.
      destruct sock as [r l]. simpl in Hc. by subst r. }
    assert (outstanding ReconnectTimer s = []) as Hnone.
    { destruct (outstanding ReconnectTimer s) eqn:Ho; [done |].
      destruct P1 as (_ & _ & Hno); [done | congruence]. }
    destruct (on_open_control dev now (set_readyState OPEN sock s))
      as (_ & Hr & Hws & _).
    rewrite (outstanding_on_open dev now (set_readyState OPEN sock s)) by done.
    rewrite Hr. split; [split; done |]. left.
    unfold live_transport, listening_socket. rewrite Hws. simpl. by rewrite Hl.
  - intros s now msg _ _ _ _ E.
    destruct (on_message_shape dev now msg s) as (l & -> & _).
    by eapply engaged_frame; [.. | exact E].
  - intros s sock Hx Hw Hc Hl W _ E. apply engaged_scheduleReconnect.
    + unfold set_readyState. timers_frame.
    + intros _ Hr. by apply (E Hx).
  - intros s now _ _ _ _ E. by eapply engaged_frame; [.. | exact E].
  - intros s now _ _ _ _ E. by eapply engaged_frame; [.. | exact E].
  - intros s sock Hx Hw Ho _ _ E. eapply engaged_frame; [.. | exact E]; try done.
    unfold live_transport, listening_socket. simpl. rewrite Hw.
    by destruct (listening sock).
  - intros s now ip sendOk Hx _ W _ E. unfold Backoff.on_ping_timer.
    destruct (is_open (ws s)), sendOk.
    2-4: apply engaged_scheduleReconnect; [done |]; intros _ Hr; by apply (E Hx).
    by eapply engaged_frame; [.. | exact E].
  - intros s now Hx _ W _ E. unfold Backoff.on_health_timer. cbv zeta.
    case_match; [| done]. apply engaged_scheduleReconnect.
    + destruct (ws s); [unfold ws_terminate; timers_frame | done].
    + intros _ Hr. destruct (ws s); by apply (E Hx).
  - intros s s1 ctorOk Hx Hexp W _ _.
    pose proof (timers_wf_expire _ _ _ W Hexp) as W1.
    destruct (expire_fields _ _ _ W Hexp) as (Hnone & _ & h & ->).
    unfold Backoff.on_reconnect_timer.
    match goal with |- context [Backoff.connect ctorOk ?Y] =>
      assert (timers_wf Y) as WY by timers_frame;
      destruct (connect_cases ctorOk Y)
        as (s0 & -> & _ & Ht0 & _ & _ & Hr0 & _ & _ & _ & _ & W0);
      specialize (W0 WY)
    end.
    assert (outstanding ReconnectTimer s0 = []) as Hnone0.
    { unfold outstanding in *. by rewrite Ht0. }
    simpl in Hr0. destruct ctorOk.
    + intros _. split; [| by left]. simpl.
      change (outstanding ReconnectTimer (emit ENewSocket (set_ws _ s0)))
        with (outstanding ReconnectTimer s0).
      rewrite Hnone0, Hr0. split; done.
    + apply engaged_scheduleReconnect; [done |]. intros _ Hr. congruence.
  - intros s ok _ _ _ _ E. unfold registerToServer_resume.
    destruct ok; by eapply engaged_frame; [.. | exact E].
  - intros s _ _ _ _ Hx. by rewrite exited_process_exit in Hx.
Qed.

Lemma engaged_run (evs : list Event) (s : State) :
  timers_wf s → phase_wf s → engaged s → engaged (Backoff.run dev evs s).
Proof.
  revert s. induction evs as [| e evs IH]; [done |].
  intros s W P E. simpl.
  apply IH; [by apply timers_wf_step | by apply phase_wf_step | by apply engaged_step].
Qed.

End Engaged.

Lemma engaged_boot (t0 : Z) (ctorOk : bool) : engaged (Backoff.boot t0 ctorOk).
Proof.
  destruct ctorOk; intros _.
  - split; [split; done | by left].
  - split; [| right]; by vm_compute.
Qed.

(** X21.  The guard tells the truth, and the agent is never left with
    nothing to wait for.  In every reachable state of a running process
    [isReconnecting] is set exactly when a reconnect timeout is outstanding,
    so a set flag never suppresses a reconnect that nothing will perform;
    and the agent holds a transport that can still deliver an event to it,
    or a reconnect timeout is outstanding. *)
Theorem X21_always_a_way_forward
    (dev : Device) (t0 : Z) (ctorOk : bool) (evs : list Event) :
  let s := Backoff.run dev evs (Backoff.boot t0 ctorOk) in
  exited s = None →
  (isReconnecting s = true ↔ outstanding ReconnectTimer s ≠ []) ∧
  (live_transport s = true ∨ outstanding ReconnectTimer s ≠ []).
Proof.
  intros s.
  assert (engaged s) as E; [| exact E].
  apply engaged_run.
  - apply timers_wf_boot.
  - apply phase_wf_boot.
  - apply engaged_boot.
Qed.

(** X21 while the reconnect that follows a first close is pending. *)
Lemma X21_pending_after_a_close :
  let s := Backoff.run Sample.dev [WsOpen 1000; WsClose] (Backoff.boot 0 true) in
  (isReconnecting s = true ↔ outstanding ReconnectTimer s ≠ []) ∧
  (live_transport s = true ∨ outstanding ReconnectTimer s ≠ []).
Proof.
  apply (X21_always_a_way_forward Sample.dev 0 true [WsOpen 1000; WsClose]).
  vm_compute. reflexivity.
Defined.

(** ** Register first ([src/unnamed/part_000]) *)

Lemma announced_extends (older newer : list Effect) :
  extends frame_neutral older newer →
  announced newer = announced older ∧ (register_first older → register_first newer).
Proof.
  intros (recent & -> & Hr). induction Hr as [| e recent He _ [IH1 IH2]]; [done |].
  destruct e; simpl in *; try done; auto.
Qed.

Lemma protocol_wf_frame (s s' : State) :
  extends frame_neutral (log s) (log s') →
  (is_open (ws s') = true → is_open (ws s) = true) →
  protocol_wf s → protocol_wf s'.
Proof.
  intros He Hw [T1 T2]. destruct (announced_extends _ _ He) as [E1 E2].
  split; [auto |]. rewrite E1. auto.
Qed.

Lemma teardown_frame_neutral (e : Effect) : teardown e → frame_neutral e.
Proof. by destruct e. Qed.

Lemma is_open_cleanup (s : State) :
  is_open (ws (cleanup s)) = true → is_open (ws s) = true.
Proof. rewrite ws_cleanup. by destruct (ws s) as [[[] ?] |]. Qed.

Lemma protocol_wf_process_exit (code : Z) (s : State) :
  protocol_wf s → protocol_wf (process_exit code s).
Proof.
  intros P. eapply protocol_wf_frame; [| | exact P].
  - apply process_exit_extends; [apply teardown_frame_neutral | done].
  - apply is_open_cleanup.
Qed.

Lemma protocol_wf_scheduleReconnect (s : State) :
  protocol_wf s → protocol_wf (Backoff.scheduleReconnect s).
Proof.
  intros P. destruct (isReconnecting s) eqn:Hr.
  - by rewrite scheduleReconnect_pending.
  - destruct (Z.lt_ge_cases (reconnectAttempts s) Backoff.MAX_RECONNECT_ATTEMPTS)
      as [Hlt | Hge].
    + destruct (scheduleReconnect_schedules_log s Hr Hlt) as (older & Hlog & Ho).
      destruct (scheduleReconnect_schedules s Hr Hlt) as (_ & _ & _ & _ & _ & _ & Hw & _).
      eapply protocol_wf_frame; [| | exact P].
      * rewrite Hlog. apply extends_cons; [done |].
        eapply extends_mono; [| exact Ho]. by intros e [h ->].
      * by rewrite Hw.
    + rewrite scheduleReconnect_exits by done.
      apply protocol_wf_process_exit.
      eapply protocol_wf_frame; [| | exact P].
      * apply cleanup_extends, teardown_frame_neutral.
      * apply is_open_cleanup.
Qed.

Lemma protocol_wf_connect ok (s : State) :
  protocol_wf s → protocol_wf (Backoff.connect ok s).
Proof.
  intros [P1 P2].
  destruct (connect_cases ok s)
    as (s0 & -> & Hw0 & _ & _ & _ & _ & _ & _ & _ & Hlog & _).
  assert (register_first (log s0)) as R0.
  { destruct (ws s) as [sock |]; rewrite Hlog; [| done].
    destruct (open_or_connecting sock); simpl; by split_and?. }
  destruct ok.
  - split; [by split | done].
  - apply protocol_wf_scheduleReconnect. split; [done |]. by rewrite Hw0.
Qed.

Section Protocol.
Context (dev : Device).

Lemma protocol_wf_step (e : Event) (s : State) :
  protocol_wf s → protocol_wf (Backoff.step dev e s).
Proof.
  revert e s. apply (step_cases dev (λ _ s s', protocol_wf s → protocol_wf s')).
  - done.
  - intros s now sock _ _ _ _ [P1 _]. unfold Backoff.on_open. cbv zeta.
    match goal with |- context [registerToServer dev Backoff.cabangId ?Y] =>
      assert (protocol_wf Y) as PY by (split; [by split | done]);
      assert (announced (log Y) = true) as AY by done;
      generalize dependent Y; intros s1 P1' A1
    end.
    destruct P1' as [Q1 _].
    match goal with |- protocol_wf ?Z =>
      assert (extends frame_neutral (log s1) (log Z)) as Hext
    end.
    { eapply extends_trans; [| by apply arm_extends].
      eapply extends_trans; [| by apply arm_extends].
      eapply extends_trans; [| by apply cancel_and_forget_extends].
      eapply extends_trans; [| by apply cancel_and_forget_extends].
      by apply registerToServer_extends. }
    destruct (announced_extends _ _ Hext) as [E1 E2].
    split; [auto |]. intros _. congruence.
  - intros s now msg _ _ [P1 P2].
    destruct (on_message_cases dev now msg s) as [-> | (command & code & line & _ & _ & ->)];
      [by split |].
    destruct (is_open (ws s)) eqn:Ho.
    + specialize (P2 eq_refl). split; [simpl; by split_and? |].
      intros _. exact P2.
    + split; [simpl; by split_and? |]. simpl. by rewrite Ho.
  - intros s sock _ Hw _ _ P. apply protocol_wf_scheduleReconnect.
    eapply protocol_wf_frame; [| | exact P]; [apply extends_refl | done].
  - intros s now _ _ P. eapply protocol_wf_frame; [| | exact P]; [| done].
    simpl. apply extends_cons; [done | apply extends_refl].
  - by intros s now _ _ P.
  - intros s sock _ _ _ P.
    eapply protocol_wf_frame; [| | exact P]; [apply extends_refl | done].
  - intros s now ip sendOk _ _ [P1 P2]. unfold Backoff.on_ping_timer.
    destruct (is_open (ws s)) eqn:Ho, sendOk;
      try (apply protocol_wf_scheduleReconnect; split; [done | by rewrite Ho]).
    specialize (P2 eq_refl). split; [simpl; by split_and? |].
    intros _. exact P2.
  - intros s now _ _ P. unfold Backoff.on_health_timer. cbv zeta.
    case_match; [| done]. apply protocol_wf_scheduleReconnect.
    destruct (ws s) as [sock |] eqn:Hw; [| done].
    eapply protocol_wf_frame; [| | exact P].
    + simpl. apply extends_cons; [done | apply extends_refl].
    + simpl. by destruct sock as [[] ?].
  - intros s s' ctorOk _ Hexp P. unfold expire in Hexp.
    destruct (outstanding ReconnectTimer s) as [| t ?]; [done |].
    injection Hexp as <-. apply protocol_wf_connect.
    eapply protocol_wf_frame; [| | exact P]; [| done].
    simpl. apply extends_cons; [done | apply extends_refl].
  - intros s ok _ _ P. unfold registerToServer_resume. by destruct ok.
  - intros s _ P. apply protocol_wf_process_exit.
    eapply protocol_wf_frame; [| | exact P].
    + apply cleanup_extends, teardown_frame_neutral.
    + apply is_open_cleanup.
Qed.

Lemma protocol_wf_run (evs : list Event) (s : State) :
  protocol_wf s → protocol_wf (Backoff.run dev evs s).
Proof.
  revert s. induction evs as [| e evs IH]; [done |].
  intros s P. simpl. by apply IH, protocol_wf_step.
Qed.

End Protocol.

(** X22.  Register first.  In every reachable state, every ping and every
    confirmation in the history was sent on a transport on which the
    register frame had been sent before: the first frame the agent sends on
    each transport it constructs is its registration, and an open transport
    has always been registered on. *)
Theorem X22_register_first
    (dev : Device) (t0 : Z) (ctorOk : bool) (evs : list Event) :
  let s := Backoff.run dev evs (Backoff.boot t0 ctorOk) in
  register_first (log s) ∧ (is_open (ws s) = true → announced (log s) = true).
Proof.
  intros s.
  assert (protocol_wf s) as P; [| exact P].
  apply protocol_wf_run, protocol_wf_connect. by split.
Qed.

(** ** When a key event runs *)

Lemma addressed_object (dev : Device) (data : json) :
  addressed dev data = true → ∃ props, data = JObj props.
Proof.
  unfold addressed. destruct data; simpl; try done. by eexists.
Qed.

Lemma runnable_sendKey (data : json) (s : State) :
  (∃ props, data = JObj props) →
  ∃ command, Get data "command" = Some command ∧
    (runnable data = true ↔ sendKey command s ≠ None).
Proof.
  intros [props ->]. unfold runnable.
  destruct (Get (JObj props) "command") as [command |] eqn:Hc; [| done].
  exists command. split; [done |]. rewrite sendKey_None.
  destruct command as [| j | name |].
  - split; [| done]. by intros _ (j & [=] & _).
  - destruct (unprintable j) eqn:Hj; simpl.
    + split; [done |]. intros Hn. destruct Hn. by exists j.
    + split; [| done]. intros _ (j' & [= <-] & Hj'). congruence.
  - split; [| done]. by intros _ (j & [=] & _).
  - split; [| done]. by intros _ (j & [=] & _).
Qed.

(** X23.  When a key event runs.  For a decoded message the handler of
    [src/unnamed/part_000] hands a key event to the shell exactly when the
    type is neither [welcome] nor [pong], the target is this device's id or
    [all], and the command can be turned into a string; it then confirms if
    and only if the transport is open.  In every other case (a payload that
    is not an object, another target, a classified type, a command that
    cannot be printed) it records the arrival and does nothing else.  The
    handler of [src/tvagent.js] does the same without looking at the
    type. *)
Theorem X23_when_a_key_event_runs
    (dev : Device) (now : Z) (data : json) (s : State) :
  (if runs_key_event dev data
   then ∃ command code line,
          Get data "command" = Some command ∧
          keyCode command = Some code ∧ adb_keyevent code = Some line ∧
          Backoff.on_message dev now (Parsed data) s =
            if is_open (ws s)
            then emit (ESend (Confirm (tvId dev) command "ok" now))
                   (emit (EExec line) (set_lastActivityTime now s))
            else emit (EExec line) (set_lastActivityTime now s)
   else Backoff.on_message dev now (Parsed data) s = set_lastActivityTime now s) ∧
  (if runs_key_event_fixed dev data
   then ∃ command code line,
          Get data "command" = Some command ∧
          keyCode command = Some code ∧ adb_keyevent code = Some line ∧
          Fixed.on_message dev now (Parsed data) s =
            if is_open (ws s)
            then emit (ESend (Confirm (tvId dev) command "ok" now)) (emit (EExec line) s)
            else emit (EExec line) s
   else Fixed.on_message dev now (Parsed data) s = s).
Proof.
  unfold runs_key_event, runs_key_event_fixed, classified.
  destruct (addressed dev data) eqn:Ha.
  - destruct (addressed_object dev data Ha) as [props ->].
    destruct (runnable_sendKey (JObj props) s (ex_intro _ props eq_refl))
      as (command & Hc & Hrun).
    assert (∀ s', sendKey command s' = None ↔ sendKey command s = None) as Hany.
    { intros s'. by rewrite !sendKey_None. }
    unfold addressed in Ha.
    destruct (Get (JObj props) "target") as [target |] eqn:Ht; [| done].
    unfold Backoff.on_message, Fixed.on_message. rewrite Ht, Ha, Hc. cbv zeta.
    assert (∃ type, Get (JObj props) "type" = Some type) as [type Hty] by by eexists.
    rewrite Hty.
    destruct (runnable (JObj props)) eqn:Hr.
    + assert (sendKey command s ≠ None) as Hs by by apply Hrun.
      clear Hrun Hany.
      unfold sendKey in Hs |- *.
      destruct (keyCode command) as [code |] eqn:Hcode; [| done].
      destruct (adb_keyevent code) as [line |] eqn:Hline; [| done].
      rewrite andb_true_r. split.
      * destruct (is_string type "welcome"), (is_string type "pong"); simpl; try done.
        by exists command, code, line.
      * by exists command, code, line.
    + assert (sendKey command s = None) as Hs.
      { destruct (sendKey command s) eqn:E; [| done].
        assert (false = true) as Habs by by apply Hrun. discriminate Habs. }
      assert (sendKey command (set_lastActivityTime now s) = None) as Hs'
        by by apply Hany.
      rewrite Hs, Hs', andb_false_r. split; [| done].
      by destruct (is_string type "welcome"), (is_string type "pong").
  - rewrite andb_false_r. simpl. unfold addressed in Ha.
    unfold Backoff.on_message, Fixed.on_message. cbv zeta.
    destruct (Get data "target") as [target |]; [rewrite Ha |];
      destruct (Get data "type") as [type |]; try done.
    all: split; [| done].
    all: by destruct (is_string type "welcome"), (is_string type "pong").
Qed.

(** ** How long the health check runs ([src/unnamed/part_000]) *)

Lemma reconnects_app (recent older : list Effect) :
  reconnects (recent ++ older)%list = (reconnects recent + reconnects older)%nat.
Proof.
  induction recent as [| e recent IH]; [done |].
  destruct e as [| | | | | | | | [] | | | |]; simpl; by rewrite ?IH.
Qed.

Lemma step_reconnects_mono (dev : Device) (e : Event) (s : State) :
  (reconnects (log s) ≤ reconnects (log (Backoff.step dev e s)))%nat.
Proof.
  destruct (step_caused dev e s) as (recent & -> & _). rewrite reconnects_app. lia.
Qed.

Lemma run_reconnects_mono (dev : Device) (evs : list Event) (s : State) :
  (reconnects (log s) ≤ reconnects (log (Backoff.run dev evs s)))%nat.
Proof.
  revert s. induction evs as [| e evs IH]; intros s; [done |].
  simpl. etrans; [apply (step_reconnects_mono dev e) | apply IH].
Qed.

(** While the health check is outstanding in a running process, a call of
    [scheduleReconnect] schedules. *)
Lemma scheduleReconnect_counts (s0 s : State) :
  timers_wf s → control_wf s → exited s = None →
  outstanding HealthTimer s ≠ [] →
  reconnectAttempts s0 = reconnectAttempts s →
  isReconnecting s0 = false →
  reconnects (log (Backoff.scheduleReconnect s0)) = S (reconnects (log s0)).
Proof.
  intros W [_ C2] Hx Hh Ha Hr.
  destruct C2 as (_ & Hzero & _); [done | right; by apply (held_outstanding HealthTimer) |].
  apply scheduleReconnect_arms_one; [done |]. rewrite Ha, Hzero. done.
Qed.

Section HealthRuns.
Context (dev : Device).

Lemma step_keeps_health (e : Event) (s : State) :
  timers_wf s → control_wf s →
  outstanding HealthTimer s ≠ [] →
  reconnects (log (Backoff.step dev e s)) = reconnects (log s) →
  outstanding HealthTimer (Backoff.step dev e s) ≠ [].
Proof.
  revert e s.
  apply (step_cases dev
    (λ _ s s', timers_wf s → control_wf s → outstanding HealthTimer s ≠ [] →
               reconnects (log s') = reconnects (log s) →
               outstanding HealthTimer s' ≠ [])).
  - done.
  - intros s now sock _ _ _ _ W _ _ _.
    destruct (on_open_health dev now (set_readyState OPEN sock s)) as [h ->]; [| done].
    unfold set_readyState. timers_frame.
  - intros s now msg _ _ _ _ Hh _.
    by destruct (on_message_shape dev now msg s) as (l & -> & _).
  - intros s sock Hx _ _ _ W C Hh Hn. exfalso.
    assert (isReconnecting s = false) as Hr.
    { destruct C as [_ C2].
      by destruct C2 as (? & _); [| right; apply (held_outstanding HealthTimer) |]. }
    unfold Backoff.on_close in Hn.
    rewrite (scheduleReconnect_counts (set_readyState CLOSED sock s) s) in Hn by done.
    simpl in Hn. lia.
  - by intros s now _ _ _ _ Hh _.
  - by intros s now _ _ _ _ Hh _.
  - by intros s sock _ _ _ _ _ Hh _.
  - intros s now ip sendOk Hx _ W C Hh Hn.
    assert (isReconnecting s = false) as Hr.
    { destruct C as [_ C2].
      by destruct C2 as (? & _); [| right; apply (held_outstanding HealthTimer) |]. }
    unfold Backoff.on_ping_timer in *.
    destruct (is_open (ws s)), sendOk; try done.
    all: exfalso; rewrite (scheduleReconnect_counts s s) in Hn by done; lia.
  - intros s now Hx _ W C Hh Hn.
    assert (isReconnecting s = false) as Hr.
    { destruct C as [_ C2].
      by destruct C2 as (? & _); [| right; apply (held_outstanding HealthTimer) |]. }
    unfold Backoff.on_health_timer in *. cbv zeta in *.
    destruct (_ <? _); [| done]. exfalso.
    destruct (ws s) as [sock |].
    + rewrite (scheduleReconnect_counts (ws_terminate sock s) s) in Hn by done.
      simpl in Hn. lia.
    + rewrite (scheduleReconnect_counts s s) in Hn by done. lia.
  - intros s s1 ctorOk Hx Hexp W C Hh Hn.
    destruct (expire_fields _ _ _ W Hexp) as (_ & Hother & h & ->).
    specialize (Hother HealthTimer ltac:(done)).
    unfold Backoff.on_reconnect_timer in *.
    match goal with |- context [Backoff.connect ctorOk ?Y] =>
      destruct (connect_cases ctorOk Y)
        as (s0 & E & _ & Ht0 & _ & _ & Hr0 & Ha0 & _ & _ & Hlog & _)
    end.
    rewrite E in Hn |- *. simpl in Hr0, Ha0, Ht0.
    assert (outstanding HealthTimer s0 = outstanding HealthTimer s) as Hsame.
    { rewrite <- Hother. unfold outstanding. by rewrite Ht0. }
    destruct ctorOk.
    + change (outstanding HealthTimer s0 ≠ []). by rewrite Hsame.
    + exfalso.
      rewrite (scheduleReconnect_counts s0 s) in Hn by done.
      assert (reconnects (log s) ≤ reconnects (log s0))%nat; [| lia].
      simpl in Hlog. destruct (ws s) as [sock |]; rewrite Hlog;
        [destruct (open_or_connecting sock) |]; simpl; lia.
  - intros s ok _ _ _ _ Hh _. unfold registerToServer_resume. by destruct ok.
  - intros s _ W _ Hh _.
    change (outstanding HealthTimer (cleanup (cleanup s)) ≠ []).
    rewrite outstanding_cleanup_kind, decide_True by (done || by apply timers_wf_cleanup).
    by rewrite outstanding_cleanup_kind, decide_True.
Qed.

Lemma run_keeps_health (evs : list Event) (s : State) :
  timers_wf s → control_wf s →
  outstanding HealthTimer s ≠ [] →
  reconnects (log (Backoff.run dev evs s)) = reconnects (log s) →
  outstanding HealthTimer (Backoff.run dev evs s) ≠ [].
Proof.
  revert s. induction evs as [| e evs IH]; intros s W C Hh Hn; [done |].
  simpl in *.
  pose proof (step_reconnects_mono dev e s) as M1.
  pose proof (run_reconnects_mono dev evs (Backoff.step dev e s)) as M2.
  apply IH.
  - by apply timers_wf_step.
  - by apply control_wf_step.
  - apply step_keeps_health; try done. lia.
  - lia.
Qed.

End HealthRuns.

(** C8 (counterexample).  The transport is open and no health check runs:
    after a ping callback that threw, [scheduleReconnect] has cleared the
    health check while [ws] is still open, and a health-check tick that
    would find the connection idle for more than three ping intervals
    terminates nothing. *)
Lemma C8_open_transport_without_health_check :
  is_open (ws Cases.ping_failed) = true ∧
  exited Cases.ping_failed = None ∧
  outstanding HealthTimer Cases.ping_failed = [] ∧
  3 * Backoff.PING_INTERVAL < 1000000 - lastActivityTime Cases.ping_failed ∧
  Backoff.step Sample.dev (HealthTick 1000000) Cases.ping_failed = Cases.ping_failed.
Proof. split_and!; vm_compute; reflexivity. Qed.

(** C8 (amended).  Every open leaves one health check of period twice the
    ping interval, and that health check stays outstanding for as long as
    no reconnect has been scheduled since the open; once a reconnect
    timeout is outstanding no health check is, whatever the state of the
    transport.  When the check runs it compares [now - lastActivityTime]
    with three ping intervals: up to that it does nothing; beyond it, it
    terminates the transport (no graceful close), and [scheduleReconnect]
    arms one reconnect timer; until that timer runs, no event arms
    another. *)
Theorem C8_stale_connection_is_terminated
    (dev : Device) (t0 : Z) (ctorOk : bool) (evs : list Event) (now : Z) :
  let s := Backoff.run dev evs (Backoff.boot t0 ctorOk) in
  let idleTime := now - lastActivityTime s in
  let s' := Backoff.step dev (HealthTick now) s in
  (∀ opened, accepts_open s = true →
     ∃ h, outstanding HealthTimer (Backoff.step dev (WsOpen opened) s) =
            [{| timer_id := h; timer_kind := HealthTimer;
                timer_delay := 2 * Backoff.PING_INTERVAL |}]) ∧
  (exited s = None →
   outstanding HealthTimer s ≠ [] →
   (∀ t, t ∈ outstanding HealthTimer s → timer_delay t = 2 * Backoff.PING_INTERVAL) ∧
   (idleTime ≤ 3 * Backoff.PING_INTERVAL → s' = s) ∧
   (3 * Backoff.PING_INTERVAL < idleTime →
    (∃ sock recent,
        ws s = Some sock ∧ ws s' = Some (closing sock) ∧
        log s' = (recent ++ ETerminate :: log s)%list ∧ timer_ops recent) ∧
    isReconnecting s' = true ∧
    reconnects (log s') = S (reconnects (log s)) ∧
    ∀ evs', Forall (λ e, is_reconnect_fire e = false) evs' →
            reconnects (log (Backoff.run dev evs' s')) = S (reconnects (log s)))) ∧
  (∀ opened evs', accepts_open s = true →
     let s1 := Backoff.step dev (WsOpen opened) s in
     let s2 := Backoff.run dev evs' s1 in
     reconnects (log s2) = reconnects (log s1) →
     ∃ h, outstanding HealthTimer s2 =
            [{| timer_id := h; timer_kind := HealthTimer;
                timer_delay := 2 * Backoff.PING_INTERVAL |}]) ∧
  (outstanding ReconnectTimer s ≠ [] → outstanding HealthTimer s = []).
Proof.
  intros s idleTime s'.
  assert (timers_wf s) as W by apply timers_wf_run, timers_wf_boot.
  assert (control_wf s) as C by apply control_wf_run, control_wf_boot.
  split; [| split; [| split]].
  - intros opened Hopen. destruct (step_open dev opened s Hopen) as (sock & _ & ->).
    replace (2 * Backoff.PING_INTERVAL) with (Backoff.PING_INTERVAL * 2) by lia.
    apply on_open_health. unfold set_readyState. timers_frame.
  - destruct C as [C1 C2]. intros Hx Hhealth.
    assert (∀ t, t ∈ outstanding HealthTimer s →
                 timer_delay t = 2 * Backoff.PING_INTERVAL) as Hperiod.
    { intros t Ht. apply list_elem_of_filter in Ht as [Hk Ht].
      destruct W as [_ _ _ _ W5 _ _]. rewrite (W5 t Ht Hk). lia. }
    split; [done |].
    assert (s' = Backoff.on_health_timer now s) as Hs'.
    { unfold s', Backoff.step. rewrite Hx. by destruct (outstanding HealthTimer s). }
    split.
    + intros Hidle. rewrite Hs'. unfold Backoff.on_health_timer. cbv zeta.
      fold idleTime. destruct (Z.ltb_spec (Backoff.PING_INTERVAL * 3) idleTime); [lia | done].
    + intros Hidle.
      assert (is_Some (healthCheckInterval s)) as Hvar.
      { destruct (outstanding HealthTimer s) as [| t ?] eqn:E; [done |].
        assert (t ∈ outstanding HealthTimer s) as Ht by (rewrite E; by left).
        apply list_elem_of_filter in Ht as [Hk Ht].
        destruct W as [W1 _ _ _ _ _ _]. specialize (W1 t Ht). rewrite Hk in W1. by eexists. }
      destruct C2 as (Hr & Ha & [sock Hw]); [done | by right |].
      assert (s' = Backoff.scheduleReconnect (ws_terminate sock s)) as Hs''.
      { rewrite Hs'. unfold Backoff.on_health_timer. cbv zeta. fold idleTime.
        destruct (Z.ltb_spec (Backoff.PING_INTERVAL * 3) idleTime); [| lia].
        by rewrite Hw. }
      assert (reconnectAttempts (ws_terminate sock s) < Backoff.MAX_RECONNECT_ATTEMPTS)
        as Hlt by (simpl; rewrite Ha; done).
      destruct (scheduleReconnect_schedules (ws_terminate sock s) Hr Hlt)
        as (Hr' & _ & _ & _ & _ & Hx' & Hw' & _).
      destruct (scheduleReconnect_log (ws_terminate sock s) Hr Hlt) as (recent & Hlog & Hops).
      pose proof (scheduleReconnect_arms_one (ws_terminate sock s) Hr Hlt) as Hone.
      rewrite <- Hs'' in *. simpl in Hone, Hlog, Hw', Hx'.
      split_and!; [by eexists _, _ | done | done |].
      intros evs' Hevs'. rewrite <- Hone. apply run_pending; [done | done |].
      unfold accepts_open, listening_socket. rewrite Hx', Hx, Hw'.
      by destruct sock as [[] []].
  - intros opened evs' Hopen s1 s2 Hn.
    assert (timers_wf s1) as W1 by by apply timers_wf_step.
    assert (control_wf s1) as C1 by by apply control_wf_step.
    assert (outstanding HealthTimer s1 ≠ []) as H1.
    { unfold s1. destruct (step_open dev opened s Hopen) as (sock & _ & ->).
      destruct (on_open_health dev opened (set_readyState OPEN sock s)) as [h ->]; [| done].
      unfold set_readyState. timers_frame. }
    pose proof (run_keeps_health dev evs' s1 W1 C1 H1 Hn) as H2. fold s2 in H2.
    assert (timers_wf s2) as [_ W2 _ _ W5 _ _] by by apply timers_wf_run.
    specialize (W2 HealthTimer).
    destruct (outstanding HealthTimer s2) as [| t [| t' rest]] eqn:E;
      [done | | simpl in W2; lia].
    assert (t ∈ outstanding HealthTimer s2) as Ht by (rewrite E; by left).
    apply list_elem_of_filter in Ht as [Hk Ht]. specialize (W5 t Ht Hk).
    exists (timer_id t). destruct t as [h k d]. simpl in *. subst k d.
    by replace (2 * Backoff.PING_INTERVAL) with (Backoff.PING_INTERVAL * 2) by lia.
  - intros Hr.
    assert (phase_wf s) as [P1 _].
    { apply phase_wf_run; [apply timers_wf_boot | apply phase_wf_boot]. }
    destruct (P1 Hr) as (_ & Hh & _). by apply var_none_outstanding.
Qed.

(** C8 at a transport opened at time 1000 and silent until 200000. *)
Lemma C8_idle_connection_reconnects_once :
  let s := Sample.opened in
  let s' := Backoff.step Sample.dev (HealthTick 200000) s in
  (∀ t, t ∈ outstanding HealthTimer s → timer_delay t = 2 * Backoff.PING_INTERVAL) ∧
  (200000 - lastActivityTime s ≤ 3 * Backoff.PING_INTERVAL → s' = s) ∧
  (3 * Backoff.PING_INTERVAL < 200000 - lastActivityTime s →
   (∃ sock recent,
       ws s = Some sock ∧ ws s' = Some (closing sock) ∧
       log s' = (recent ++ ETerminate :: log s)%list ∧ timer_ops recent) ∧
   isReconnecting s' = true ∧
   reconnects (log s') = S (reconnects (log s)) ∧
   ∀ evs', Forall (λ e, is_reconnect_fire e = false) evs' →
           reconnects (log (Backoff.run Sample.dev evs' s')) = S (reconnects (log s))).
Proof.
  apply (proj1 (proj2 (C8_stale_connection_is_terminated
                         Sample.dev 0 true [WsOpen 1000] 200000)));
    vm_compute; [reflexivity | discriminate].
Defined.
